(** * TCP group chat relay: the poll server, its framer and the wire format

    A shallow embedding of the poll-based server ([src/server.c] of the
    repository, its event loop included), of [main] and of the sender and
    receiver threads of [client.c], of [recv_exact], [send_exact] and
    [bytes_to_hex] of [common.c] and of the constants of [protocol.h], with
    the properties of the relay stated over it.

    Conventions.
    - A C [int], [ssize_t] or [uintN_t] is a [Z]; a [char]/[uint8_t] held in a
      buffer is a [byte]; an array is the list of its cells.  Where the code
      computes in a signed type on values that a caller chooses
      ([bytes_to_hex]), the range of the type is written out, [int] being
      32 bits wide and [ssize_t] 64, and a result out of range is the
      undefined behaviour that C makes of it.
    - [memcpy] of an integer copies its object representation; the host is
      taken little-endian, so a [uint32_t] is the four bytes [le_split 4].
      Both ends of the wire copy representations verbatim, hence the bytes on
      the wire are the octets of [s_addr] and [sin_port] as [accept] stored
      them (network order).
    - System calls are events of a trace ([Send], [Close]) or inputs of the
      function that performs them (what [read] and [accept] returned).
      Logging is not modelled. *)

From Stdlib Require Import ZArith List Lia Bool.
From coqutil Require Import Byte Word.LittleEndianList.
From stdpp Require Import base list.
Import ListNotations.
Local Open Scope Z_scope.

(** ** Constants of protocol.h *)

Definition BUF_SIZE : Z := 1024.
Definition MAX_USERNAME_LEN : Z := 32.
Definition MSG_TYPE_CHAT : Z := 0.
Definition MSG_TYPE_DISCONNECT : Z := 1.
Definition MSG_TYPE_JOIN : Z := 2.
Definition MSG_TYPE_USERNAME : Z := 3.

Definition NUL : byte := Byte.x00.
Definition NEWLINE : byte := Byte.x0a.

(** ** C library functions on arrays *)

(** [strlen]: number of bytes before the first NUL.  On an array without NUL
    the C function reads past the end; the model then returns the length of
    the array. *)
Fixpoint strlen (s : list byte) : nat :=
  match s with
  | [] => O
  | c :: s' => if Byte.eqb c NUL then O else S (strlen s')
  end.

(** The C string held in an array: its bytes up to the first NUL. *)
Definition cstring (s : list byte) : list byte := firstn (strlen s) s.

(** [memchr (s, c, n)]: offset of the first [c] among the first [n] cells. *)
Fixpoint index_of (c : byte) (s : list byte) : option nat :=
  match s with
  | [] => None
  | x :: s' => if Byte.eqb x c then Some O
               else match index_of c s' with
                    | Some k => Some (S k)
                    | None => None
                    end
  end.

Definition memchr (s : list byte) (c : byte) (n : Z) : option Z :=
  match index_of c (firstn (Z.to_nat n) s) with
  | Some k => Some (Z.of_nat k)
  | None => None
  end.

(** A write of [data] into the array [mem] at offset [off]
    ([memcpy (mem + off, data, length data)], and what [read] does to the
    buffer it is given). *)
Definition store (off : Z) (data : list byte) (mem : list byte) : list byte :=
  firstn (Z.to_nat off) mem ++ data
    ++ skipn (Z.to_nat off + length data) mem.

(** [n] cells of [mem] from offset [off]. *)
Definition load (off n : Z) (mem : list byte) : list byte :=
  firstn (Z.to_nat n) (skipn (Z.to_nat off) mem).

(** [strncpy (dst, src, n)] into a fresh array: the string, NUL-padded or
    cut to [n] cells. *)
Definition strncpy (src : list byte) (n : nat) : list byte :=
  firstn n (cstring src ++ replicate n NUL).

(** ** Data model of server.c *)

Record sockaddr_in : Type := mk_addr {
  s_addr : Z;      (* uint32_t, as stored by accept *)
  sin_port : Z     (* uint16_t, as stored by accept *)
}.

Record client_t : Type := mk_client {
  fd : Z;                 (* socket descriptor, -1 for an empty slot *)
  buf : list byte;        (* char buf[BUF_SIZE] *)
  len : Z;                (* number of buffered bytes *)
  addr : sockaddr_in;
  username : list byte;   (* char username[MAX_USERNAME_LEN] *)
  has_username : Z        (* int used as a flag *)
}.

(** The global [clients] array; [max_clients] is its length. *)
Abbreviation server := (list client_t).

Inductive event : Type :=
| Send (slot : nat) (sock : Z) (payload : list byte)  (* send_exact *)
| Close (sock : Z)                                    (* close *)
| Frame (slot : nat) (bytes : list byte).
    (* ghost: the read loop hands buf[0 .. msg_len) to process_message *)

Abbreviation trace := (list event).

(** Outcome of a server function.  [Undefined] stands for an execution that
    leaves the behaviour defined by C (a write past [broadcast_msg], a slot
    pointer outside the table); [OutOfFuel] is the model's own, for the
    bounded unrolling of the read loop. *)
Inductive result : Type :=
| Ok (st : server) (tr : trace)
| Undefined
| OutOfFuel.

(** Sequencing: the events of [r] come before those of the continuation. *)
Definition and_then (r : result) (k : server -> result) : result :=
  match r with
  | Ok st tr => match k st with
                | Ok st' tr' => Ok st' (tr ++ tr')
                | bad => bad
                end
  | bad => bad
  end.

(** ** broadcast_message *)

Definition deliverable (c : client_t) : bool :=
  negb (fd c =? -1) && (fd c >? 0).

Fixpoint broadcast_from (i : nat) (cs : list client_t) (msg : list byte)
  : trace :=
  match cs with
  | [] => []
  | c :: cs' =>
      (if deliverable c then [Send i (fd c) msg] else [])
        ++ broadcast_from (S i) cs' msg
  end.

Definition broadcast_message (clients : server) (msg : list byte) : trace :=
  if Z.of_nat (length msg) <=? 0 then [] else broadcast_from O clients msg.

(** ** Presence notices: the message built by broadcast_join and by
    remove_client (the two build it with the same statements, up to the type
    byte) *)

Definition presence_msg (type : Z) (a : sockaddr_in) (name : list byte)
  : list byte :=
  let username_len := byte.of_Z (Z.of_nat (strlen name)) in
  [byte.of_Z type] ++ le_split 4 (s_addr a) ++ le_split 2 (sin_port a)
    ++ [username_len]
    ++ load 0 (byte.unsigned username_len) name
    ++ [NEWLINE].

Definition broadcast_join (clients : server) (new_client : client_t) : trace :=
  broadcast_message clients
    (presence_msg MSG_TYPE_JOIN (addr new_client) (username new_client)).

(** ** remove_client *)

Definition closed (cli : client_t) : client_t :=
  mk_client (-1) (buf cli) 0 (addr cli) (username cli) 0.

Definition remove_client (i : nat) (st : server) : result :=
  match st !! i with
  | None => Undefined
  | Some cli =>
      if fd cli =? -1 then Ok st []
      else
        let had_username := has_username cli in
        let username_copy := strncpy (username cli) (Z.to_nat MAX_USERNAME_LEN) in
        let addr_copy := addr cli in
        let st' := <[i := closed cli]> st in
        if had_username =? 0 then Ok st' [Close (fd cli)]
        else Ok st' (Close (fd cli)
                       :: broadcast_message st'
                            (presence_msg MSG_TYPE_DISCONNECT addr_copy
                               username_copy))
  end.

(** ** process_message *)

Definition register (cli : client_t) (username_len : Z) : client_t :=
  mk_client (fd cli) (buf cli) (len cli) (addr cli)
    (store username_len [NUL]
       (store 0 (load 2 username_len (buf cli)) (username cli)))
    1.

Definition chat_msg (cli : client_t) (msg_len : Z) : list byte :=
  let content_len := msg_len - 1 in
  let username_len := byte.of_Z (Z.of_nat (strlen (username cli))) in
  [byte.of_Z MSG_TYPE_CHAT]
    ++ le_split 4 (s_addr (addr cli)) ++ le_split 2 (sin_port (addr cli))
    ++ [username_len]
    ++ load 0 (byte.unsigned username_len) (username cli)
    ++ (if content_len >? 0 then load 1 content_len (buf cli) else []).

(** [(uint8_t) cli->buf[0]] and [(uint8_t) cli->buf[1]]. *)
Definition msg_type_of (cli : client_t) : Z :=
  byte.unsigned (nth 0 (buf cli) NUL).
Definition declared_len (cli : client_t) : Z :=
  byte.unsigned (nth 1 (buf cli) NUL).

Definition process_message (i : nat) (msg_len : Z) (st : server) : result :=
  match st !! i with
  | None => Undefined
  | Some cli =>
      let msg_type := msg_type_of cli in
      if (msg_type =? MSG_TYPE_USERNAME) && (has_username cli =? 0) then
        if msg_len >? 2 then
          let username_len := declared_len cli in
          if (username_len >? 0) && (username_len <? MAX_USERNAME_LEN)
             && (msg_len >=? 2 + username_len)
          then
            let cli' := register cli username_len in
            let st' := <[i := cli']> st in
            Ok st' (broadcast_join st' cli')
          else Ok st []
        else Ok st []
      else if (msg_type =? MSG_TYPE_CHAT) && negb (has_username cli =? 0) then
        let broadcast_msg := chat_msg cli msg_len in
        if Z.of_nat (length broadcast_msg) >? BUF_SIZE + 8 then Undefined
        else Ok st (broadcast_message st broadcast_msg)
      else if msg_type =? MSG_TYPE_DISCONNECT then remove_client i st
      else Ok st []
  end.

(** ** accept_client *)

Fixpoint find_slot (cs : list client_t) : option nat :=
  match cs with
  | [] => None
  | c :: cs' => if fd c =? -1 then Some O
                else match find_slot cs' with
                     | Some j => Some (S j)
                     | None => None
                     end
  end.

Definition occupy (client_fd : Z) (remote_addr : sockaddr_in) (c : client_t)
  : client_t :=
  mk_client client_fd (buf c) 0 remote_addr (username c) 0.

(** [client_fd] is what [accept] returned and [remote_addr] what it stored,
    [nonblocking] what [set_nonblocking] returned. *)
Definition accept_client (client_fd : Z) (remote_addr : sockaddr_in)
  (nonblocking : Z) (st : server) : server * trace :=
  if client_fd =? -1 then (st, [])
  else if nonblocking =? -1 then (st, [Close client_fd])
  else match find_slot st with
       | Some j => (alter (occupy client_fd remote_addr) j st, [])
       | None => (st, [Close client_fd])
       end.

(** ** handle_client_data *)

(** What [read] returned: [num_read] bytes placed in the buffer, or -1 with
    [errno] either EAGAIN/EWOULDBLOCK or something else. *)
Inductive read_result : Type :=
| ReadBytes (data : list byte)
| ReadError (would_block : bool).

Definition consume (cli : client_t) (msg_len : Z) : client_t :=
  let remaining := len cli - msg_len in
  mk_client (fd cli)
    (if remaining >? 0
     then store 0 (load msg_len remaining (buf cli)) (buf cli)
     else buf cli)
    remaining (addr cli) (username cli) (has_username cli).

(** One turn of the loop [while (cli->fd != -1)]; [continue] is the rest of
    the loop, entered after a message was processed and removed. *)
Definition loop_turn (continue : server -> result) (i : nat) (st : server)
  : result :=
  match st !! i with
  | None => Undefined
  | Some cli =>
      if fd cli =? -1 then Ok st []
      else
        match memchr (buf cli) NEWLINE (len cli) with
        | None =>
            if len cli =? BUF_SIZE then remove_client i st else Ok st []
        | Some newline_off =>
            let msg_len := newline_off + 1 in
            and_then (Ok st [Frame i (load 0 msg_len (buf cli))])
              (fun st0 =>
            and_then (process_message i msg_len st0)
              (fun st1 =>
                 match st1 !! i with
                 | None => Undefined
                 | Some cli1 =>
                     if fd cli1 =? -1 then Ok st1 []
                     else continue (<[i := consume cli1 msg_len]> st1)
                 end))
        end
  end.

(** The loop, unrolled at most [fuel] times. *)
Fixpoint process_buffer (fuel : nat) (i : nat) (st : server) : result :=
  match fuel with
  | O => OutOfFuel
  | S fuel' => loop_turn (process_buffer fuel' i) i st
  end.

Arguments process_buffer : simpl nomatch.

Definition append (cli : client_t) (data : list byte) : client_t :=
  mk_client (fd cli) (store (len cli) data (buf cli))
    (len cli + Z.of_nat (length data))
    (addr cli) (username cli) (has_username cli).

Definition handle_client_data (i : nat) (r : read_result) (st : server)
  : result :=
  match st !! i with
  | None => Undefined
  | Some cli =>
      if fd cli =? -1 then Ok st []
      else
        match r with
        | ReadBytes data =>
            let num_read := Z.of_nat (length data) in
            if num_read >? 0 then
              let cli' := append cli data in
              process_buffer (S (Z.to_nat (len cli'))) i (<[i := cli']> st)
            else remove_client i st
        | ReadError would_block =>
            if would_block then Ok st [] else remove_client i st
        end
  end.

(** ** client.c: what sender_thread sends *)

(** The registration message, built from the [username] array of the
    thread data. *)
Definition username_msg (name : list byte) : list byte :=
  let username_len := byte.of_Z (Z.of_nat (strlen name)) in
  [byte.of_Z MSG_TYPE_USERNAME] ++ [username_len]
    ++ load 0 (byte.unsigned username_len) name
    ++ [NEWLINE].

(** A chat message with the text [hex_str] (a C string). *)
Definition client_chat_msg (hex_str : list byte) : list byte :=
  [byte.of_Z MSG_TYPE_CHAT] ++ cstring hex_str ++ [NEWLINE].

Definition end_msg : list byte := [byte.of_Z MSG_TYPE_DISCONNECT; NEWLINE].

(** ** client.c: receiver_thread *)

(** What one iteration of the receiver recovers from the stream before it
    formats the log line: the address and port as received, the
    [username_len] bytes of [username] and the [idx] bytes of [msg_buf]
    (the log line then prints both arrays with %s). *)
Inductive frame : Type :=
| ChatFrame (ip_net port_net : Z) (name msg : list byte)
| JoinFrame (ip_net port_net : Z) (name : list byte)
| DisconnectFrame (ip_net port_net : Z) (name : list byte).

(** [recv_exact] on the bytes [s] that the connection still delivers before
    it ends: [n] bytes and the rest of the stream, or a result <= 0 (the
    stream ends first, or [n] is 0), on which every caller stops. *)
Definition recv_exact (n : Z) (s : list byte)
  : option (list byte * list byte) :=
  if (0 <? n) && (n <=? Z.of_nat (length s))
  then Some (firstn (Z.to_nat n) s, skipn (Z.to_nat n) s)
  else None.

Definition unknown : list byte :=
  [Byte.x75; Byte.x6e; Byte.x6b; Byte.x6e; Byte.x6f; Byte.x77; Byte.x6e].

(** The fields every branch of the receiver reads first, with the same
    statements: address, port, length byte and name. *)
Definition recv_peer (s : list byte)
  : option (Z * Z * list byte * list byte) :=
  match recv_exact 4 s with
  | None => None
  | Some (ip_net, s1) =>
      match recv_exact 2 s1 with
      | None => None
      | Some (port_net, s2) =>
          match recv_exact 1 s2 with
          | None => None
          | Some (l, s3) =>
              let username_len := byte.unsigned (nth 0 l NUL) in
              if (username_len >? 0) && (username_len <? MAX_USERNAME_LEN)
              then
                match recv_exact username_len s3 with
                | None => None
                | Some (name, s4) =>
                    Some (le_combine ip_net, le_combine port_net, name, s4)
                end
              else Some (le_combine ip_net, le_combine port_net, unknown, s3)
          end
      end
  end.

(** The loop that reads the chat text byte by byte up to the newline;
    [msg_buf] holds the [idx = length msg_buf] bytes kept so far. *)
Fixpoint recv_line (msg_buf : list byte) (s : list byte)
  : option (list byte * list byte) :=
  match s with
  | [] => None
  | ch :: s' =>
      if Byte.eqb ch NEWLINE then Some (msg_buf, s')
      else if Z.of_nat (length msg_buf) <? BUF_SIZE - 1
           then recv_line (msg_buf ++ [ch]) s'
           else recv_line msg_buf s'
  end.

(** The body of the receiver's loop, run once: the frame it logs and the
    rest of the stream, or [None] when it leaves the loop.  The flag
    [should_stop] of the thread data is shared with the sender thread, which
    sets it when it ends; [should_stop] here is the value that the test
    after the text of a chat message finds (the receiver itself sets the
    flag when the stream ends inside the text, and then leaves at that
    test). *)
Definition receiver_thread (should_stop : bool) (s : list byte)
  : option (frame * list byte) :=
  match recv_exact 1 s with
  | None => None
  | Some (t, s1) =>
      let type := byte.unsigned (nth 0 t NUL) in
      if type =? MSG_TYPE_CHAT then
        match recv_peer s1 with
        | None => None
        | Some (ip_net, port_net, name, s2) =>
            match recv_line [] s2 with
            | None => None
            | Some (msg_buf, s3) =>
                if should_stop then None
                else Some (ChatFrame ip_net port_net name msg_buf, s3)
            end
        end
      else if type =? MSG_TYPE_JOIN then
        match recv_peer s1 with
        | None => None
        | Some (ip_net, port_net, name, s2) =>
            match s2 with
            | [] => None
            | _ :: s3 => Some (JoinFrame ip_net port_net name, s3)
            end
        end
      else if type =? MSG_TYPE_DISCONNECT then
        match recv_peer s1 with
        | None => None
        | Some (ip_net, port_net, name, s2) =>
            match s2 with
            | [] => None
            | _ :: s3 => Some (DisconnectFrame ip_net port_net name, s3)
            end
        end
      else None
  end.

(** ** The event loop seen from one connection *)

(** Successive iterations of the loop of [main] in which slot [i] alone is
    readable, [read] returning the chunks in order. *)
Fixpoint reads (i : nat) (chunks : list (list byte)) (st : server) : result :=
  match chunks with
  | [] => Ok st []
  | data :: rest =>
      and_then (handle_client_data i (ReadBytes data) st) (reads i rest)
  end.

(** The table as [main] initialises it after [calloc]. *)
Definition empty_slot : client_t :=
  mk_client (-1) (replicate (Z.to_nat BUF_SIZE) NUL) 0 (mk_addr 0 0)
    (replicate (Z.to_nat MAX_USERNAME_LEN) NUL) 0.

Definition init_server (max_clients : nat) : server :=
  replicate max_clients empty_slot.

(** ** Observations on traces and tables *)

(** The payloads sent to slot [j], in order. *)
Fixpoint sends_to (j : nat) (tr : trace) : list (list byte) :=
  match tr with
  | [] => []
  | Send slot _ payload :: tr' =>
      if Nat.eqb slot j then payload :: sends_to j tr' else sends_to j tr'
  | _ :: tr' => sends_to j tr'
  end.

(** The frames of slot [j] handed to process_message, in order. *)
Fixpoint frames_of (j : nat) (tr : trace) : list (list byte) :=
  match tr with
  | [] => []
  | Frame slot bytes :: tr' =>
      if Nat.eqb slot j then bytes :: frames_of j tr' else frames_of j tr'
  | _ :: tr' => frames_of j tr'
  end.

Definition is_send (e : event) : bool :=
  match e with Send _ _ _ => true | _ => false end.

(** The invariant of a slot: the length is within the buffer, and an empty
    slot holds no bytes and no username. *)
Definition slot_ok (c : client_t) : Prop :=
  0 <= len c <= BUF_SIZE /\ (fd c = -1 -> len c = 0 /\ has_username c = 0).

Definition table_ok (st : server) : Prop := Forall slot_ok st.

(** Every event of the trace is a send. *)
Definition all_sends (tr : trace) : Prop :=
  forall e, e ∈ tr -> is_send e = true.

(** No frame of slot [i] is handed over after a socket was closed. *)
Definition silent_after_close (i : nat) (tr : trace) : Prop :=
  forall pre s post, tr = pre ++ Close s :: post -> frames_of i post = [].

(** [read] returned no more than the [count] it was given. *)
Definition read_within (i : nat) (r : read_result) (st : server) : Prop :=
  match r with
  | ReadBytes data =>
      forall cli, st !! i = Some cli ->
                  Z.of_nat (length data) <= BUF_SIZE - len cli
  | ReadError _ => True
  end.

(** The array [u] holds the C string [name]: its bytes, none of them NUL,
    then the terminator. *)
Definition holds_name (u name : list byte) : Prop :=
  (NUL ∉ name) /\ exists pad, u = name ++ NUL :: pad.

(** The layout of a presence notice or of a relayed chat message, for a peer
    address, a name and the bytes that follow the name. *)
Definition wire (type : Z) (a : sockaddr_in) (name rest : list byte)
  : list byte :=
  [byte.of_Z type] ++ le_split 4 (s_addr a) ++ le_split 2 (sin_port a)
    ++ [byte.of_Z (Z.of_nat (length name))] ++ name ++ rest.

(** The session has the bytes [l] buffered: they are the first [len] cells
    of [buf]. *)
Definition buffered (c : client_t) (l : list byte) : Prop :=
  len c = Z.of_nat (length l) /\ exists tail, buf c = l ++ tail.

(** ** common.c: bytes_to_hex *)

(** The digit that the conversion %X prints for a value below 16. *)
Definition hex_digit (n : Z) : byte :=
  byte.of_Z (if n <? 10 then 48 + n else 55 + n).

(** [sprintf (str + i * 2, "%02X", buf[i])]: the two digits written at
    [str + i * 2] (the NUL that follows them is overwritten by the next
    write, or by the final [str[buf_size * 2] = '\0']). *)
Definition sprintf_02X (b : byte) : list byte :=
  [hex_digit (byte.unsigned b / 16); hex_digit (byte.unsigned b mod 16)].

Definition INT_MAX : Z := 2 ^ 31 - 1.
Definition SSIZE_MAX : Z := 2 ^ 63 - 1.

(** What a call of bytes_to_hex does: it returns 0, having written [str];
    it returns -1; or its arithmetic leaves the range of a signed type. *)
Inductive hex_result : Type :=
| HexText (str : list byte)
| HexError
| HexUndefined.

(** [buf] is [None] for a NULL pointer and [str] is false for a NULL
    pointer; the tests are made in the order of the [||] chain.  The size
    [buf_size * 2 + 1] is computed in [ssize_t], and the offset [i * 2] in
    [int] for every [i] below [buf_size], the largest being
    [(buf_size - 1) * 2].  [HexText] carries the cells of [str] that the call
    wrote: the digits and the terminator. *)
Definition bytes_to_hex (buf : option (list byte)) (buf_size : Z)
  (str : bool) (str_size : Z) : hex_result :=
  match buf with
  | None => HexError
  | Some b =>
      if negb str || (buf_size <=? 0) then HexError
      else if buf_size * 2 + 1 >? SSIZE_MAX then HexUndefined
      else if str_size <? buf_size * 2 + 1 then HexError
      else if (buf_size - 1) * 2 >? INT_MAX then HexUndefined
      else HexText (concat (map sprintf_02X (load 0 buf_size b)) ++ [NUL])
  end.

Definition is_hex_digit (c : byte) : bool :=
  ((48 <=? byte.unsigned c) && (byte.unsigned c <=? 57))
  || ((65 <=? byte.unsigned c) && (byte.unsigned c <=? 70)).

(** ** common.c: send_exact and recv_exact *)

(** The loop of send_exact from the offset [total]; [rets] are the values
    that the successive calls of [send] return, a call that returns [s >= 0]
    having taken the [s] bytes at [buf + total].  The result is the value
    returned and the bytes taken in all, or [None] when the loop is still
    running after the last of [rets]. *)
Fixpoint send_exact_from (rets : list Z) (buf : list byte) (total : Z)
  : option (Z * list byte) :=
  if total <? Z.of_nat (length buf) then
    match rets with
    | [] => None
    | s :: rets' =>
        if s <? 0 then Some (-1, load 0 total buf)
        else send_exact_from rets' buf (total + s)
    end
  else Some (total, load 0 total buf).

Definition send_exact (rets : list Z) (buf : list byte)
  : option (Z * list byte) :=
  send_exact_from rets buf 0.

(** Each call of [send] returns no more than the count it was given. *)
Fixpoint send_within (rets : list Z) (remaining : Z) : Prop :=
  match rets with
  | [] => True
  | s :: rets' => s <= remaining /\ send_within rets' (remaining - s)
  end.

(** The loop of recv_exact with [got] received so far ([total] is its
    length); [rets] are what the successive calls of [recv] return: bytes
    (none when the peer has closed) or an error.  The result is the value
    returned and the bytes placed in the buffer. *)
Fixpoint recv_exact_from (rets : list read_result) (len : Z)
  (got : list byte) : option (Z * list byte) :=
  if Z.of_nat (length got) <? len then
    match rets with
    | [] => None
    | ReadError _ :: _ => Some (-1, got)
    | ReadBytes data :: rets' =>
        if Z.of_nat (length data) =? 0 then Some (0, got)
        else recv_exact_from rets' len (got ++ data)
    end
  else Some (Z.of_nat (length got), got).

(** ** server.c: main, from the event loop on *)

(** A connection waiting on the listening socket: what [accept] returns and
    stores, and what [set_nonblocking] then returns. *)
Record accepted : Type := mk_accepted {
  conn_fd : Z;
  conn_addr : sockaddr_in;
  conn_nonblocking : Z
}.

(** What one call of [poll] reports: its result, whether [errno] is EINTR
    when that is -1, the connection behind POLLIN on the listening socket,
    and for each slot whether it has an event and what the socket then holds
    for [read]. *)
Record poll_result : Type := mk_poll {
  num_ready : Z;
  eintr : bool;
  incoming : option accepted;
  revents : list (option read_result)
}.

(** [read (fd, buf, count)] on a socket that holds [pending]: at most
    [count] bytes are returned. *)
Definition sys_read (pending : read_result) (count : Z) : read_result :=
  match pending with
  | ReadBytes data => ReadBytes (firstn (Z.to_nat count) data)
  | ReadError would_block => ReadError would_block
  end.

(** The loop over the client sockets, for the [n] slots from [i] on. *)
Fixpoint check_clients (n : nat) (i : nat)
  (revents : list (option read_result)) (st : server) : result :=
  match n with
  | O => Ok st []
  | S n' =>
      and_then
        (match revents !! i with
         | Some (Some pending) =>
             match st !! i with
             | None => Undefined
             | Some cli =>
                 if fd cli =? -1 then Ok st []
                 else handle_client_data i
                        (sys_read pending (BUF_SIZE - len cli)) st
             end
         | _ => Ok st []
         end)
        (check_clients n' (S i) revents)
  end.

(** An iteration of the loop either goes on, or leaves the process through
    [handle_error ("poll")]. *)
Inductive loop_result : Type :=
| Next (r : result)
| Exit.

Definition loop_iteration (p : poll_result) (st : server) : loop_result :=
  if num_ready p =? -1 then (if eintr p then Next (Ok st []) else Exit)
  else if num_ready p =? 0 then Next (Ok st [])
  else
    let acc :=
      match incoming p with
      | Some a =>
          accept_client (conn_fd a) (conn_addr a) (conn_nonblocking a) st
      | None => (st, [])
      end in
    Next (and_then (Ok acc.1 acc.2)
            (fun st1 => check_clients (length st1) 0 (revents p) st1)).

(** The iterations for the successive results of [poll], up to the one
    after which [server_running] is found cleared. *)
Fixpoint event_loop (polls : list poll_result) (st : server) : loop_result :=
  match polls with
  | [] => Next (Ok st [])
  | p :: polls' =>
      match loop_iteration p st with
      | Next (Ok st1 tr1) =>
          match event_loop polls' st1 with
          | Next (Ok st2 tr2) => Next (Ok st2 (tr1 ++ tr2))
          | other => other
          end
      | other => other
      end
  end.

(** The cleanup after the loop. *)
Definition cleanup (server_fd : Z) (st : server) : trace :=
  flat_map (fun c => if fd c =? -1 then [] else [Close (fd c)]) st
    ++ [Close server_fd].

(** [main] from the allocation of the table to its return: the trace of a
    run that leaves the loop through the shutdown flag. *)
Definition serve (server_fd : Z) (max_clients : nat)
  (polls : list poll_result) : option trace :=
  match event_loop polls (init_server max_clients) with
  | Next (Ok st tr) => Some (tr ++ cleanup server_fd st)
  | _ => None
  end.

(** The slots in use, the sockets closed in a trace, and the connections
    that [accept] returned in a run. *)
Definition occupied (st : server) : nat :=
  length (filter (fun c => fd c <> -1) st).

Fixpoint closes (tr : trace) : nat :=
  match tr with
  | [] => O
  | Close _ :: tr' => S (closes tr')
  | _ :: tr' => closes tr'
  end.

Definition accepts_of (p : poll_result) : nat :=
  if (num_ready p =? -1) || (num_ready p =? 0) then O
  else match incoming p with
       | Some a => if conn_fd a =? -1 then O else 1%nat
       | None => O
       end.

Definition accepts (polls : list poll_result) : nat :=
  sum_list (map accepts_of polls).

(** An event that handling the slot [i], whose descriptor is [sock], may
    cause in the table [st]: a frame of slot [i], the close of [sock], or a
    send to a slot of the table on the descriptor that it holds. *)
Definition event_within (i : nat) (sock : Z) (st : server) (e : event)
  : Prop :=
  match e with
  | Frame k _ => k = i
  | Close s => s = sock
  | Send j s _ =>
      exists c, st !! j = Some c /\ fd c = s /\ deliverable c = true
  end.

(** ** client.c: main and sender_thread *)

Definition RAND_BYTES : Z := 10.

(** [main]: the [username] array of the thread data for the argument
    [argv3], or [None] when the length check refuses it. *)
Definition thread_username (argv3 : list byte) : option (list byte) :=
  if Z.of_nat (strlen argv3) >=? MAX_USERNAME_LEN then None
  else Some (store (MAX_USERNAME_LEN - 1) [NUL]
               (store 0 (strncpy argv3 (Z.to_nat (MAX_USERNAME_LEN - 1)))
                  (replicate (Z.to_nat MAX_USERNAME_LEN) NUL))).

(** One iteration of the sending loop, as the environment decides it: the
    bytes read from /dev/urandom ([None] when that fails) and whether [send]
    succeeds. *)
Record attempt : Type := mk_attempt {
  random_bytes : option (list byte);
  send_ok : bool
}.

(** The messages handed to [send] by the loop, which runs [n] times at
    most and once per element of [env] (the loop also ends when the other
    thread sets [should_stop]). *)
Fixpoint send_random (n : nat) (env : list attempt) : list (list byte) :=
  match n, env with
  | S n', a :: env' =>
      match random_bytes a with
      | None => []
      | Some bytes =>
          match bytes_to_hex (Some bytes) RAND_BYTES true
                  (RAND_BYTES * 2 + 1) with
          | HexText hex_str =>
              if send_ok a then client_chat_msg hex_str :: send_random n' env'
              else []
          | HexError => []
          | HexUndefined => []   (* not reached: the sizes are 10 and 21 *)
          end
      end
  | _, _ => []
  end.

(** The messages that sender_thread hands to [send], in order;
    [registered] and [farewell] tell whether the sends of the registration
    and of the disconnect message succeed. *)
Definition sender_thread (username : list byte) (registered : bool)
  (num_messages : Z) (env : list attempt) (farewell : bool)
  : list (list byte) :=
  if registered
  then username_msg username
         :: send_random (Z.to_nat num_messages) env
         ++ (if farewell then [end_msg] else [])
  else [].

(** The loop [while (!data->should_stop)] of receiver_thread: the frames
    logged until the loop is left.  [flags] gives, for each iteration in
    turn, the two values of the shared flag that the iteration reads: at
    the test of the loop, and at the test after the text of a chat message;
    the loop is followed for as many iterations as [flags] covers. *)
Fixpoint receiver_loop (flags : list (bool * bool)) (s : list byte)
  : list frame :=
  match flags with
  | [] => []
  | (stop_at_test, stop_after_text) :: flags' =>
      if stop_at_test then []
      else match receiver_thread stop_after_text s with
           | None => []
           | Some (f, s') => f :: receiver_loop flags' s'
           end
  end.

(** The bytes of a frame on the wire, server to client. *)
Definition frame_wire (f : frame) : list byte :=
  match f with
  | ChatFrame ip_net port_net name msg =>
      wire MSG_TYPE_CHAT (mk_addr ip_net port_net) name (msg ++ [NEWLINE])
  | JoinFrame ip_net port_net name =>
      wire MSG_TYPE_JOIN (mk_addr ip_net port_net) name [NEWLINE]
  | DisconnectFrame ip_net port_net name =>
      wire MSG_TYPE_DISCONNECT (mk_addr ip_net port_net) name [NEWLINE]
  end.

(** A frame that the server can have built: the address and the port fit
    their types, the name has 1 to 31 bytes, and the text of a chat message
    has no newline and fits the receiver's [msg_buf]. *)
Definition frame_ok (f : frame) : Prop :=
  match f with
  | ChatFrame ip_net port_net name msg =>
      0 <= ip_net < 2 ^ 32 /\ 0 <= port_net < 2 ^ 16
      /\ (0 < length name < 32)%nat
      /\ (NEWLINE ∉ msg) /\ Z.of_nat (length msg) <= BUF_SIZE - 1
  | JoinFrame ip_net port_net name
  | DisconnectFrame ip_net port_net name =>
      0 <= ip_net < 2 ^ 32 /\ 0 <= port_net < 2 ^ 16
      /\ (0 < length name < 32)%nat
  end.

(** ** Sample data *)

Definition bytes_of (l : list Z) : list byte := map byte.of_Z l.
Definition alice : list byte :=
  [Byte.x61; Byte.x6c; Byte.x69; Byte.x63; Byte.x65].
Definition hello : list byte :=
  [Byte.x68; Byte.x65; Byte.x6c; Byte.x6c; Byte.x6f].

(** The bytes 0x03 0x05 'alice' 0x0A and 0x00 'hello' 0x0A. *)
Definition register_alice : list byte :=
  Byte.x03 :: Byte.x05 :: alice ++ [NEWLINE].
Definition chat_hello : list byte := Byte.x00 :: hello ++ [NEWLINE].

(** Two connections accepted by a server of capacity two, from
    127.0.0.1:10240 and 127.0.0.1:20480 (as stored). *)
Definition two_connected : server :=
  (accept_client 5 (mk_addr 16777343 20480) 0
     (accept_client 4 (mk_addr 16777343 10240) 0 (init_server 2)).1).1.

(** The bytes arrive in the buffer of slot [i]. *)
Definition with_buffer (i : nat) (bytes : list byte) (st : server) : server :=
  alter (fun c => append c bytes) i st.

Definition state_of (r : result) : server :=
  match r with Ok st _ => st | _ => [] end.

Definition trace_of (r : result) : trace :=
  match r with Ok _ tr => tr | _ => [] end.

(** Slot 0 of [two_connected] has registered as alice. *)
Definition alice_registered : server :=
  state_of (reads 0 [username_msg alice] two_connected).

(** Slot 0 of [two_connected] after a read that brought [bytes], before
    the read loop looks at them. *)
Definition just_read (bytes : list byte) : server :=
  with_buffer 0 bytes two_connected.

(** A username of ten bytes, in the array of the client's thread data. *)
Definition ten_letters : list byte :=
  [Byte.x61; Byte.x62; Byte.x63; Byte.x64; Byte.x65;
   Byte.x66; Byte.x67; Byte.x68; Byte.x69; Byte.x6a].
Definition ten_letters_array : list byte :=
  ten_letters ++ replicate 22 NUL.

(** A registered session, as process_message leaves it. *)
Definition alice_session : client_t :=
  mk_client 4 (replicate (Z.to_nat BUF_SIZE) NUL) 0
    (mk_addr 16777343 10240) (alice ++ replicate 27 NUL) 1.

(** The session in slot [i]. *)
Definition slot (i : nat) (st : server) : client_t :=
  default empty_slot (st !! i).

(** The buffered bytes of a session: [buf[0 .. len)]. *)
Definition content (c : client_t) : list byte := load 0 (len c) (buf c).

(** Slot 0 of [alice_registered] after a read that brought a chat
    message. *)
Definition alice_chatting : server :=
  with_buffer 0 (client_chat_msg hello) alice_registered.

(** 1024 bytes without a newline. *)
Definition flood : list byte := replicate (Z.to_nat BUF_SIZE) Byte.x61.

(** A registered session whose buffer holds 1024 bytes of a chat frame. *)
Definition long_chat_session : client_t :=
  mk_client 4 (replicate (Z.to_nat BUF_SIZE) NUL) BUF_SIZE
    (mk_addr 16777343 10240) (alice ++ replicate 27 NUL) 1.

(** A run of the server: a connection arrives and is accepted on
    descriptor 4, it registers as alice, a second one arrives on descriptor
    5, the first one hangs up, and the server is told to stop. *)
Definition sample_polls : list poll_result :=
  [ mk_poll 1 false (Some (mk_accepted 4 (mk_addr 16777343 10240) 0)) [];
    mk_poll 1 false None [Some (ReadBytes register_alice)];
    mk_poll 0 false None [];
    mk_poll 1 false (Some (mk_accepted 5 (mk_addr 16777343 20480) 0)) [];
    mk_poll 1 false None [Some (ReadBytes [])] ].

(** * Properties *)

(** ** Arrays *)

Lemma byte_eqb_eq (x y : byte) : Byte.eqb x y = true <-> x = y.
Proof. split; [apply Byte.byte_dec_bl | apply Byte.byte_dec_lb]. Qed.

Lemma byte_eqb_neq (x y : byte) : Byte.eqb x y = false <-> x <> y.
Proof.
  rewrite <- byte_eqb_eq. destruct (Byte.eqb x y); split; congruence.
Qed.

Lemma index_of_None c (s : list byte) : index_of c s = None <-> c ∉ s.
Proof.
  induction s as [|x s IH]; simpl.
  - split; [intros _ H; inversion H | done].
  - rewrite not_elem_of_cons. destruct (Byte.eqb x c) eqn:Hx.
    + apply byte_eqb_eq in Hx. split; [done | intros []; congruence].
    + apply byte_eqb_neq in Hx. destruct (index_of c s).
      * split; [done | intros [_ H]; by apply IH in H].
      * split; [intros _; split; [congruence | by apply IH] | done].
Qed.

Lemma index_of_app c (p q : list byte) :
  c ∉ p -> index_of c (p ++ (c :: q)) = Some (length p).
Proof.
  induction p as [|x p IH]; simpl; intros Hp.
  - by rewrite (proj2 (byte_eqb_eq c c) eq_refl).
  - apply not_elem_of_cons in Hp as [Hx Hp].
    rewrite (proj2 (byte_eqb_neq x c)) by congruence. by rewrite IH.
Qed.

Lemma index_of_Some c (s : list byte) (k : nat) :
  index_of c s = Some k ->
  exists p q, s = p ++ (c :: q) /\ (c ∉ p) /\ length p = k.
Proof.
  revert k. induction s as [|x s IH]; simpl; intros k; [done|].
  destruct (Byte.eqb x c) eqn:Hx.
  - intros [= <-]. apply byte_eqb_eq in Hx as ->.
    exists [], s. split; [done|]. split; [apply not_elem_of_nil | done].
  - destruct (index_of c s) as [k'|]; [|done]. intros [= <-].
    destruct (IH k' eq_refl) as (p & q & -> & Hp & <-).
    exists (x :: p), q. split; [done|]. split; [|done].
    apply byte_eqb_neq in Hx. apply not_elem_of_cons. split; congruence.
Qed.

Lemma memchr_content (cli : client_t) c :
  memchr (buf cli) c (len cli) = Z.of_nat <$> index_of c (content cli).
Proof.
  unfold memchr, content, load. simpl. by destruct (index_of _ _).
Qed.

Lemma length_store off data (mem : list byte) :
  (Z.to_nat off + length data <= length mem)%nat ->
  length (store off data mem) = length mem.
Proof.
  intros H. unfold store. rewrite !length_app, length_take, length_drop. lia.
Qed.

Lemma take_store off data (mem : list byte) :
  (Z.to_nat off <= length mem)%nat ->
  take (Z.to_nat off + length data) (store off data mem)
  = take (Z.to_nat off) mem ++ data.
Proof.
  intros H. unfold store. rewrite app_assoc.
  apply take_app_length'. rewrite length_app, length_take. lia.
Qed.

Lemma content_append (cli : client_t) data :
  0 <= len cli ->
  (Z.to_nat (len cli) <= length (buf cli))%nat ->
  content (append cli data) = content cli ++ data.
Proof.
  intros H0 Hle. unfold content, load. simpl.
  replace (Z.to_nat (len cli + Z.of_nat (length data)))
    with (Z.to_nat (len cli) + length data)%nat by lia.
  by apply take_store.
Qed.


(** ** Broadcast *)

Lemma elem_of_broadcast_from e k (cs : list client_t) msg :
  e ∈ broadcast_from k cs msg <->
  exists (j : nat) c, cs !! j = Some c /\ deliverable c = true
                      /\ e = Send (k + j) (fd c) msg.
Proof.
  revert k. induction cs as [|c cs IH]; intros k; simpl.
  - split; [intros H; inversion H | intros (j & c & H & _); discriminate].
  - rewrite elem_of_app, IH. split.
    + intros [H | (j & c' & Hj & Hd & ->)].
      * destruct (deliverable c) eqn:Hd; [|inversion H].
        apply list_elem_of_singleton in H as ->.
        exists O, c. rewrite Nat.add_0_r. done.
      * exists (S j), c'. rewrite <- Nat.add_succ_comm. done.
    + intros ([|j] & c' & Hj & Hd & ->); simpl in Hj.
      * left. injection Hj as ->. rewrite Hd, Nat.add_0_r. left.
      * right. exists j, c'. rewrite Nat.add_succ_comm. done.
Qed.

Lemma sends_to_app j tr1 tr2 :
  sends_to j (tr1 ++ tr2) = sends_to j tr1 ++ sends_to j tr2.
Proof.
  induction tr1 as [|[slot sock p| |] tr1 IH]; simpl; try done.
  destruct (Nat.eqb slot j); simpl; congruence.
Qed.

Lemma frames_of_app j tr1 tr2 :
  frames_of j (tr1 ++ tr2) = frames_of j tr1 ++ frames_of j tr2.
Proof.
  induction tr1 as [|[| |slot p] tr1 IH]; simpl; try done.
  destruct (Nat.eqb slot j); simpl; congruence.
Qed.

(** A broadcast sends the message once to each slot with a usable
    descriptor, and to no other. *)
Lemma sends_to_broadcast_from j k (cs : list client_t) msg :
  sends_to j (broadcast_from k cs msg) =
  if decide (k <= j)%nat
  then match cs !! (j - k)%nat with
       | Some c => if deliverable c then [msg] else []
       | None => []
       end
  else [].
Proof.
  revert k. induction cs as [|c cs IH]; intros k.
  - simpl. by case_decide.
  - cbn [broadcast_from]. rewrite sends_to_app, IH.
    destruct (decide (k = j)) as [->|Hne].
    + rewrite Nat.sub_diag.
      rewrite (decide_True (P := (j <= j)%nat)) by lia.
      rewrite (decide_False (P := (S j <= j)%nat)) by lia.
      change ((c :: cs) !! O) with (Some c). cbv iota beta.
      destruct (deliverable c); simpl; [|done].
      by rewrite Nat.eqb_refl.
    + apply Nat.eqb_neq in Hne.
      replace (sends_to j _) with (@nil (list byte))
        by (destruct (deliverable c); simpl; by rewrite ?Hne).
      simpl. apply Nat.eqb_neq in Hne. destruct (decide (k <= j)%nat) as [Hle|Hgt].
      * rewrite (decide_True (P := (S k <= j)%nat)) by lia.
        replace (j - k)%nat with (S (j - S k)) by lia. done.
      * by rewrite (decide_False (P := (S k <= j)%nat)) by lia.
Qed.

Lemma frames_of_broadcast_from j k (cs : list client_t) msg :
  frames_of j (broadcast_from k cs msg) = [].
Proof.
  revert k. induction cs as [|c cs IH]; intros k; simpl; [done|].
  rewrite frames_of_app, IH. by destruct (deliverable c).
Qed.

Lemma length_broadcast_from k (cs : list client_t) msg :
  length (broadcast_from k cs msg)
  = length (filter (fun c => deliverable c = true) cs).
Proof.
  revert k. induction cs as [|c cs IH]; intros k; simpl; [done|].
  rewrite length_app, IH, filter_cons.
  case_decide as Hd.
  - rewrite Hd. simpl. done.
  - apply not_true_is_false in Hd. rewrite Hd. done.
Qed.

Lemma find_slot_None (cs : list client_t) :
  (forall c, c ∈ cs -> fd c <> -1) -> find_slot cs = None.
Proof.
  induction cs as [|c cs IH]; intros H; simpl; [done|].
  pose proof (H c ltac:(left)) as Hc.
  apply Z.eqb_neq in Hc as ->.
  rewrite IH; [done|]. intros c' Hc'. apply H. by right.
Qed.

Lemma find_slot_Some (cs : list client_t) (j : nat) :
  find_slot cs = Some j ->
  (exists c, cs !! j = Some c /\ fd c = -1)
  /\ forall (k : nat) c, (k < j)%nat -> cs !! k = Some c -> fd c <> -1.
Proof.
  revert j. induction cs as [|c cs IH]; intros j; simpl; [done|].
  destruct (fd c =? -1) eqn:Hc.
  - intros [= <-]. apply Z.eqb_eq in Hc. split; [by exists c | lia].
  - destruct (find_slot cs) as [j'|]; [|done]. intros [= <-].
    destruct (IH j' eq_refl) as [Hex Hlt]. split; [done|].
    intros [|k] c' Hk; simpl.
    + intros [= <-]. by apply Z.eqb_neq.
    + apply Hlt. lia.
Qed.

(** ** Frames that change nothing, and frames that close *)

(** C9: for a session that has registered, processing a further
    UsernameRegister frame has no effect: the table, hence the stored
    username, the flag and every other field of every session, is the same
    afterwards, and nothing is sent (no Join notice). *)
Theorem second_registration_has_no_effect
  (i : nat) (msg_len : Z) (st : server) (cli : client_t) :
  st !! i = Some cli ->
  has_username cli <> 0 ->
  msg_type_of cli = MSG_TYPE_USERNAME ->
  process_message i msg_len st = Ok st [].
Proof.
  intros Hi Hreg Hty. unfold process_message. rewrite Hi, Hty.
  apply Z.eqb_neq in Hreg. rewrite Hreg. reflexivity.
Qed.

Lemma second_registration_witness :
  process_message 0 8 alice_registered = Ok alice_registered [].
Proof.
  apply (second_registration_has_no_effect 0 8 alice_registered
           (slot 0 alice_registered)).
  - reflexivity.
  - vm_compute. lia.
  - reflexivity.
Defined.

(** C5, as the code has it: for a connected session that has not
    registered, a Chat frame changes nothing and sends nothing; a Disconnect
    frame closes the session (socket closed, slot emptied) and sends
    nothing. *)
Theorem unregistered_chat_ignored_disconnect_closes
  (i : nat) (msg_len : Z) (st : server) (cli : client_t) :
  st !! i = Some cli ->
  fd cli <> -1 ->
  has_username cli = 0 ->
  (msg_type_of cli = MSG_TYPE_CHAT ->
   process_message i msg_len st = Ok st [])
  /\ (msg_type_of cli = MSG_TYPE_DISCONNECT ->
      process_message i msg_len st
      = Ok (<[i := closed cli]> st) [Close (fd cli)]).
Proof.
  intros Hi Hfd Hreg. unfold process_message. rewrite Hi, Hreg.
  split; intros ->; simpl.
  - reflexivity.
  - unfold remove_client. rewrite Hi, Hreg.
    apply Z.eqb_neq in Hfd. rewrite Hfd. reflexivity.
Qed.

Lemma unregistered_chat_disconnect_witness :
  process_message 0 2 (just_read end_msg)
  = Ok (<[O := closed (slot 0 (just_read end_msg))]> (just_read end_msg))
       [Close 4].
Proof.
  apply (unregistered_chat_ignored_disconnect_closes 0 2 (just_read end_msg)
           (slot 0 (just_read end_msg))).
  - reflexivity.
  - vm_compute. lia.
  - reflexivity.
  - reflexivity.
Defined.

(** The claim C5 as stated fails: slot 0 is connected and unregistered, its
    buffer starts with a complete Disconnect frame, and processing that frame
    closes descriptor 4 and empties the slot. *)
Lemma unregistered_disconnect_counterexample :
  exists cli st',
    just_read end_msg !! O = Some cli
    /\ fd cli = 4 /\ has_username cli = 0
    /\ load 0 2 (buf cli) = end_msg
    /\ process_message 0 2 (just_read end_msg) = Ok st' [Close 4]
    /\ fd <$> st' !! O = Some (-1)
    /\ st' <> just_read end_msg.
Proof.
  eexists _, _. repeat split; [reflexivity..|].
  vm_compute. discriminate.
Qed.

(** C6, as the code has it: for a session that has not registered, a
    UsernameRegister frame whose declared length is 0, or 32 or more, or
    whose total length is below 2 plus the declared length, is ignored: the
    table is the same afterwards (the session stays connected and
    unregistered, no other session changes) and nothing is sent. *)
Theorem malformed_registration_ignored
  (i : nat) (msg_len : Z) (st : server) (cli : client_t) :
  st !! i = Some cli ->
  has_username cli = 0 ->
  msg_type_of cli = MSG_TYPE_USERNAME ->
  declared_len cli = 0 \/ MAX_USERNAME_LEN <= declared_len cli
    \/ msg_len < 2 + declared_len cli ->
  process_message i msg_len st = Ok st [].
Proof.
  intros Hi Hreg Hty Hbad. unfold process_message.
  rewrite Hi, Hty, Hreg. simpl.
  destruct (msg_len >? 2); [|reflexivity].
  destruct (declared_len cli >? 0) eqn:H0;
    destruct (declared_len cli <? MAX_USERNAME_LEN) eqn:H1;
    destruct (msg_len >=? 2 + declared_len cli) eqn:H2;
    simpl; try reflexivity.
  lia.
Qed.

Lemma malformed_registration_witness :
  process_message 0 3 (just_read (bytes_of [3; 0; 10]))
  = Ok (just_read (bytes_of [3; 0; 10])) [].
Proof.
  apply (malformed_registration_ignored 0 3 _
           (slot 0 (just_read (bytes_of [3; 0; 10])))).
  - reflexivity.
  - reflexivity.
  - reflexivity.
  - left. reflexivity.
Defined.

(** The claim C6 as stated fails: slot 0 is connected and unregistered, its
    buffer starts with a registration that declares a username of length 0,
    and after processing it the descriptor is still 4: nothing was closed,
    the slot was not released. *)
Lemma malformed_registration_counterexample :
  exists cli st' tr,
    just_read (bytes_of [3; 0; 10]) !! O = Some cli
    /\ fd cli = 4 /\ has_username cli = 0
    /\ load 0 3 (buf cli) = bytes_of [3; 0; 10]
    /\ process_message 0 3 (just_read (bytes_of [3; 0; 10])) = Ok st' tr
    /\ tr = []
    /\ fd <$> st' !! O = Some 4.
Proof. eexists _, _, _. repeat split; reflexivity. Qed.

(** ** A full table *)

(** C8: when a connection is accepted while no slot is empty, its socket is
    closed at once and the table is left as it was: the connection is in no
    slot, every existing session is unchanged, and no broadcast over the
    table sends to its descriptor. *)
Theorem accept_when_full
  (client_fd : Z) (remote_addr : sockaddr_in) (nonblocking : Z)
  (st : server) :
  client_fd <> -1 ->
  (forall c, c ∈ st -> fd c <> -1) ->
  (forall c, c ∈ st -> fd c <> client_fd) ->
  accept_client client_fd remote_addr nonblocking st
  = (st, [Close client_fd])
  /\ forall msg j payload,
       Send j client_fd payload ∉ broadcast_message st msg.
Proof.
  intros Hfd Hfull Hfresh. split.
  - unfold accept_client. apply Z.eqb_neq in Hfd. rewrite Hfd.
    rewrite (find_slot_None st Hfull). by destruct (nonblocking =? -1).
  - intros msg j payload. unfold broadcast_message.
    destruct (Z.of_nat (length msg) <=? 0); [by intros ?%elem_of_nil|].
    intros (k & c & Hk & _ & Heq)%elem_of_broadcast_from.
    injection Heq as _ Hsock _.
    apply (Hfresh c); [by eapply list_elem_of_lookup_2 | done].
Qed.

Lemma accept_when_full_witness :
  accept_client 6 (mk_addr 16777343 30720) 0 two_connected
  = (two_connected, [Close 6]).
Proof.
  apply (accept_when_full 6 (mk_addr 16777343 30720) 0 two_connected).
  - lia.
  - intros c Hc. vm_compute in Hc.
    repeat (apply elem_of_cons in Hc as [-> | Hc]; [simpl; lia|]).
    by apply elem_of_nil in Hc.
  - intros c Hc. vm_compute in Hc.
    repeat (apply elem_of_cons in Hc as [-> | Hc]; [simpl; lia|]).
    by apply elem_of_nil in Hc.
Defined.

(** ** The buffer at capacity *)

Lemma find_slot_insert (i : nat) (st : server) (c : client_t) :
  (i < length st)%nat ->
  fd c = -1 ->
  exists k : nat, find_slot (<[i := c]> st) = Some k /\ (k <= i)%nat.
Proof.
  intros Hlt Hc. revert i Hlt.
  induction st as [|c0 st IH]; intros [|i] Hlt; simpl in *; try lia.
  - rewrite Hc. simpl. exists O. done.
  - destruct (fd c0 =? -1); [exists O; split; [done | lia]|].
    destruct (IH i ltac:(lia)) as (k & -> & Hk).
    exists (S k). split; [done | lia].
Qed.

Lemma remove_client_connected (i : nat) (st : server) (cli : client_t) :
  st !! i = Some cli ->
  fd cli <> -1 ->
  exists tr,
    remove_client i st = Ok (<[i := closed cli]> st) (Close (fd cli) :: tr)
    /\ (forall e, e ∈ tr -> is_send e = true)
    /\ sends_to i tr = [].
Proof.
  intros Hi Hfd. unfold remove_client. rewrite Hi.
  apply Z.eqb_neq in Hfd. rewrite Hfd.
  destruct (has_username cli =? 0).
  - exists []. split; [done|]. split; [by intros e ?%elem_of_nil | done].
  - eexists. split; [reflexivity|]. unfold broadcast_message.
    destruct (_ <=? 0); [split; [by intros e ?%elem_of_nil | done]|].
    split.
    + by intros e (k & c & _ & _ & ->)%elem_of_broadcast_from.
    + rewrite sends_to_broadcast_from. case_decide; [|done].
      rewrite Nat.sub_0_r, list_lookup_insert_eq
        by (by eapply lookup_lt_Some).
      done.
Qed.

(** C7: when a read brings the buffered bytes of a session to exactly 1024
    with no newline among them (or finds them so: the read is then for 0
    bytes and returns 0), handling the read closes the session's socket and
    empties its slot, which the next acceptance can take; every other slot
    is as before, and nothing is sent to the closed session. *)
Theorem full_buffer_without_newline_closes
  (i : nat) (data : list byte) (st : server) (cli : client_t) :
  st !! i = Some cli ->
  fd cli <> -1 ->
  0 <= len cli ->
  (Z.to_nat (len cli) <= length (buf cli))%nat ->
  len cli + Z.of_nat (length data) = BUF_SIZE ->
  NEWLINE ∉ content cli ++ data ->
  exists st' tr cli',
    handle_client_data i (ReadBytes data) st = Ok st' (Close (fd cli) :: tr)
    /\ st' !! i = Some cli'
    /\ fd cli' = -1 /\ len cli' = 0 /\ has_username cli' = 0
    /\ (forall j : nat, j <> i -> st' !! j = st !! j)
    /\ (forall e, e ∈ tr -> is_send e = true)
    /\ sends_to i tr = []
    /\ exists k : nat, find_slot st' = Some k /\ (k <= i)%nat.
Proof.
  intros Hi Hfd H0 Hle Hfull Hnl.
  assert (i < length st)%nat as Hlt by (by eapply lookup_lt_Some).
  assert (forall c0 : client_t, exists k : nat,
             find_slot (<[i := closed c0]> st) = Some k /\ (k <= i)%nat)
    as Hslot by (intros c0; by apply find_slot_insert).
  unfold handle_client_data. rewrite Hi.
  pose proof Hfd as Hfdb. apply Z.eqb_neq in Hfdb. rewrite Hfdb.
  destruct (Z.of_nat (length data) >? 0) eqn:Hn.
  - (* the read filled the buffer *)
    set (cli1 := append cli data).
    assert (<[i := cli1]> st !! i = Some cli1) as Hi1
      by (by apply list_lookup_insert_eq).
    cbn [process_buffer]. unfold loop_turn. rewrite Hi1.
    change (fd cli1) with (fd cli). rewrite Hfdb.
    rewrite memchr_content. unfold cli1 at 1.
    rewrite content_append by done.
    rewrite (proj2 (index_of_None _ _) Hnl). simpl.
    rewrite Hfull, Z.eqb_refl.
    destruct (remove_client_connected i _ cli1 Hi1 Hfd)
      as (tr & -> & Hsend & Hnone).
    rewrite list_insert_insert_eq.
    exists (<[i := closed cli1]> st), tr, (closed cli1).
    split; [done|]. split; [by apply list_lookup_insert_eq|].
    repeat (split; [done|]).
    split; [intros j Hj; by apply list_lookup_insert_ne|].
    repeat (split; [done|]). apply Hslot.
  - (* the buffer was full already: read returns 0 *)
    destruct (remove_client_connected i st cli Hi Hfd)
      as (tr & -> & Hsend & Hnone).
    exists (<[i := closed cli]> st), tr, (closed cli).
    split; [done|]. split; [by apply list_lookup_insert_eq|].
    repeat (split; [done|]).
    split; [intros j Hj; by apply list_lookup_insert_ne|].
    repeat (split; [done|]). apply Hslot.
Qed.

Lemma full_buffer_witness :
  exists st' tr cli',
    handle_client_data 0 (ReadBytes flood) two_connected
    = Ok st' (Close (fd (slot 0 two_connected)) :: tr)
    /\ st' !! O = Some cli'
    /\ fd cli' = -1 /\ len cli' = 0 /\ has_username cli' = 0
    /\ (forall j : nat, j <> O -> st' !! j = two_connected !! j)
    /\ (forall e, e ∈ tr -> is_send e = true)
    /\ sends_to 0 tr = []
    /\ exists k : nat, find_slot st' = Some k /\ (k <= 0)%nat.
Proof.
  apply (full_buffer_without_newline_closes 0 flood two_connected
           (slot 0 two_connected)).
  - reflexivity.
  - vm_compute. lia.
  - simpl. lia.
  - apply Nat.leb_le. vm_compute. reflexivity.
  - vm_compute. reflexivity.
  - apply index_of_None. vm_compute. reflexivity.
Defined.

(** ** Fan-out of a chat message *)

Lemma length_chat_msg_pos (cli : client_t) msg_len :
  (Z.of_nat (length (chat_msg cli msg_len)) <=? 0) = false.
Proof. apply Z.leb_gt. unfold chat_msg. simpl. lia. Qed.

(** C4, as the code has it: when a registered session sends a Chat frame
    that fits the relay buffer, the table is unchanged and the broadcast
    performs exactly one send to each session with a usable descriptor
    (set and positive), the sender included, whether or not that session has
    registered a username; these are all the sends, so their number is the
    number of such sessions, and every payload is the same relayed frame. *)
Theorem chat_fan_out
  (i : nat) (msg_len : Z) (st : server) (cli : client_t) :
  st !! i = Some cli ->
  has_username cli <> 0 ->
  msg_type_of cli = MSG_TYPE_CHAT ->
  Z.of_nat (length (chat_msg cli msg_len)) <= BUF_SIZE + 8 ->
  exists tr,
    process_message i msg_len st = Ok st tr
    /\ length tr = length (filter (fun c => deliverable c = true) st)
    /\ (forall e, e ∈ tr ->
          exists j sock, e = Send j sock (chat_msg cli msg_len))
    /\ (forall (j : nat) c, st !! j = Some c ->
          sends_to j tr
          = if deliverable c then [chat_msg cli msg_len] else []).
Proof.
  intros Hi Hreg Hty Hfit. unfold process_message.
  rewrite Hi, Hty. apply Z.eqb_neq in Hreg. rewrite Hreg.
  change (MSG_TYPE_CHAT =? MSG_TYPE_USERNAME) with false.
  change (MSG_TYPE_CHAT =? MSG_TYPE_CHAT) with true. cbn [andb negb].
  destruct (Z.of_nat (length (chat_msg cli msg_len)) >? BUF_SIZE + 8) eqn:Hover.
  { apply Z.gtb_lt in Hover. lia. }
  eexists. split; [reflexivity|].
  unfold broadcast_message. rewrite length_chat_msg_pos.
  split; [apply length_broadcast_from|]. split.
  - intros e (k & c & _ & _ & ->)%elem_of_broadcast_from. by eexists _, _.
  - intros j c Hj. rewrite sends_to_broadcast_from.
    rewrite decide_True by lia. by rewrite Nat.sub_0_r, Hj.
Qed.

Lemma chat_fan_out_witness :
  exists tr,
    process_message 0 7 alice_chatting = Ok alice_chatting tr
    /\ length tr
       = length (filter (fun c => deliverable c = true) alice_chatting)
    /\ (forall e, e ∈ tr ->
          exists j sock,
            e = Send j sock (chat_msg (slot 0 alice_chatting) 7))
    /\ (forall (j : nat) c, alice_chatting !! j = Some c ->
          sends_to j tr
          = if deliverable c then [chat_msg (slot 0 alice_chatting) 7]
            else []).
Proof.
  apply (chat_fan_out 0 7 alice_chatting (slot 0 alice_chatting)).
  - reflexivity.
  - vm_compute. lia.
  - reflexivity.
  - vm_compute. discriminate.
Defined.

(** The claim C4 as stated fails: one session has registered (slot 0), the
    session in slot 1 is connected with no username set; the chat message of
    slot 0 is sent twice, and slot 1 receives it. *)
Lemma chat_reaches_unregistered_counterexample :
  exists tr,
    process_message 0 7 alice_chatting = Ok alice_chatting tr
    /\ map has_username alice_chatting = [1; 0]
    /\ length tr = 2%nat
    /\ sends_to 1 tr = [bytes_of [0; 127; 0; 0; 1; 0; 40; 5]
                          ++ alice ++ hello ++ [NEWLINE]].
Proof. eexists. repeat split; reflexivity. Qed.

(** ** What the server functions change *)

Lemma all_sends_nil : all_sends [].
Proof. by intros e ?%elem_of_nil. Qed.

Lemma all_sends_broadcast (st : server) msg :
  all_sends (broadcast_message st msg).
Proof.
  unfold broadcast_message. destruct (_ <=? 0); [apply all_sends_nil|].
  by intros e (k & c & _ & _ & ->)%elem_of_broadcast_from.
Qed.

Lemma frames_of_all_sends j tr : all_sends tr -> frames_of j tr = [].
Proof.
  induction tr as [|e tr IH]; intros H; [done|].
  assert (all_sends tr) by (intros e' He'; apply H; by right).
  pose proof (H e ltac:(left)) as He.
  destruct e; simpl in *; try done; by apply IH.
Qed.

(** The effect of process_message on the table of a connected session:
    either the session is closed, or its descriptor, buffer and address are
    kept and only sends happen. *)
Lemma process_message_effect
  (i : nat) (msg_len : Z) (st st1 : server) (cli : client_t) tr1 :
  st !! i = Some cli ->
  fd cli <> -1 ->
  process_message i msg_len st = Ok st1 tr1 ->
  exists cli1,
    st1 = <[i := cli1]> st
    /\ ((cli1 = closed cli
         /\ exists sends, tr1 = Close (fd cli) :: sends
                          /\ all_sends sends /\ sends_to i sends = [])
        \/ (fd cli1 = fd cli /\ len cli1 = len cli /\ buf cli1 = buf cli
            /\ addr cli1 = addr cli /\ all_sends tr1
            /\ (has_username cli1 = 0 -> has_username cli = 0))).
Proof.
  intros Hi Hfd. unfold process_message. rewrite Hi.
  assert (forall tr, Ok st tr = Ok st1 tr1 -> all_sends tr ->
            exists cli1, st1 = <[i := cli1]> st
              /\ ((cli1 = closed cli
                   /\ exists sends, tr1 = Close (fd cli) :: sends
                        /\ all_sends sends /\ sends_to i sends = [])
                  \/ (fd cli1 = fd cli /\ len cli1 = len cli
                      /\ buf cli1 = buf cli /\ addr cli1 = addr cli
                      /\ all_sends tr1
                      /\ (has_username cli1 = 0 -> has_username cli = 0))))
    as Hsame.
  { intros tr [= <- <-] Htr. exists cli.
    split; [by rewrite list_insert_id|]. right. done. }
  destruct ((msg_type_of cli =? MSG_TYPE_USERNAME) && (has_username cli =? 0)).
  { destruct (msg_len >? 2); [|intros H; apply (Hsame _ H all_sends_nil)].
    destruct (_ && _ && _);
      [|intros H; apply (Hsame _ H all_sends_nil)].
    intros [= <- <-]. eexists. split; [reflexivity|]. right.
    repeat (split; [done|]). split; [apply all_sends_broadcast | done]. }
  destruct ((msg_type_of cli =? MSG_TYPE_CHAT) && negb (has_username cli =? 0)).
  { destruct (_ >? BUF_SIZE + 8); [done|].
    intros H. apply (Hsame _ H). apply all_sends_broadcast. }
  destruct (msg_type_of cli =? MSG_TYPE_DISCONNECT);
    [|intros H; apply (Hsame _ H all_sends_nil)].
  destruct (remove_client_connected i st cli Hi Hfd)
    as (tr & -> & Hsends & Hnone).
  intros [= <- <-]. exists (closed cli). split; [done|]. left.
  split; [done|]. by exists tr.
Qed.

Lemma process_message_not_fuel (i : nat) (msg_len : Z) (st : server) :
  process_message i msg_len st <> OutOfFuel.
Proof.
  unfold process_message, remove_client.
  repeat (case_match; try done).
Qed.

(** One turn of the read loop, read backwards from its result. *)
Lemma process_buffer_inv
  (fuel : nat) (i : nat) (st st' : server) (tr : trace) :
  process_buffer (S fuel) i st = Ok st' tr ->
  exists cli,
    st !! i = Some cli
    /\ ((fd cli = -1 /\ st' = st /\ tr = [])
        \/ (fd cli <> -1 /\ index_of NEWLINE (content cli) = None
            /\ len cli <> BUF_SIZE /\ st' = st /\ tr = [])
        \/ (fd cli <> -1 /\ index_of NEWLINE (content cli) = None
            /\ len cli = BUF_SIZE /\ remove_client i st = Ok st' tr)
        \/ (fd cli <> -1
            /\ exists (k : nat) st1 tr1 cli1,
                index_of NEWLINE (content cli) = Some k
                /\ process_message i (Z.of_nat k + 1) st = Ok st1 tr1
                /\ st1 !! i = Some cli1
                /\ ((fd cli1 = -1 /\ st' = st1
                     /\ tr = Frame i (load 0 (Z.of_nat k + 1) (buf cli))
                                :: tr1)
                    \/ (fd cli1 <> -1
                        /\ exists tr2,
                            process_buffer fuel i
                              (<[i := consume cli1 (Z.of_nat k + 1)]> st1)
                            = Ok st' tr2
                            /\ tr = Frame i
                                      (load 0 (Z.of_nat k + 1) (buf cli))
                                    :: tr1 ++ tr2)))).
Proof.
  cbn [process_buffer]. unfold loop_turn.
  destruct (st !! i) as [cli|] eqn:Hi; [|done].
  intros H. exists cli. split; [done|].
  destruct (fd cli =? -1) eqn:Hfd.
  { apply Z.eqb_eq in Hfd. injection H as <- <-. by left. }
  apply Z.eqb_neq in Hfd. right.
  rewrite memchr_content in H.
  destruct (index_of NEWLINE (content cli)) as [k|] eqn:Hk; simpl in H.
  - right. right. split; [done|].
    destruct (process_message i (Z.of_nat k + 1) st) as [st1 tr1| |] eqn:Hpm;
      simpl in H; try done.
    destruct (st1 !! i) as [cli1|] eqn:Hi1; [|done].
    exists k, st1, tr1, cli1. repeat (split; [done|]).
    destruct (fd cli1 =? -1) eqn:Hfd1; simpl in H.
    + apply Z.eqb_eq in Hfd1. left. rewrite app_nil_r in H.
      injection H as <- <-. done.
    + apply Z.eqb_neq in Hfd1. right. split; [done|].
      destruct (process_buffer fuel i _) as [st2 tr2| |]; try done.
      injection H as <- <-. by exists tr2.
  - destruct (len cli =? BUF_SIZE) eqn:Hlen.
    + apply Z.eqb_eq in Hlen. right. left. done.
    + apply Z.eqb_neq in Hlen. left. injection H as <- <-. done.
Qed.

(** ** The invariant of the table *)

Lemma table_ok_insert (i : nat) (st : server) c :
  table_ok st -> slot_ok c -> table_ok (<[i := c]> st).
Proof. intros Hst Hc. by apply Forall_insert. Qed.

Lemma table_ok_lookup (i : nat) (st : server) c :
  table_ok st -> st !! i = Some c -> slot_ok c.
Proof. intros Hst Hi. by eapply Forall_lookup_1. Qed.

Lemma slot_ok_closed c : slot_ok (closed c).
Proof. unfold slot_ok, BUF_SIZE. simpl. lia. Qed.

Lemma newline_within (cli : client_t) (k : nat) :
  index_of NEWLINE (content cli) = Some k ->
  0 < Z.of_nat k + 1 <= len cli.
Proof.
  intros (p & q & Hc & _ & <-)%index_of_Some.
  assert (length (content cli) <= Z.to_nat (len cli))%nat as Hle.
  { unfold content, load. rewrite length_take. lia. }
  rewrite Hc, length_app in Hle. simpl in Hle. lia.
Qed.

Lemma remove_client_ok (i : nat) (st st' : server) tr :
  table_ok st -> remove_client i st = Ok st' tr -> table_ok st'.
Proof.
  intros Hst. unfold remove_client.
  destruct (st !! i) as [cli|]; [|done].
  destruct (fd cli =? -1); [by intros [= <- _]|].
  destruct (has_username cli =? 0); intros [= <- _];
    apply table_ok_insert; auto using slot_ok_closed.
Qed.

Lemma process_message_ok
  (i : nat) (msg_len : Z) (st st' : server) (cli : client_t) tr :
  table_ok st ->
  st !! i = Some cli ->
  fd cli <> -1 ->
  process_message i msg_len st = Ok st' tr ->
  table_ok st'.
Proof.
  intros Hst Hi Hfd Hpm.
  destruct (process_message_effect _ _ _ _ _ _ Hi Hfd Hpm)
    as (cli1 & -> & [[-> _] | (Hfd1 & Hlen1 & _)]);
    apply table_ok_insert; auto using slot_ok_closed.
  pose proof (table_ok_lookup _ _ _ Hst Hi) as [Hb _].
  split; [by rewrite Hlen1 | congruence].
Qed.

Lemma accept_client_ok client_fd remote_addr nonblocking (st : server) :
  table_ok st ->
  table_ok (accept_client client_fd remote_addr nonblocking st).1.
Proof.
  intros Hst. unfold accept_client.
  destruct (client_fd =? -1) eqn:Hfd; [done|]. apply Z.eqb_neq in Hfd.
  destruct (nonblocking =? -1); [done|].
  destruct (find_slot st) as [j|]; [|done]. simpl.
  apply Forall_alter; [done|]. intros c _ _.
  unfold slot_ok, BUF_SIZE. simpl. split; [lia | done].
Qed.

Lemma silent_all_sends i tr : all_sends tr -> silent_after_close i tr.
Proof.
  intros Htr pre s post ->.
  specialize (Htr (Close s)). rewrite elem_of_app, elem_of_cons in Htr.
  discriminate Htr. right. by left.
Qed.

Lemma silent_close_sends i s tr :
  all_sends tr -> silent_after_close i (Close s :: tr).
Proof.
  intros Htr [|e pre] s' post Heq.
  - injection Heq as _ <-. by apply frames_of_all_sends.
  - injection Heq as _ Heq. by eapply (silent_all_sends i tr Htr).
Qed.

Lemma silent_cons_frame i j bytes tr :
  silent_after_close i tr -> silent_after_close i (Frame j bytes :: tr).
Proof.
  intros Htr [|e pre] s post Heq; [done|].
  injection Heq as _ Heq. by eapply Htr.
Qed.

Lemma silent_sends_app i tr1 tr2 :
  all_sends tr1 -> silent_after_close i tr2 ->
  silent_after_close i (tr1 ++ tr2).
Proof.
  induction tr1 as [|e tr1 IH]; intros H1 H2; [done|].
  assert (all_sends tr1) by (intros e' He'; apply H1; by right).
  pose proof (H1 e ltac:(left)) as He.
  intros [|e' pre] s post Heq; simpl in Heq.
  - injection Heq as -> _. done.
  - injection Heq as _ Heq. by eapply (IH ltac:(done) H2).
Qed.

Lemma remove_client_silent (i : nat) (st st' : server) tr :
  remove_client i st = Ok st' tr -> silent_after_close i tr.
Proof.
  unfold remove_client. destruct (st !! i) as [cli|]; [|done].
  destruct (fd cli =? -1);
    [intros [= _ <-]; apply silent_all_sends, all_sends_nil|].
  destruct (has_username cli =? 0); intros [= _ <-];
    apply silent_close_sends;
    auto using all_sends_nil, all_sends_broadcast.
Qed.

(** The read loop keeps the invariant, and stops handing frames over once
    the session is closed. *)
Lemma process_buffer_ok (fuel : nat) (i : nat) (st st' : server) tr :
  table_ok st ->
  process_buffer fuel i st = Ok st' tr ->
  table_ok st' /\ silent_after_close i tr.
Proof.
  revert st tr. induction fuel as [|fuel IH]; intros st tr Hst; [done|].
  intros (cli & Hi & Hcases)%process_buffer_inv.
  destruct Hcases
    as [(_ & -> & ->) | [(_ & _ & _ & -> & ->) | [(_ & _ & _ & Hrm)
        | (Hfd & k & st1 & tr1 & cli1 & Hk & Hpm & Hi1 & Hnext)]]].
  - split; [done | apply silent_all_sends, all_sends_nil].
  - split; [done | apply silent_all_sends, all_sends_nil].
  - split; [by eapply remove_client_ok | by eapply remove_client_silent].
  - pose proof (process_message_ok _ _ _ _ _ _ Hst Hi Hfd Hpm) as Hst1.
    destruct (process_message_effect _ _ _ _ _ _ Hi Hfd Hpm)
      as (c1 & Hst1eq & Heff).
    assert (c1 = cli1) as ->.
    { rewrite Hst1eq, list_lookup_insert_eq in Hi1
        by (by eapply lookup_lt_Some). congruence. }
    destruct Hnext as [(Hfd1 & -> & ->) | (Hfd1 & tr2 & Hrec & ->)].
    + split; [done|]. apply silent_cons_frame.
      destruct Heff as [(_ & sends & -> & Hs & _) | (Hsame & _)];
        [by apply silent_close_sends | congruence].
    + destruct Heff as [[-> _] | (_ & Hlen1 & _ & _ & Htr1 & _)]; [done|].
      apply IH in Hrec as [Hst' Hsil].
      * split; [done|]. apply silent_cons_frame.
        by apply silent_sends_app.
      * apply table_ok_insert; [done|].
        pose proof (table_ok_lookup _ _ _ Hst Hi) as [Hb _].
        pose proof (newline_within _ _ Hk).
        unfold slot_ok. simpl. rewrite Hlen1. split; [lia | done].
Qed.

(** The unrolling bound of handle_client_data is never reached. *)

Lemma and_then_fuel (r : result) (k : server -> result) :
  and_then r k = OutOfFuel ->
  r = OutOfFuel \/ exists st tr, r = Ok st tr /\ k st = OutOfFuel.
Proof.
  destruct r as [st tr| |]; simpl; [|done|by left].
  destruct (k st) eqn:Hk; try done. right. by exists st, tr.
Qed.

Lemma remove_client_not_fuel (i : nat) (st : server) :
  remove_client i st <> OutOfFuel.
Proof. unfold remove_client. repeat (case_match; try done). Qed.

Lemma process_buffer_fuel (fuel : nat) (i : nat) (st : server) :
  (forall cli, st !! i = Some cli -> (Z.to_nat (len cli) <= fuel)%nat) ->
  process_buffer (S fuel) i st <> OutOfFuel.
Proof.
  revert st. induction fuel as [|fuel IH]; intros st Hfuel;
    cbn [process_buffer]; unfold loop_turn;
    (destruct (st !! i) as [cli|] eqn:Hi; [|done]);
    specialize (Hfuel cli eq_refl);
    (destruct (fd cli =? -1) eqn:Hfd; [done|]); apply Z.eqb_neq in Hfd;
    rewrite memchr_content;
    (destruct (index_of NEWLINE (content cli)) as [k|] eqn:Hk; simpl;
     [|destruct (len cli =? BUF_SIZE);
       [apply remove_client_not_fuel | done]]);
    pose proof (newline_within _ _ Hk); [lia|].
  destruct (process_message i (Z.of_nat k + 1) st) as [st1 tr1| |] eqn:Hpm;
    simpl; [|done|by apply process_message_not_fuel in Hpm].
  destruct (process_message_effect _ _ _ _ _ _ Hi Hfd Hpm)
    as (cli1 & -> & Heff).
  rewrite list_lookup_insert_eq by (by eapply lookup_lt_Some).
  destruct (fd cli1 =? -1) eqn:Hfd1; [done|]. apply Z.eqb_neq in Hfd1.
  destruct Heff as [[-> _] | (_ & Hlen1 & _)]; [done|].
  match goal with
  | |- context [loop_turn (process_buffer fuel i) i ?s] =>
      change (loop_turn (process_buffer fuel i) i s)
        with (process_buffer (S fuel) i s);
      pose proof (IH s) as Hrec;
      destruct (process_buffer (S fuel) i s); try done
  end.
  apply Hrec. intros c.
  rewrite list_lookup_insert_eq
    by (rewrite length_insert; by eapply lookup_lt_Some).
  intros [= <-]. simpl. lia.
Qed.

Lemma handle_client_data_fuel (i : nat) (r : read_result) (st : server) :
  handle_client_data i r st <> OutOfFuel.
Proof.
  unfold handle_client_data. destruct (st !! i) as [cli|] eqn:Hi; [|done].
  destruct (fd cli =? -1); [done|].
  destruct r as [data|[]]; try done; try apply remove_client_not_fuel.
  destruct (_ >? 0); [|apply remove_client_not_fuel].
  apply process_buffer_fuel. intros c.
  rewrite list_lookup_insert_eq by (by eapply lookup_lt_Some).
  by intros [= <-].
Qed.

Lemma handle_client_data_ok
  (i : nat) (r : read_result) (st st' : server) tr :
  table_ok st ->
  read_within i r st ->
  handle_client_data i r st = Ok st' tr ->
  table_ok st' /\ silent_after_close i tr.
Proof.
  intros Hst Hr. unfold handle_client_data.
  destruct (st !! i) as [cli|] eqn:Hi; [|done].
  assert (forall st0 tr0,
            remove_client i st = Ok st0 tr0 ->
            table_ok st0 /\ silent_after_close i tr0) as Hrm.
  { intros st0 tr0 H0.
    split; [by eapply remove_client_ok | by eapply remove_client_silent]. }
  destruct (fd cli =? -1) eqn:Hfd.
  { intros [= <- <-]. split; [done | apply silent_all_sends, all_sends_nil]. }
  destruct r as [data|[]]; [| |by apply Hrm].
  - destruct (_ >? 0); [|by apply Hrm].
    apply process_buffer_ok. apply table_ok_insert; [done|].
    pose proof (table_ok_lookup _ _ _ Hst Hi) as [Hb _].
    specialize (Hr cli Hi). apply Z.eqb_neq in Hfd.
    unfold slot_ok. simpl. split; [lia | done].
  - intros [= <- <-]. split; [done | apply silent_all_sends, all_sends_nil].
Qed.

(** The operations give a result.  Removing a client does for every slot
    of the table; processing a frame does unless it is a chat frame whose
    relayed message is longer than its array; and handling a read does
    when the bytes then buffered leave room in that array for the 7 bytes
    of header and for the longest name that a length byte can count. *)

Lemma remove_client_defined (i : nat) (st : server) (cli : client_t) :
  st !! i = Some cli -> exists st' tr, remove_client i st = Ok st' tr.
Proof.
  intros Hi. unfold remove_client. rewrite Hi.
  destruct (fd cli =? -1); [by eexists _, _|].
  destruct (has_username cli =? 0); by eexists _, _.
Qed.

Lemma process_message_defined
  (i : nat) (msg_len : Z) (st : server) (cli : client_t) :
  st !! i = Some cli ->
  (has_username cli <> 0 -> msg_type_of cli = MSG_TYPE_CHAT ->
   Z.of_nat (length (chat_msg cli msg_len)) <= BUF_SIZE + 8) ->
  exists st1 tr1, process_message i msg_len st = Ok st1 tr1.
Proof.
  intros Hi Hfit. unfold process_message. rewrite Hi.
  assert (exists st1 tr1, remove_client i st = Ok st1 tr1) as Hrm.
  { unfold remove_client. rewrite Hi.
    destruct (fd cli =? -1); [by eexists _, _|].
    destruct (has_username cli =? 0); by eexists _, _. }
  destruct (_ && _).
  { destruct (msg_len >? 2); [|by eexists _, _].
    destruct (_ && _ && _); by eexists _, _. }
  destruct (msg_type_of cli =? MSG_TYPE_CHAT) eqn:Hty;
    destruct (has_username cli =? 0) eqn:Hreg; cbn [andb negb];
    try (destruct (msg_type_of cli =? MSG_TYPE_DISCONNECT);
         [exact Hrm | by eexists _, _]).
  apply Z.eqb_eq in Hty. apply Z.eqb_neq in Hreg.
  specialize (Hfit Hreg Hty).
  destruct (_ >? BUF_SIZE + 8) eqn:Hover; [|by eexists _, _].
  apply Z.gtb_lt in Hover. lia.
Qed.

Lemma length_chat_msg_byte (cli : client_t) (msg_len : Z) :
  Z.of_nat (length (chat_msg cli msg_len)) <= 8 + 255 + Z.max 0 (msg_len - 1).
Proof.
  unfold chat_msg. rewrite !length_app, !length_le_split. simpl.
  assert (forall k n (m : list byte), (length (load k n m) <= Z.to_nat n)%nat)
    as Hload by (intros; unfold load; rewrite length_take; lia).
  pose proof (Hload 0 (byte.unsigned (byte.of_Z (Z.of_nat (strlen (username cli)))))
                (username cli)) as H1.
  pose proof (byte.unsigned_range
                (byte.of_Z (Z.of_nat (strlen (username cli))))) as H2.
  change (2 ^ 8) with 256 in H2.
  destruct (msg_len - 1 >? 0) eqn:Hc.
  - pose proof (Hload 1 (msg_len - 1) (buf cli)). lia.
  - simpl. lia.
Qed.

Lemma process_buffer_defined (fuel : nat) (i : nat) :
  forall (st : server) (cli : client_t),
    st !! i = Some cli ->
    len cli <= BUF_SIZE - 254 ->
    process_buffer fuel i st <> Undefined.
Proof.
  induction fuel as [|fuel IH]; intros st cli Hi Hlen; [done|].
  cbn [process_buffer]. unfold loop_turn. rewrite Hi.
  destruct (fd cli =? -1) eqn:Hfd; [done|]. apply Z.eqb_neq in Hfd.
  rewrite memchr_content.
  destruct (index_of NEWLINE (content cli)) as [k|] eqn:Hk; simpl.
  - pose proof (newline_within _ _ Hk) as Hk'.
    destruct (process_message_defined i (Z.of_nat k + 1) st cli Hi)
      as (st1 & tr1 & Hpm).
    { intros _ _. pose proof (length_chat_msg_byte cli (Z.of_nat k + 1)).
      unfold BUF_SIZE in *. lia. }
    rewrite Hpm. simpl.
    destruct (process_message_effect _ _ _ _ _ _ Hi Hfd Hpm)
      as (cli1 & -> & Heff).
    rewrite list_lookup_insert_eq by (by eapply lookup_lt_Some).
    destruct (fd cli1 =? -1) eqn:Hfd1; [done|].
    destruct Heff as [[-> _] | (_ & Hlen1 & _)]; [done|].
    pose proof (IH (<[i := consume cli1 (Z.of_nat k + 1)]> (<[i := cli1]> st))
                  (consume cli1 (Z.of_nat k + 1))) as Hrec.
    destruct (process_buffer fuel i _); try done.
    exfalso. apply Hrec; [|simpl; lia|done].
    apply list_lookup_insert_eq. rewrite length_insert.
    by eapply lookup_lt_Some.
  - destruct (len cli =? BUF_SIZE); [|done].
    by destruct (remove_client_defined i st cli Hi) as (st' & tr & ->).
Qed.

Lemma handle_client_data_defined
  (i : nat) (r : read_result) (st : server) (cli : client_t) :
  st !! i = Some cli ->
  (forall data, r = ReadBytes data ->
                len cli + Z.of_nat (length data) <= BUF_SIZE - 254) ->
  exists st' tr, handle_client_data i r st = Ok st' tr.
Proof.
  intros Hi Hroom.
  destruct (handle_client_data i r st) as [st' tr| |] eqn:Hh;
    [by eexists _, _| |by apply handle_client_data_fuel in Hh].
  exfalso. revert Hh. unfold handle_client_data. rewrite Hi.
  destruct (fd cli =? -1); [done|].
  assert (remove_client i st <> Undefined) as Hrm
    by (by destruct (remove_client_defined i st cli Hi) as (st' & tr & ->)).
  destruct r as [data|[]]; [|done|done].
  destruct (_ >? 0); [|done].
  apply (process_buffer_defined _ i _ (append cli data)).
  - apply list_lookup_insert_eq. by eapply lookup_lt_Some.
  - simpl. by apply Hroom.
Qed.

(** C10: accepting a connection, removing a client, processing a frame of a
    connected session and handling a read that returned no more than was
    asked for all keep the invariant of the table: every length is between
    0 and 1024, and a slot with descriptor -1 has length 0 and no username
    set.  Handling a read always ends within the unrolling bound; in its
    trace no frame of the session is handed to process_message after a
    socket was closed, so the bytes still buffered at closure are not
    processed; and on a slot already closed it returns at once.  These
    results are produced: removing a client returns for every slot of the
    table, processing a frame returns unless it is a chat frame whose
    relayed message exceeds its array of 1032 bytes, and handling a read
    returns whenever at most 770 bytes are buffered after it, so that no
    relayed message can exceed that array. *)
Theorem server_operations_keep_invariant (st : server) :
  table_ok st ->
  (forall client_fd remote_addr nonblocking,
     table_ok (accept_client client_fd remote_addr nonblocking st).1)
  /\ (forall (i : nat) st' tr,
        remove_client i st = Ok st' tr -> table_ok st')
  /\ (forall (i : nat) msg_len cli st' tr,
        st !! i = Some cli -> fd cli <> -1 ->
        process_message i msg_len st = Ok st' tr -> table_ok st')
  /\ (forall (i : nat) r,
        handle_client_data i r st <> OutOfFuel
        /\ (forall cli, st !! i = Some cli -> fd cli = -1 ->
            handle_client_data i r st = Ok st [])
        /\ forall st' tr,
             read_within i r st ->
             handle_client_data i r st = Ok st' tr ->
             table_ok st' /\ silent_after_close i tr)
  /\ (forall (i : nat) cli,
        st !! i = Some cli ->
        (exists st' tr, remove_client i st = Ok st' tr)
        /\ (forall msg_len,
              (has_username cli <> 0 -> msg_type_of cli = MSG_TYPE_CHAT ->
               Z.of_nat (length (chat_msg cli msg_len)) <= BUF_SIZE + 8) ->
              exists st' tr, process_message i msg_len st = Ok st' tr)
        /\ (forall r,
              (forall data, r = ReadBytes data ->
                 len cli + Z.of_nat (length data) <= BUF_SIZE - 254) ->
              exists st' tr, handle_client_data i r st = Ok st' tr)).
Proof.
  intros Hst. split; [|split; [|split; [|split]]].
  - intros. by apply accept_client_ok.
  - intros. by eapply remove_client_ok.
  - intros. by eapply process_message_ok.
  - intros i r. split; [apply handle_client_data_fuel|]. split.
    + intros cli Hi Hfd. unfold handle_client_data. rewrite Hi, Hfd. done.
    + intros. by eapply handle_client_data_ok.
  - intros i cli Hi. split; [by eapply remove_client_defined|]. split.
    + intros msg_len Hfit. by eapply process_message_defined.
    + intros r Hroom. by eapply handle_client_data_defined.
Qed.

Lemma table_ok_init (max_clients : nat) : table_ok (init_server max_clients).
Proof.
  apply Forall_replicate. unfold slot_ok, BUF_SIZE. simpl. lia.
Qed.

Lemma table_ok_two_connected : table_ok two_connected.
Proof.
  unfold two_connected. apply accept_client_ok, accept_client_ok, table_ok_init.
Qed.

Lemma table_ok_just_read (bytes : list byte) :
  Z.of_nat (length bytes) <= BUF_SIZE -> table_ok (just_read bytes).
Proof.
  intros Hb. unfold just_read, with_buffer.
  apply Forall_alter; [apply table_ok_two_connected|].
  intros c Hc _.
  assert (len c = 0 /\ fd c = 4) as [Hl Hf]
    by (vm_compute in Hc; by injection Hc as <-).
  unfold slot_ok, append. simpl. rewrite Hl, Hf. lia.
Qed.

Lemma keep_invariant_witness :
  table_ok (accept_client 6 (mk_addr 16777343 30720) 0
              (just_read register_alice)).1
  /\ (exists st' tr,
        remove_client 1 (just_read register_alice) = Ok st' tr
        /\ table_ok st')
  /\ (exists st' tr,
        process_message 0 8 (just_read register_alice) = Ok st' tr
        /\ table_ok st')
  /\ (exists st' tr,
        handle_client_data 0 (ReadBytes (chat_hello ++ end_msg ++ chat_hello))
          (just_read register_alice) = Ok st' tr
        /\ frames_of 0 tr = [register_alice; chat_hello; end_msg]
        /\ table_ok st' /\ silent_after_close 0 tr).
Proof.
  destruct (server_operations_keep_invariant (just_read register_alice))
    as (Haccept & Hremove & Hprocess & Hread & Hdefined).
  - apply table_ok_just_read. vm_compute. discriminate.
  - split; [apply Haccept|]. split; [|split].
    + destruct (Hdefined 1%nat (slot 1 (just_read register_alice)))
        as ((st' & tr & Heq) & _); [vm_compute; reflexivity|].
      exists st', tr. split; [exact Heq|]. exact (Hremove _ _ _ Heq).
    + destruct (Hdefined O (slot 0 (just_read register_alice)))
        as (_ & Hpm & _); [vm_compute; reflexivity|].
      destruct (Hpm 8) as (st' & tr & Heq).
      { intros Hreg. exfalso. apply Hreg. vm_compute. reflexivity. }
      exists st', tr. split; [exact Heq|].
      refine (Hprocess O 8 (slot 0 (just_read register_alice)) st' tr _ _ Heq).
      * vm_compute. reflexivity.
      * vm_compute. discriminate.
    + eexists _, _. split; [vm_compute; reflexivity|].
      split; [vm_compute; reflexivity|].
      refine (proj2 (proj2 (Hread O (ReadBytes (chat_hello ++ end_msg
                                                  ++ chat_hello))))
                _ _ _ _).
      * intros cli Hcli. vm_compute in Hcli. injection Hcli as <-.
        vm_compute. discriminate.
      * vm_compute. reflexivity.
Defined.

(** ** C strings and the layout of messages *)

Lemma strlen_app_nul (name pad : list byte) :
  NUL ∉ name -> strlen (name ++ NUL :: pad) = length name.
Proof.
  induction name as [|c name IH]; intros Hn; [done|].
  apply not_elem_of_cons in Hn as [Hc Hn]. simpl.
  rewrite (proj2 (byte_eqb_neq c NUL)) by congruence. by rewrite IH.
Qed.

Lemma strlen_holds (u name : list byte) :
  holds_name u name -> strlen u = length name /\ cstring u = name.
Proof.
  intros [Hn [pad ->]]. unfold cstring. rewrite strlen_app_nul by done.
  split; [done | apply take_app_length].
Qed.

Lemma unsigned_of_nat (n : nat) :
  (n < 256)%nat -> byte.unsigned (byte.of_Z (Z.of_nat n)) = Z.of_nat n.
Proof.
  intros Hn. rewrite byte.unsigned_of_Z. unfold byte.wrap.
  apply Z.mod_small. lia.
Qed.

Lemma load_prefix (l rest : list byte) :
  load 0 (Z.of_nat (length l)) (l ++ rest) = l.
Proof.
  unfold load. rewrite Nat2Z.id. apply take_app_length.
Qed.

Lemma load_middle (pre l rest : list byte) :
  load (Z.of_nat (length pre)) (Z.of_nat (length l)) (pre ++ l ++ rest) = l.
Proof.
  unfold load. rewrite !Nat2Z.id, drop_app_length. apply take_app_length.
Qed.

Lemma strncpy_holds (u name : list byte) (n : nat) :
  holds_name u name -> (length name < n)%nat ->
  holds_name (strncpy u n) name.
Proof.
  intros Hu Hn. destruct (strlen_holds _ _ Hu) as [_ Hc].
  destruct Hu as [Hnul _]. split; [done|].
  unfold strncpy. rewrite Hc.
  exists (replicate (n - length name - 1) NUL).
  rewrite take_app_ge by lia. f_equal.
  rewrite take_replicate.
  replace (min (n - length name) n) with (S (n - length name - 1)) by lia.
  done.
Qed.

Lemma presence_msg_wire type a (u name : list byte) :
  holds_name u name -> (length name < 256)%nat ->
  presence_msg type a u = wire type a name [NEWLINE].
Proof.
  intros Hu Hn. destruct (strlen_holds _ _ Hu) as [Hlen _].
  destruct Hu as [_ [pad ->]]. unfold presence_msg, wire.
  rewrite Hlen, unsigned_of_nat, load_prefix by done. done.
Qed.

Lemma chat_msg_wire (cli : client_t) (name text tail : list byte) t :
  holds_name (username cli) name -> (length name < 256)%nat ->
  buf cli = t :: text ++ tail ->
  chat_msg cli (Z.of_nat (length text) + 1) = wire MSG_TYPE_CHAT (addr cli) name text.
Proof.
  intros Hu Hn Hbuf. destruct (strlen_holds _ _ Hu) as [Hlen _].
  destruct Hu as [_ [pad Hpad]]. unfold chat_msg, wire.
  rewrite Hlen, unsigned_of_nat by done. rewrite Hpad, load_prefix.
  do 5 f_equal. rewrite Hbuf.
  replace (Z.of_nat (length text) + 1 - 1) with (Z.of_nat (length text)) by lia.
  destruct text as [|c text]; [done|].
  rewrite (proj2 (Z.gtb_lt _ _)) by (simpl; lia).
  apply (load_middle [t]).
Qed.

Lemma register_holds (cli : client_t) (name tail : list byte) t l :
  buf cli = t :: l :: name ++ tail ->
  NUL ∉ name ->
  holds_name (username (register cli (Z.of_nat (length name)))) name.
Proof.
  intros Hbuf Hn. split; [done|]. unfold register. simpl. rewrite Hbuf.
  change (load 2 (Z.of_nat (length name)) (t :: l :: name ++ tail))
    with (load (Z.of_nat (length [t; l])) (Z.of_nat (length name))
            ([t; l] ++ name ++ tail)).
  rewrite load_middle. unfold store at 2. simpl.
  unfold store. rewrite Nat2Z.id, take_app_length.
  by eexists.
Qed.

Lemma length_chat_msg_le (cli : client_t) (msg_len : Z) :
  Z.of_nat (length (chat_msg cli msg_len))
  <= 8 + Z.of_nat (strlen (username cli)) + Z.max 0 (msg_len - 1).
Proof.
  unfold chat_msg. rewrite !length_app, !length_le_split. simpl.
  assert (forall k n (m : list byte), (length (load k n m) <= Z.to_nat n)%nat)
    as Hload by (intros; unfold load; rewrite length_take; lia).
  pose proof (Hload 0 (byte.unsigned (byte.of_Z (Z.of_nat (strlen (username cli)))))
                (username cli)) as H1.
  rewrite byte.unsigned_of_Z in H1. unfold byte.wrap in H1.
  assert (Z.of_nat (strlen (username cli)) mod 2 ^ 8
          <= Z.of_nat (strlen (username cli)))
    by (apply Z.mod_le; lia).
  rewrite byte.unsigned_of_Z. unfold byte.wrap.
  destruct (msg_len - 1 >? 0) eqn:Hc.
  - pose proof (Hload 1 (msg_len - 1) (buf cli)). lia.
  - simpl. lia.
Qed.

(** ** The buffered bytes *)

Lemma buffered_content (c : client_t) l : buffered c l -> content c = l.
Proof.
  intros [Hlen [tail Hbuf]]. unfold content. rewrite Hlen, Hbuf.
  apply load_prefix.
Qed.

Lemma buffered_empty (c : client_t) : len c = 0 -> buffered c [].
Proof. intros H. split; [done | by exists (buf c)]. Qed.

Lemma buffered_append (c : client_t) l data :
  buffered c l -> buffered (append c data) (l ++ data).
Proof.
  intros [Hlen [tail Hbuf]]. split; simpl.
  - rewrite length_app. lia.
  - unfold store. rewrite Hlen, Hbuf, Nat2Z.id, take_app_length.
    rewrite app_assoc. by eexists.
Qed.

Lemma buffered_consume (c : client_t) f rest :
  buffered c (f ++ NEWLINE :: rest) ->
  buffered (consume c (Z.of_nat (length f) + 1)) rest.
Proof.
  intros [Hlen [tail Hbuf]]. rewrite length_app in Hlen. simpl in Hlen.
  unfold consume. split; simpl; [lia|].
  replace (len c - (Z.of_nat (length f) + 1))
    with (Z.of_nat (length rest)) by lia.
  destruct rest as [|b rest].
  - simpl. by exists (buf c).
  - rewrite (proj2 (Z.gtb_lt _ _)) by (simpl; lia).
    rewrite Hbuf.
    replace (Z.of_nat (length f) + 1)
      with (Z.of_nat (length (f ++ [NEWLINE])))
      by (rewrite length_app; simpl; lia).
    replace ((f ++ NEWLINE :: b :: rest) ++ tail)
      with ((f ++ [NEWLINE]) ++ (b :: rest) ++ tail)
      by (by rewrite <- !app_assoc).
    rewrite load_middle. unfold store. simpl. by eexists.
Qed.

Lemma buffered_frame (c : client_t) f rest :
  buffered c (f ++ NEWLINE :: rest) ->
  load 0 (Z.of_nat (length f) + 1) (buf c) = f ++ [NEWLINE].
Proof.
  intros [_ [tail ->]].
  replace (Z.of_nat (length f) + 1)
    with (Z.of_nat (length (f ++ [NEWLINE])))
    by (rewrite length_app; simpl; lia).
  replace ((f ++ NEWLINE :: rest) ++ tail)
    with ((f ++ [NEWLINE]) ++ rest ++ tail)
    by (by rewrite <- !app_assoc).
  apply load_prefix.
Qed.

(** ** The read loop, turn by turn *)

Lemma handle_read (i : nat) (st : server) (cli : client_t) data :
  st !! i = Some cli -> fd cli <> -1 -> data <> [] ->
  handle_client_data i (ReadBytes data) st
  = process_buffer (S (Z.to_nat (len cli + Z.of_nat (length data)))) i
      (<[i := append cli data]> st).
Proof.
  intros Hi Hfd Hdata. unfold handle_client_data. rewrite Hi.
  apply Z.eqb_neq in Hfd. rewrite Hfd.
  rewrite (proj2 (Z.gtb_lt _ _)); [done|]. destruct data; [done | simpl; lia].
Qed.

Lemma loop_idle (fuel : nat) (i : nat) (st : server) (cli : client_t) l :
  st !! i = Some cli -> fd cli <> -1 ->
  buffered cli l -> NEWLINE ∉ l -> Z.of_nat (length l) <> BUF_SIZE ->
  process_buffer (S fuel) i st = Ok st [].
Proof.
  intros Hi Hfd Hbuf Hnl Hlen. cbn [process_buffer]. unfold loop_turn.
  rewrite Hi. apply Z.eqb_neq in Hfd. rewrite Hfd.
  rewrite memchr_content, (buffered_content _ _ Hbuf).
  rewrite (proj2 (index_of_None _ _) Hnl). simpl.
  destruct Hbuf as [-> _]. apply Z.eqb_neq in Hlen. by rewrite Hlen.
Qed.

Lemma loop_frame
  (fuel : nat) (i : nat) (st st1 : server) (cli cli1 : client_t) f rest tr1 :
  st !! i = Some cli -> fd cli <> -1 ->
  buffered cli (f ++ NEWLINE :: rest) -> NEWLINE ∉ f ->
  process_message i (Z.of_nat (length f) + 1) st = Ok st1 tr1 ->
  st1 !! i = Some cli1 ->
  process_buffer (S fuel) i st
  = if fd cli1 =? -1 then Ok st1 (Frame i (f ++ [NEWLINE]) :: tr1)
    else and_then (Ok st1 (Frame i (f ++ [NEWLINE]) :: tr1))
           (fun s => process_buffer fuel i
                       (<[i := consume cli1 (Z.of_nat (length f) + 1)]> s)).
Proof.
  intros Hi Hfd Hbuf Hnl Hpm Hi1. cbn [process_buffer]. unfold loop_turn.
  rewrite Hi. apply Z.eqb_neq in Hfd. rewrite Hfd.
  rewrite memchr_content, (buffered_content _ _ Hbuf).
  rewrite (index_of_app _ _ _ Hnl). cbn [fmap option_fmap option_map].
  rewrite (buffered_frame _ _ _ Hbuf). cbn [and_then].
  rewrite Hpm. cbn [and_then]. rewrite Hi1.
  destruct (fd cli1 =? -1); [by rewrite app_nil_r|].
  by destruct (process_buffer fuel i _).
Qed.

Lemma frames_of_process_message
  (i j : nat) (msg_len : Z) (st st1 : server) (cli : client_t) tr1 :
  st !! i = Some cli -> fd cli <> -1 ->
  process_message i msg_len st = Ok st1 tr1 ->
  frames_of j tr1 = [].
Proof.
  intros Hi Hfd Hpm.
  destruct (process_message_effect _ _ _ _ _ _ Hi Hfd Hpm)
    as (cli1 & _ & [(_ & sends & -> & Hs & _) | (_ & _ & _ & _ & Hs & _)]);
    simpl; by apply frames_of_all_sends.
Qed.

Lemma app_sep_last (x : byte) (l1 l2 b : list byte) :
  x ∉ b -> l1 ++ x :: l2 = b ++ [x] -> l1 = b /\ l2 = [].
Proof.
  revert b. induction l1 as [|a l1 IH]; intros [|y b] Hb Heq; simpl in *.
  - by injection Heq as ->.
  - injection Heq as -> _. exfalso. apply Hb. left.
  - injection Heq as _ Heq. by destruct l1.
  - injection Heq as -> Heq. apply not_elem_of_cons in Hb as [_ Hb].
    destruct (IH b Hb Heq) as [-> ->]. done.
Qed.

(** ** One frame, however it is split *)

Lemma reads_one_frame (i : nat) (body : list byte) (chunks : list (list byte)) :
  NEWLINE ∉ body ->
  Z.of_nat (length body) + 1 <= BUF_SIZE ->
  Forall (fun data => data <> []) chunks ->
  forall (st : server) (cli : client_t) (pre : list byte),
    st !! i = Some cli -> fd cli <> -1 ->
    buffered cli pre -> NEWLINE ∉ pre ->
    pre ++ concat chunks = body ++ [NEWLINE] ->
    (has_username cli <> 0 -> head body = Some (byte.of_Z MSG_TYPE_CHAT) ->
     Z.of_nat (strlen (username cli)) + Z.of_nat (length body) <= BUF_SIZE) ->
    exists st' tr,
      reads i chunks st = Ok st' tr /\ frames_of i tr = [body ++ [NEWLINE]].
Proof.
  intros Hbody Hsize Hne.
  induction Hne as [|data chunks Hdata Hne IH];
    intros st cli pre Hi Hfd Hbuf Hpre Hsplit Hfit.
  { simpl in Hsplit. rewrite app_nil_r in Hsplit. subst pre.
    exfalso. apply Hpre. apply elem_of_app. right. left. }
  assert (i < length st)%nat as Hlt by (by eapply lookup_lt_Some).
  cbn [reads concat] in *. rewrite (handle_read i st cli data Hi Hfd Hdata).
  set (cli2 := append cli data). set (st2 := <[i := cli2]> st).
  assert (st2 !! i = Some cli2) as Hi2 by (by apply list_lookup_insert_eq).
  assert (buffered cli2 (pre ++ data)) as Hbuf2 by (by apply buffered_append).
  replace (len cli + Z.of_nat (length data)) with (len cli2) by done.
  destruct (index_of NEWLINE data) as [k|] eqn:Hk.
  - (* the newline arrives: this is the last chunk *)
    apply index_of_Some in Hk as (p & q & -> & Hp & _).
    replace (pre ++ (p ++ NEWLINE :: q) ++ concat chunks)
      with ((pre ++ p) ++ NEWLINE :: (q ++ concat chunks)) in Hsplit
      by (by rewrite <- !app_assoc).
    apply app_sep_last in Hsplit as [Hpp Hq]; [|done].
    apply app_eq_nil in Hq as [-> Hc].
    assert (chunks = []) as ->.
    { destruct Hne as [|c cs Hc0 _]; [done|]. simpl in Hc.
      apply app_eq_nil in Hc as [-> _]. done. }
    rewrite app_assoc, Hpp in Hbuf2.
    assert (exists st1 tr1,
               process_message i (Z.of_nat (length body) + 1) st2 = Ok st1 tr1)
      as (st1 & tr1 & Hpm).
    { apply (process_message_defined i _ st2 cli2 Hi2). intros Hreg Hty.
      pose proof (length_chat_msg_le cli2 (Z.of_nat (length body) + 1)) as Hle.
      assert (head body = Some (byte.of_Z MSG_TYPE_CHAT)) as Hhd.
      { destruct Hbuf2 as [_ [tail Htail]]. unfold msg_type_of in Hty.
        rewrite Htail in Hty. destruct body as [|b body]; simpl in Hty.
        - vm_compute in Hty. discriminate.
        - simpl. f_equal. apply byte.unsigned_inj. by rewrite Hty. }
      specialize (Hfit Hreg Hhd). change (username cli2) with (username cli) in Hle.
      lia. }
    pose proof (frames_of_process_message i i _ _ _ _ _ Hi2 Hfd Hpm) as Hfr.
    destruct (process_message_effect _ _ _ _ _ _ Hi2 Hfd Hpm)
      as (cli1 & Hst1 & Heff).
    assert (st1 !! i = Some cli1) as Hi1.
    { rewrite Hst1. apply list_lookup_insert_eq.
      unfold st2. by rewrite length_insert. }
    rewrite (loop_frame _ i st2 st1 cli2 cli1 body [] tr1 Hi2 Hfd Hbuf2
               Hbody Hpm Hi1).
    destruct (fd cli1 =? -1) eqn:Hfd1.
    + eexists _, _. split; [reflexivity|].
      rewrite app_nil_r. simpl. by rewrite Nat.eqb_refl, Hfr.
    + apply Z.eqb_neq in Hfd1.
      destruct Heff as [[-> _] | (_ & Hlen1 & Hbuf1 & _)]; [done|].
      assert (buffered cli1 (body ++ [NEWLINE])) as Hb1.
      { destruct Hbuf2 as [Hl [tail Ht]]. split; [congruence|].
        exists tail. congruence. }
      apply buffered_consume in Hb1.
      destruct Hbuf2 as [Hl2 _]. rewrite Hl2, length_app. simpl.
      replace (Z.to_nat (Z.of_nat (length body + 1)))
        with (S (length body)) by lia.
      cbn [and_then].
      rewrite (loop_idle (length body) i _
                 (consume cli1 (Z.of_nat (length body) + 1)) []);
        [|apply list_lookup_insert_eq; by eapply lookup_lt_Some
         |exact Hfd1|exact Hb1|apply not_elem_of_nil|done].
      eexists _, _. split; [reflexivity|].
      rewrite !app_nil_r. simpl. by rewrite Nat.eqb_refl, Hfr.
  - (* no newline yet: the bytes wait in the buffer *)
    apply index_of_None in Hk.
    assert (NEWLINE ∉ pre ++ data) as Hpre2.
    { intros [H|H]%elem_of_app; contradiction. }
    assert (Z.of_nat (length (pre ++ data)) <> BUF_SIZE) as Hroom.
    { destruct Hne as [|c cs Hc0 _].
      - exfalso. apply Hpre2. simpl in Hsplit.
        rewrite app_nil_r in Hsplit. rewrite Hsplit.
        apply elem_of_app. right. left.
      - apply (f_equal length) in Hsplit.
        rewrite !length_app in Hsplit. simpl in Hsplit.
        rewrite length_app in Hsplit. rewrite length_app.
        destruct c; [done|]. simpl in Hsplit. lia. }
    erewrite loop_idle; [|exact Hi2|exact Hfd|exact Hbuf2|exact Hpre2|exact Hroom].
    cbn [and_then].
    destruct (IH st2 cli2 (pre ++ data) Hi2 Hfd Hbuf2 Hpre2)
      as (st' & tr & -> & Hfr).
    + by rewrite <- app_assoc.
    + exact Hfit.
    + by eexists _, _.
Qed.

(** C2: for every frame (bytes without newline, then the newline, at most
    1024 in all) and every way of cutting it into non-empty chunks returned
    by successive reads on a connection whose buffer was empty, the read
    loop hands exactly one frame to process_message, and its bytes are the
    frame whatever the cut.  (A chat frame of a registered session must fit
    the relay buffer of process_message, which holds 1032 bytes.) *)
Theorem one_frame_whatever_the_split
  (i : nat) (st : server) (cli : client_t) (body : list byte)
  (chunks : list (list byte)) :
  st !! i = Some cli ->
  fd cli <> -1 ->
  len cli = 0 ->
  NEWLINE ∉ body ->
  Z.of_nat (length body) + 1 <= BUF_SIZE ->
  (has_username cli <> 0 -> head body = Some (byte.of_Z MSG_TYPE_CHAT) ->
   Z.of_nat (strlen (username cli)) + Z.of_nat (length body) <= BUF_SIZE) ->
  concat chunks = body ++ [NEWLINE] ->
  Forall (fun data => data <> []) chunks ->
  exists st' tr,
    reads i chunks st = Ok st' tr /\ frames_of i tr = [body ++ [NEWLINE]].
Proof.
  intros Hi Hfd Hlen Hbody Hsize Hfit Hcat Hne.
  apply (reads_one_frame i body chunks Hbody Hsize Hne st cli []); try done.
  - by apply buffered_empty.
  - apply not_elem_of_nil.
Qed.

Lemma one_frame_witness :
  exists st' tr,
    reads 0 [bytes_of [3; 5; 97]; bytes_of [108; 105]; bytes_of [99; 101; 10]]
      two_connected = Ok st' tr
    /\ frames_of 0 tr = [bytes_of [3; 5; 97; 108; 105; 99; 101] ++ [NEWLINE]].
Proof.
  apply (one_frame_whatever_the_split 0 two_connected (slot 0 two_connected)).
  - reflexivity.
  - vm_compute. lia.
  - reflexivity.
  - apply index_of_None. reflexivity.
  - vm_compute. discriminate.
  - intros H. exfalso. apply H. reflexivity.
  - reflexivity.
  - repeat constructor; discriminate.
Defined.

(** ** Registration and chat, in closed form *)

Lemma sends_to_broadcast_message (j : nat) (st : server) msg c :
  msg <> [] -> st !! j = Some c ->
  sends_to j (broadcast_message st msg) = if deliverable c then [msg] else [].
Proof.
  intros Hmsg Hj. unfold broadcast_message.
  rewrite (proj2 (Z.leb_gt _ _)) by (destruct msg; [done | simpl; lia]).
  rewrite sends_to_broadcast_from, decide_True by lia.
  by rewrite Nat.sub_0_r, Hj.
Qed.

Lemma process_registration
  (i : nat) (msg_len : Z) (st : server) (cli : client_t) (name tail : list byte) :
  st !! i = Some cli ->
  has_username cli = 0 ->
  buf cli = byte.of_Z MSG_TYPE_USERNAME
              :: byte.of_Z (Z.of_nat (length name)) :: name ++ tail ->
  (0 < length name < 32)%nat ->
  2 + Z.of_nat (length name) <= msg_len ->
  NUL ∉ name ->
  process_message i msg_len st
  = Ok (<[i := register cli (Z.of_nat (length name))]> st)
       (broadcast_message (<[i := register cli (Z.of_nat (length name))]> st)
          (wire MSG_TYPE_JOIN (addr cli) name [NEWLINE])).
Proof.
  intros Hi Hreg Hbuf Hn Hm Hnul. unfold process_message. rewrite Hi.
  assert (msg_type_of cli = MSG_TYPE_USERNAME) as ->
    by (unfold msg_type_of; by rewrite Hbuf).
  assert (declared_len cli = Z.of_nat (length name)) as ->.
  { unfold declared_len. rewrite Hbuf. simpl. apply unsigned_of_nat. lia. }
  rewrite Hreg. change (MSG_TYPE_USERNAME =? MSG_TYPE_USERNAME) with true.
  cbn [andb Z.eqb].
  rewrite (proj2 (Z.gtb_lt _ _)) by lia.
  rewrite (proj2 (Z.gtb_lt _ _)) by lia.
  rewrite (proj2 (Z.ltb_lt _ _)) by (unfold MAX_USERNAME_LEN; lia).
  rewrite (proj2 (Z.geb_le _ _)) by lia.
  cbn [andb]. unfold broadcast_join. f_equal. f_equal.
  apply presence_msg_wire; [|lia]. by eapply register_holds.
Qed.

Lemma process_chat
  (i : nat) (st : server) (cli : client_t) (name text tail : list byte) :
  st !! i = Some cli ->
  has_username cli <> 0 ->
  holds_name (username cli) name -> (length name < 256)%nat ->
  buf cli = byte.of_Z MSG_TYPE_CHAT :: text ++ tail ->
  8 + Z.of_nat (length name) + Z.of_nat (length text) <= BUF_SIZE + 8 ->
  process_message i (Z.of_nat (length text) + 1) st
  = Ok st (broadcast_message st (wire MSG_TYPE_CHAT (addr cli) name text)).
Proof.
  intros Hi Hreg Hname Hn Hbuf Hfit. unfold process_message. rewrite Hi.
  assert (msg_type_of cli = MSG_TYPE_CHAT) as ->
    by (unfold msg_type_of; by rewrite Hbuf).
  apply Z.eqb_neq in Hreg. rewrite Hreg.
  change (MSG_TYPE_CHAT =? MSG_TYPE_USERNAME) with false.
  change (MSG_TYPE_CHAT =? MSG_TYPE_CHAT) with true. cbn [andb negb].
  rewrite (chat_msg_wire cli name text tail _ Hname Hn Hbuf).
  destruct (_ >? BUF_SIZE + 8) eqn:Hover; [|done].
  apply Z.gtb_lt in Hover. unfold wire in Hover.
  rewrite !length_app, !length_le_split in Hover. simpl in Hover. lia.
Qed.

Lemma loop_registration
  (fuel : nat) (i : nat) (st : server) (cli : client_t) (name rest : list byte) :
  st !! i = Some cli ->
  fd cli <> -1 ->
  has_username cli = 0 ->
  buffered cli (byte.of_Z MSG_TYPE_USERNAME
                  :: byte.of_Z (Z.of_nat (length name))
                  :: name ++ NEWLINE :: rest) ->
  (0 < length name < 32)%nat ->
  length name <> 10%nat ->
  NUL ∉ name ->
  NEWLINE ∉ name ->
  let cli1 := register cli (Z.of_nat (length name)) in
  let cli2 := consume cli1 (Z.of_nat (length name) + 3) in
  process_buffer (S fuel) i st
  = and_then
      (Ok (<[i := cli1]> st)
          (Frame i (byte.of_Z MSG_TYPE_USERNAME
                      :: byte.of_Z (Z.of_nat (length name))
                      :: name ++ [NEWLINE])
             :: broadcast_message (<[i := cli1]> st)
                  (wire MSG_TYPE_JOIN (addr cli) name [NEWLINE])))
      (fun s => process_buffer fuel i (<[i := cli2]> s))
  /\ buffered cli2 rest
  /\ holds_name (username cli2) name.
Proof.
  intros Hi Hfd Hreg Hbuf Hn H10 Hnul Hnl cli1 cli2.
  set (f := byte.of_Z MSG_TYPE_USERNAME
              :: byte.of_Z (Z.of_nat (length name)) :: name).
  assert (Z.of_nat (length f) + 1 = Z.of_nat (length name) + 3) as Hlen
    by (unfold f; simpl; lia).
  assert (NEWLINE ∉ f) as Hf.
  { unfold f. rewrite !not_elem_of_cons. split; [done|]. split; [|done].
    intros Heq%(f_equal byte.unsigned). rewrite unsigned_of_nat in Heq by lia.
    change (byte.unsigned NEWLINE) with 10 in Heq. lia. }
  destruct Hbuf as [Hl [tail Htail]].
  assert (buffered cli (f ++ NEWLINE :: rest)) as Hbuf by (split; [done | by exists tail]).
  assert (process_message i (Z.of_nat (length f) + 1) st
          = Ok (<[i := cli1]> st)
               (broadcast_message (<[i := cli1]> st)
                  (wire MSG_TYPE_JOIN (addr cli) name [NEWLINE]))) as Hpm.
  { apply (process_registration i _ st cli name (NEWLINE :: rest ++ tail));
      try done; [|lia].
    rewrite Htail. simpl. by rewrite <- app_assoc. }
  assert (i < length st)%nat as Hlt by (by eapply lookup_lt_Some).
  assert (buffered cli1 (f ++ NEWLINE :: rest)) as Hbuf1 by done.
  split; [|split].
  - rewrite (loop_frame fuel i st _ cli cli1 f rest _ Hi Hfd Hbuf Hf Hpm)
      by (by apply list_lookup_insert_eq).
    change (fd cli1) with (fd cli). apply Z.eqb_neq in Hfd. rewrite Hfd.
    unfold cli2. by rewrite <- Hlen.
  - unfold cli2. rewrite <- Hlen. by apply buffered_consume.
  - apply (register_holds cli name (NEWLINE :: rest ++ tail)
             (byte.of_Z MSG_TYPE_USERNAME)
             (byte.of_Z (Z.of_nat (length name)))); [|done].
    rewrite Htail. simpl. by rewrite <- app_assoc.
Qed.

Lemma loop_chat
  (fuel : nat) (i : nat) (st : server) (cli : client_t)
  (name text rest : list byte) :
  st !! i = Some cli ->
  fd cli <> -1 ->
  has_username cli <> 0 ->
  holds_name (username cli) name -> (length name < 32)%nat ->
  buffered cli (byte.of_Z MSG_TYPE_CHAT :: text ++ NEWLINE :: rest) ->
  NEWLINE ∉ text ->
  Z.of_nat (length name) + Z.of_nat (length text) + 1 <= BUF_SIZE ->
  let cli2 := consume cli (Z.of_nat (length text) + 2) in
  process_buffer (S fuel) i st
  = and_then
      (Ok st
          (Frame i (byte.of_Z MSG_TYPE_CHAT :: text ++ [NEWLINE])
             :: broadcast_message st
                  (wire MSG_TYPE_CHAT (addr cli) name (text ++ [NEWLINE]))))
      (fun s => process_buffer fuel i (<[i := cli2]> s))
  /\ buffered cli2 rest.
Proof.
  intros Hi Hfd Hreg Hname Hn Hbuf Hnl Hfit cli2.
  set (f := byte.of_Z MSG_TYPE_CHAT :: text).
  assert (Z.of_nat (length f) + 1 = Z.of_nat (length text) + 2) as Hlen
    by (unfold f; simpl; lia).
  assert (NEWLINE ∉ f) as Hf
    by (unfold f; rewrite not_elem_of_cons; by split).
  destruct Hbuf as [Hl [tail Htail]].
  assert (buffered cli (f ++ NEWLINE :: rest)) as Hbuf
    by (split; [done | by exists tail]).
  assert (process_message i (Z.of_nat (length f) + 1) st
          = Ok st (broadcast_message st
                     (wire MSG_TYPE_CHAT (addr cli) name (text ++ [NEWLINE]))))
    as Hpm.
  { replace (Z.of_nat (length f) + 1)
      with (Z.of_nat (length (text ++ [NEWLINE])) + 1)
      by (rewrite length_app; unfold f; simpl; lia).
    apply (process_chat i st cli name (text ++ [NEWLINE]) (rest ++ tail));
      try done; [lia| |rewrite length_app; simpl; lia].
    rewrite Htail. simpl. by rewrite <- !app_assoc. }
  split.
  - rewrite (loop_frame fuel i st _ cli cli f rest _ Hi Hfd Hbuf Hf Hpm Hi).
    apply Z.eqb_neq in Hfd. rewrite Hfd. unfold cli2. by rewrite <- Hlen.
  - unfold cli2. rewrite <- Hlen. by apply buffered_consume.
Qed.

(** ** The scenario: register, then chat *)

(** C1: a connected session with an empty buffer and no username delivers
    0x03 0x05 'alice' 0x0A then 0x00 'hello' 0x0A, in one read or in two.
    Every other session with a live descriptor (in particular every other
    registered session) is sent exactly two messages, in this order: the Join
    notice [2][ip:4][port:2][5]['alice'][0x0A] and the chat message
    [0][ip:4][port:2][5]['alice']['hello'][0x0A], ip and port being the
    sender's. *)
Theorem register_then_chat_relayed
  (i j : nat) (st : server) (cli other : client_t)
  (chunks : list (list byte)) :
  st !! i = Some cli ->
  fd cli <> -1 ->
  has_username cli = 0 ->
  len cli = 0 ->
  st !! j = Some other ->
  j <> i ->
  0 < fd other ->
  chunks = [register_alice ++ chat_hello]
    \/ chunks = [register_alice; chat_hello] ->
  exists st' tr,
    reads i chunks st = Ok st' tr
    /\ sends_to j tr
       = [ Byte.x02 :: le_split 4 (s_addr (addr cli))
             ++ le_split 2 (sin_port (addr cli))
             ++ Byte.x05 :: alice ++ [NEWLINE];
           Byte.x00 :: le_split 4 (s_addr (addr cli))
             ++ le_split 2 (sin_port (addr cli))
             ++ Byte.x05 :: alice ++ hello ++ [NEWLINE] ].
Proof.
  intros Hi Hfd Hreg Hlen Hj Hji Hother Hchunks.
  assert (deliverable other = true) as Hdel.
  { unfold deliverable. rewrite (proj2 (Z.eqb_neq _ _)) by lia.
    by rewrite (proj2 (Z.gtb_lt _ _)) by lia. }
  assert (i < length st)%nat as Hlt by (by eapply lookup_lt_Some).
  assert (NUL ∉ alice) as Hnul by (apply index_of_None; reflexivity).
  assert (NEWLINE ∉ alice) as Hnl by (apply index_of_None; reflexivity).
  assert (NEWLINE ∉ hello) as Hnlh by (apply index_of_None; reflexivity).
  assert (forall (s : server) c, s !! j = Some other ->
            <[i := c]> s !! j = Some other) as Hkeep
    by (intros s c Hs; by rewrite list_lookup_insert_ne).
  assert (forall (s : server) c, (i < length s)%nat ->
            <[i := c]> s !! i = Some c) as Hput
    by (intros; by apply list_lookup_insert_eq).
  assert (forall (s : server) c, (i < length s)%nat ->
            (i < length (<[i := c]> s))%nat) as Hlen'
    by (intros; by rewrite length_insert).
  destruct Hchunks as [-> | ->]; cbn [reads].
  - (* one read brings both frames *)
    rewrite (handle_read i st cli _ Hi Hfd) by done. rewrite Hlen.
    change (Z.to_nat (0 + Z.of_nat (length (register_alice ++ chat_hello))))
      with 15%nat.
    set (cli2 := append cli (register_alice ++ chat_hello)).
    set (st2 := <[i := cli2]> st).
    assert (buffered cli2 (register_alice ++ chat_hello)) as Hb2
      by (apply (buffered_append cli []); by apply buffered_empty).
    pose proof (loop_registration 15 i st2 cli2 alice chat_hello
                  (Hput _ _ Hlt) Hfd Hreg Hb2 ltac:(simpl; lia)
                  ltac:(simpl; lia) Hnul Hnl) as Hturn1.
    cbv zeta in Hturn1. destruct Hturn1 as (-> & Hb4 & Hname4).
    set (cli3 := register cli2 (Z.of_nat (length alice))) in *.
    set (st3 := <[i := cli3]> st2).
    set (cli4 := consume cli3 (Z.of_nat (length alice) + 3)) in *.
    cbn [and_then]. set (st4 := <[i := cli4]> st3).
    assert (i < length st3)%nat as Hlt3
      by (unfold st3, st2; by rewrite !length_insert).
    assert (i < length st4)%nat as Hlt4
      by (unfold st4; by rewrite length_insert).
    pose proof (loop_chat 14 i st4 cli4 alice hello []
                  (Hput _ _ Hlt3) Hfd
                  ltac:(done) Hname4 ltac:(simpl; lia) Hb4 Hnlh
                  ltac:(unfold BUF_SIZE; simpl; lia)) as Hturn2.
    cbv zeta in Hturn2. destruct Hturn2 as (-> & Hb6).
    set (cli6 := consume cli4 (Z.of_nat (length hello) + 2)) in *.
    cbn [and_then].
    rewrite (loop_idle 13 i (<[i := cli6]> st4) cli6 [] (Hput _ _ Hlt4) Hfd
               Hb6 (not_elem_of_nil _) ltac:(done)).
    eexists _, _. split; [reflexivity|].
    rewrite !app_nil_r. cbn [sends_to]. rewrite sends_to_app. cbn [sends_to].
    rewrite (sends_to_broadcast_message j st3 _ other),
      (sends_to_broadcast_message j st4 _ other);
      [by rewrite Hdel | done | | done |]; unfold st4, st3, st2; auto.
  - (* each frame arrives in a read of its own *)
    rewrite (handle_read i st cli _ Hi Hfd) by done. rewrite Hlen.
    change (Z.to_nat (0 + Z.of_nat (length register_alice))) with 8%nat.
    set (cli2 := append cli register_alice).
    set (st2 := <[i := cli2]> st).
    assert (buffered cli2 register_alice) as Hb2
      by (apply (buffered_append cli []); by apply buffered_empty).
    pose proof (loop_registration 8 i st2 cli2 alice []
                  (Hput _ _ Hlt) Hfd Hreg Hb2 ltac:(simpl; lia)
                  ltac:(simpl; lia) Hnul Hnl) as Hturn1.
    cbv zeta in Hturn1. destruct Hturn1 as (-> & Hb4 & Hname4).
    set (cli3 := register cli2 (Z.of_nat (length alice))) in *.
    set (st3 := <[i := cli3]> st2).
    set (cli4 := consume cli3 (Z.of_nat (length alice) + 3)) in *.
    cbn [and_then]. set (st4 := <[i := cli4]> st3).
    assert (i < length st3)%nat as Hlt3
      by (unfold st3, st2; by rewrite !length_insert).
    assert (i < length st4)%nat as Hlt4
      by (unfold st4; by rewrite length_insert).
    assert (st4 !! i = Some cli4) as Hi4 by (by apply Hput).
    assert (i < length (<[i := append cli4 chat_hello]> st4))%nat as Hlt5
      by (by rewrite length_insert).
    rewrite (loop_idle 7 i st4 cli4 [] Hi4 Hfd Hb4 (not_elem_of_nil _)
               ltac:(done)).
    cbn [and_then].
    rewrite (handle_read i st4 cli4 _ Hi4 Hfd) by done.
    destruct Hb4 as [Hl4 Ht4]. rewrite Hl4.
    change (Z.to_nat (Z.of_nat (length []) + Z.of_nat (length chat_hello)))
      with 7%nat.
    set (cli5 := append cli4 chat_hello). set (st5 := <[i := cli5]> st4).
    assert (buffered cli5 chat_hello) as Hb5
      by (by apply (buffered_append cli4 [])).
    pose proof (loop_chat 7 i st5 cli5 alice hello []
                  (Hput _ _ Hlt4) Hfd ltac:(done) Hname4
                  ltac:(simpl; lia) Hb5 Hnlh
                  ltac:(unfold BUF_SIZE; simpl; lia)) as Hturn2.
    cbv zeta in Hturn2. destruct Hturn2 as (-> & Hb6).
    set (cli6 := consume cli5 (Z.of_nat (length hello) + 2)) in *.
    cbn [and_then].
    rewrite (loop_idle 6 i (<[i := cli6]> st5) cli6 []
               (Hput _ _ Hlt5) Hfd
               Hb6 (not_elem_of_nil _) ltac:(done)).
    eexists _, _. split; [reflexivity|].
    rewrite !app_nil_r. cbn [sends_to]. rewrite sends_to_app. cbn [sends_to].
    rewrite (sends_to_broadcast_message j st3 _ other),
      (sends_to_broadcast_message j st5 _ other);
      [by rewrite Hdel | done | | done |];
      unfold st5, st4, st3, st2; auto.
Qed.

Lemma register_then_chat_witness :
  exists st' tr,
    reads 0 [register_alice ++ chat_hello] two_connected = Ok st' tr
    /\ sends_to 1 tr
       = [ Byte.x02 :: le_split 4 (s_addr (addr (slot 0 two_connected)))
             ++ le_split 2 (sin_port (addr (slot 0 two_connected)))
             ++ Byte.x05 :: alice ++ [NEWLINE];
           Byte.x00 :: le_split 4 (s_addr (addr (slot 0 two_connected)))
             ++ le_split 2 (sin_port (addr (slot 0 two_connected)))
             ++ Byte.x05 :: alice ++ hello ++ [NEWLINE] ].
Proof.
  apply (register_then_chat_relayed 0 1 two_connected
           (slot 0 two_connected) (slot 1 two_connected)).
  - reflexivity.
  - vm_compute. lia.
  - reflexivity.
  - reflexivity.
  - reflexivity.
  - lia.
  - reflexivity.
  - left. reflexivity.
Defined.

(** ** The wire format, read back *)

Lemma recv_exact_app (l rest : list byte) :
  l <> [] ->
  recv_exact (Z.of_nat (length l)) (l ++ rest) = Some (l, rest).
Proof.
  intros Hl. unfold recv_exact.
  rewrite (proj2 (Z.ltb_lt _ _)) by (destruct l; [done | simpl; lia]).
  rewrite (proj2 (Z.leb_le _ _)) by (rewrite length_app; lia).
  cbn [andb]. by rewrite Nat2Z.id, take_app_length, drop_app_length.
Qed.

Lemma recv_peer_wire (a : sockaddr_in) (name rest : list byte) :
  (0 < length name < 32)%nat ->
  recv_peer (le_split 4 (s_addr a) ++ le_split 2 (sin_port a)
               ++ [byte.of_Z (Z.of_nat (length name))] ++ name ++ rest)
  = Some (s_addr a mod 2 ^ 32, sin_port a mod 2 ^ 16, name, rest).
Proof.
  intros Hn. unfold recv_peer.
  pose proof (recv_exact_app (le_split 4 (s_addr a))) as H4.
  rewrite length_le_split in H4. rewrite H4 by done.
  pose proof (recv_exact_app (le_split 2 (sin_port a))) as H2.
  rewrite length_le_split in H2. rewrite H2 by done.
  rewrite (recv_exact_app [_]) by done.
  cbn [nth]. rewrite unsigned_of_nat by lia.
  rewrite (proj2 (Z.gtb_lt _ _)) by lia.
  rewrite (proj2 (Z.ltb_lt _ _)) by (unfold MAX_USERNAME_LEN; lia).
  cbn [andb]. rewrite recv_exact_app by (destruct name; [simpl in Hn; lia | done]).
  by rewrite !le_combine_split.
Qed.

Lemma recv_line_app (msg_buf text rest : list byte) :
  NEWLINE ∉ text ->
  Z.of_nat (length msg_buf) + Z.of_nat (length text) <= BUF_SIZE - 1 ->
  recv_line msg_buf (text ++ NEWLINE :: rest) = Some (msg_buf ++ text, rest).
Proof.
  revert msg_buf. induction text as [|c text IH]; intros msg_buf Hnl Hfit.
  - simpl. by rewrite app_nil_r.
  - apply not_elem_of_cons in Hnl as [Hc Hnl]. cbn [app recv_line].
    rewrite (proj2 (byte_eqb_neq c NEWLINE)) by congruence.
    rewrite (proj2 (Z.ltb_lt _ _)) by (simpl in Hfit; lia).
    rewrite IH; [by rewrite <- app_assoc | done |].
    rewrite length_app. simpl in *. lia.
Qed.

Lemma receiver_thread_wire
  (type : Z) (a : sockaddr_in) (name tail more : list byte)
  (should_stop : bool) :
  (0 < length name < 32)%nat ->
  0 <= s_addr a < 2 ^ 32 ->
  0 <= sin_port a < 2 ^ 16 ->
  (type = MSG_TYPE_JOIN ->
   receiver_thread should_stop (wire type a name [NEWLINE] ++ more)
   = Some (JoinFrame (s_addr a) (sin_port a) name, more))
  /\ (type = MSG_TYPE_DISCONNECT ->
      receiver_thread should_stop (wire type a name [NEWLINE] ++ more)
      = Some (DisconnectFrame (s_addr a) (sin_port a) name, more))
  /\ (type = MSG_TYPE_CHAT ->
      NEWLINE ∉ tail ->
      Z.of_nat (length tail) <= BUF_SIZE - 1 ->
      receiver_thread should_stop (wire type a name (tail ++ [NEWLINE]) ++ more)
      = if should_stop then None
        else Some (ChatFrame (s_addr a) (sin_port a) name tail, more)).
Proof.
  intros Hn Hip Hport.
  assert (forall rest,
            recv_peer
              ((le_split 4 (s_addr a) ++ le_split 2 (sin_port a)
                  ++ byte.of_Z (Z.of_nat (length name)) :: name ++ rest))
            = Some (s_addr a, sin_port a, name, rest)) as Hpeer.
  { intros rest. rewrite <- (Z.mod_small (s_addr a) (2 ^ 32)) at 2 by done.
    rewrite <- (Z.mod_small (sin_port a) (2 ^ 16)) at 2 by done.
    by apply recv_peer_wire. }
  assert (forall b (s : list byte), recv_exact 1 (b :: s) = Some ([b], s))
    as Hone.
  { intros b s. unfold recv_exact.
    rewrite (proj2 (Z.leb_le 1 _)) by (simpl; lia). done. }
  repeat split; intros ->; unfold wire, receiver_thread;
    rewrite <- !app_assoc; cbn [app]; rewrite Hone; cbn [nth].
  - change (byte.unsigned (byte.of_Z MSG_TYPE_JOIN) =? MSG_TYPE_CHAT)
      with false.
    change (byte.unsigned (byte.of_Z MSG_TYPE_JOIN) =? MSG_TYPE_JOIN)
      with true. cbv iota.
    by rewrite (Hpeer (NEWLINE :: more)).
  - change (byte.unsigned (byte.of_Z MSG_TYPE_DISCONNECT) =? MSG_TYPE_CHAT)
      with false.
    change (byte.unsigned (byte.of_Z MSG_TYPE_DISCONNECT) =? MSG_TYPE_JOIN)
      with false.
    change (byte.unsigned (byte.of_Z MSG_TYPE_DISCONNECT)
            =? MSG_TYPE_DISCONNECT) with true. cbv iota.
    by rewrite (Hpeer (NEWLINE :: more)).
  - intros Hnl Hfit.
    change (byte.unsigned (byte.of_Z MSG_TYPE_CHAT) =? MSG_TYPE_CHAT)
      with true. cbv iota.
    rewrite (Hpeer (tail ++ NEWLINE :: more)).
    by rewrite recv_line_app by (simpl; done || lia).
Qed.

(** What holds of the round trip, server to client: the Join notice, the
    Disconnect notice and the relayed chat message that the server builds for
    a session whose username array holds a name of 1 to 31 bytes are parsed
    by the client's receiver into the same kind, address, port, name and
    text; the chat message is logged unless the receiver finds the flag
    [should_stop] set once it has read the text, in which case it leaves
    its loop. *)
Theorem receiver_recovers_server_frames
  (cli : client_t) (name more : list byte) (should_stop : bool) :
  holds_name (username cli) name ->
  (0 < length name < 32)%nat ->
  0 <= s_addr (addr cli) < 2 ^ 32 ->
  0 <= sin_port (addr cli) < 2 ^ 16 ->
  receiver_thread should_stop
    (presence_msg MSG_TYPE_JOIN (addr cli) (username cli) ++ more)
  = Some (JoinFrame (s_addr (addr cli)) (sin_port (addr cli)) name, more)
  /\ receiver_thread should_stop
       (presence_msg MSG_TYPE_DISCONNECT (addr cli)
          (strncpy (username cli) (Z.to_nat MAX_USERNAME_LEN)) ++ more)
     = Some (DisconnectFrame (s_addr (addr cli)) (sin_port (addr cli)) name,
             more)
  /\ forall t text tail,
       buf cli = t :: text ++ NEWLINE :: tail ->
       NEWLINE ∉ text ->
       Z.of_nat (length text) + 2 <= BUF_SIZE ->
       receiver_thread should_stop
         (chat_msg cli (Z.of_nat (length text) + 2) ++ more)
       = if should_stop then None
         else Some (ChatFrame (s_addr (addr cli)) (sin_port (addr cli))
                      name text, more).
Proof.
  intros Hname Hn Hip Hport.
  destruct (receiver_thread_wire MSG_TYPE_JOIN (addr cli) name [] more
              should_stop Hn Hip Hport) as (Hjoin & _ & _).
  destruct (receiver_thread_wire MSG_TYPE_DISCONNECT (addr cli) name [] more
              should_stop Hn Hip Hport) as (_ & Hdisc & _).
  split; [|split].
  - rewrite (presence_msg_wire _ _ _ name Hname) by lia. by apply Hjoin.
  - rewrite (presence_msg_wire _ _ _ name) by
      (try apply strncpy_holds; try done; unfold MAX_USERNAME_LEN; lia).
    by apply Hdisc.
  - intros t text tail Hbuf Hnl Hfit.
    destruct (receiver_thread_wire MSG_TYPE_CHAT (addr cli) name text more
                should_stop Hn Hip Hport) as (_ & _ & Hchat).
    replace (Z.of_nat (length text) + 2)
      with (Z.of_nat (length (text ++ [NEWLINE])) + 1)
      by (rewrite length_app; simpl; lia).
    rewrite (chat_msg_wire cli name (text ++ [NEWLINE]) tail t Hname)
      by (lia || by rewrite <- app_assoc).
    apply Hchat; [done | done | lia].
Qed.

Lemma username_msg_wire (u name : list byte) :
  holds_name u name -> (length name < 256)%nat ->
  username_msg u
  = byte.of_Z MSG_TYPE_USERNAME :: byte.of_Z (Z.of_nat (length name))
      :: name ++ [NEWLINE].
Proof.
  intros Hu Hn. destruct (strlen_holds _ _ Hu) as [Hlen _].
  destruct Hu as [_ [pad ->]]. unfold username_msg.
  by rewrite Hlen, unsigned_of_nat, load_prefix by done.
Qed.

(** What holds of the round trip, client to server: the registration that
    sender_thread builds from a username of 1 to 31 bytes without newline
    leaves the session registered under that name, provided the length is
    not 10: the length byte of a ten-byte name is itself 0x0A. *)
Theorem server_recovers_username
  (i : nat) (st : server) (cli : client_t) (u name : list byte) :
  st !! i = Some cli ->
  fd cli <> -1 ->
  has_username cli = 0 ->
  len cli = 0 ->
  holds_name u name ->
  (0 < length name < 32)%nat ->
  length name <> 10%nat ->
  NEWLINE ∉ name ->
  exists st' tr cli',
    reads i [username_msg u] st = Ok st' tr
    /\ st' !! i = Some cli'
    /\ has_username cli' = 1
    /\ cstring (username cli') = name
    /\ fd cli' = fd cli /\ addr cli' = addr cli.
Proof.
  intros Hi Hfd Hreg Hlen Hu Hn H10 Hnl.
  assert (i < length st)%nat as Hlt by (by eapply lookup_lt_Some).
  rewrite (username_msg_wire u name Hu) by lia.
  destruct Hu as [Hnul _].
  set (msg := byte.of_Z MSG_TYPE_USERNAME
                :: byte.of_Z (Z.of_nat (length name)) :: name ++ [NEWLINE]).
  cbn [reads]. rewrite (handle_read i st cli msg Hi Hfd) by done.
  rewrite Hlen.
  replace (Z.to_nat (0 + Z.of_nat (length msg))) with (S (length name + 2))
    by (unfold msg; simpl; rewrite length_app; simpl; lia).
  set (cli2 := append cli msg). set (st2 := <[i := cli2]> st).
  assert (buffered cli2 msg) as Hb2
    by (apply (buffered_append cli []); by apply buffered_empty).
  pose proof (loop_registration (S (length name + 2)) i st2 cli2 name []
                ltac:(by apply list_lookup_insert_eq) Hfd Hreg Hb2 Hn H10
                Hnul Hnl) as Hturn.
  cbv zeta in Hturn. destruct Hturn as (-> & Hb4 & Hname4).
  set (cli3 := register cli2 (Z.of_nat (length name))) in *.
  set (cli4 := consume cli3 (Z.of_nat (length name) + 3)) in *.
  cbn [and_then].
  assert (<[i := cli4]> (<[i := cli3]> st2) !! i = Some cli4) as Hi4
    by (apply list_lookup_insert_eq; unfold st2; by rewrite !length_insert).
  rewrite (loop_idle _ i _ cli4 [] Hi4 Hfd Hb4 (not_elem_of_nil _)
             ltac:(done)).
  eexists _, _, cli4. split; [reflexivity|]. split; [done|].
  split; [done|]. split; [|done].
  by destruct (strlen_holds _ _ Hname4).
Qed.

Lemma server_recovers_username_witness :
  exists st' tr cli',
    reads 0 [username_msg (alice ++ replicate 27 NUL)] two_connected
    = Ok st' tr
    /\ st' !! O = Some cli'
    /\ has_username cli' = 1
    /\ cstring (username cli') = alice
    /\ fd cli' = fd (slot 0 two_connected)
    /\ addr cli' = addr (slot 0 two_connected).
Proof.
  apply (server_recovers_username 0 two_connected (slot 0 two_connected)).
  - reflexivity.
  - vm_compute. lia.
  - reflexivity.
  - reflexivity.
  - split; [apply index_of_None; reflexivity | by eexists].
  - simpl. lia.
  - simpl. lia.
  - apply index_of_None. reflexivity.
Defined.

(** C3, at the input where the code fails it: the registration that
    sender_thread builds for a username of ten bytes is
    0x03 0x0A 'abcdefghij' 0x0A; the read loop cuts it at the length byte,
    hands process_message the two frames 0x03 0x0A and 'abcdefghij' 0x0A,
    sends nothing, and leaves the session without a username. *)
Theorem ten_byte_username_is_never_registered :
  username_msg ten_letters_array
  = Byte.x03 :: Byte.x0a :: ten_letters ++ [NEWLINE]
  /\ trace_of (reads 0 [username_msg ten_letters_array] two_connected)
     = [Frame 0 [Byte.x03; Byte.x0a]; Frame 0 (ten_letters ++ [NEWLINE])]
  /\ map has_username
       (state_of (reads 0 [username_msg ten_letters_array] two_connected))
     = [0; 0]
  /\ map fd
       (state_of (reads 0 [username_msg ten_letters_array] two_connected))
     = [4; 5].
Proof. repeat split; reflexivity. Qed.

Lemma receiver_recovers_witness :
  receiver_thread false
    (presence_msg MSG_TYPE_JOIN (addr alice_session)
       (username alice_session) ++ [])
  = Some (JoinFrame 16777343 10240 alice, []).
Proof.
  refine (proj1 (receiver_recovers_server_frames alice_session alice []
                   false _ _ _ _)).
  - split; [apply index_of_None; reflexivity|].
    exists (replicate 26 NUL). reflexivity.
  - simpl. lia.
  - simpl. lia.
  - simpl. lia.
Defined.

(** * Beyond the claims: the rest of common.c, server.c and client.c *)

(** ** bytes_to_hex *)

Lemma unsigned_hex_digit (n : Z) :
  0 <= n < 16 ->
  byte.unsigned (hex_digit n) = if n <? 10 then 48 + n else 55 + n.
Proof.
  intros Hn. unfold hex_digit. rewrite byte.unsigned_of_Z. unfold byte.wrap.
  apply Z.mod_small. destruct (n <? 10); lia.
Qed.

Lemma is_hex_digit_hex_digit (n : Z) :
  0 <= n < 16 -> is_hex_digit (hex_digit n) = true.
Proof.
  intros Hn. unfold is_hex_digit. rewrite unsigned_hex_digit by done.
  destruct (n <? 10) eqn:H10.
  - apply Z.ltb_lt in H10. apply orb_true_iff. left.
    apply andb_true_iff. split; apply Z.leb_le; lia.
  - apply Z.ltb_ge in H10. apply orb_true_iff. right.
    apply andb_true_iff. split; apply Z.leb_le; lia.
Qed.

Lemma hex_digit_inj (n m : Z) :
  0 <= n < 16 -> 0 <= m < 16 -> hex_digit n = hex_digit m -> n = m.
Proof.
  intros Hn Hm Heq%(f_equal byte.unsigned).
  rewrite !unsigned_hex_digit in Heq by done.
  destruct (n <? 10) eqn:H1; destruct (m <? 10) eqn:H2;
    rewrite ?Z.ltb_lt, ?Z.ltb_ge in *; lia.
Qed.

Lemma sprintf_02X_inj (b1 b2 : byte) :
  sprintf_02X b1 = sprintf_02X b2 -> b1 = b2.
Proof.
  unfold sprintf_02X. intros [= Hhi Hlo].
  pose proof (byte.unsigned_range b1) as H1.
  pose proof (byte.unsigned_range b2) as H2.
  change (2 ^ 8) with 256 in *.
  apply hex_digit_inj in Hhi;
    [|apply Z.div_pos || split; [apply Z.div_pos; lia | apply Z.div_lt_upper_bound; lia]..].
  apply hex_digit_inj in Hlo; [|apply Z.mod_pos_bound; lia..].
  apply byte.unsigned_inj.
  rewrite (Z.div_mod (byte.unsigned b1) 16), (Z.div_mod (byte.unsigned b2) 16)
    by lia.
  congruence.
Qed.

Lemma hex_digits_sprintf (l : list byte) :
  Forall (fun c => is_hex_digit c = true) (concat (map sprintf_02X l)).
Proof.
  induction l as [|b l IH]; simpl; [constructor|].
  pose proof (byte.unsigned_range b) as Hb. change (2 ^ 8) with 256 in Hb.
  repeat constructor; [| |exact IH]; apply is_hex_digit_hex_digit.
  - split; [apply Z.div_pos; lia | apply Z.div_lt_upper_bound; lia].
  - apply Z.mod_pos_bound. lia.
Qed.

Lemma length_sprintf (l : list byte) :
  length (concat (map sprintf_02X l)) = (2 * length l)%nat.
Proof. induction l as [|b l IH]; simpl; lia. Qed.

Lemma length_load (off n : Z) (mem : list byte) :
  0 <= off -> 0 <= n -> off + n <= Z.of_nat (length mem) ->
  Z.of_nat (length (load off n mem)) = n.
Proof.
  intros Hoff Hn Hle. unfold load. rewrite length_take, length_drop. lia.
Qed.

(** X1: with both pointers set, a positive size within the input and of at
    most 2^30, and room for two digits per byte and the terminator,
    bytes_to_hex succeeds; what it writes is twice as many characters as
    there are bytes, each one of 0-9 or A-F, then the terminator, so the
    text is a C string of that length (it holds no NUL and no newline) and
    fits the output buffer.  With room for a size above 2^30 the call does
    not succeed: the offset [i * 2] leaves the range of [int]. *)
Theorem bytes_to_hex_digits (b : list byte) (buf_size str_size : Z) :
  0 < buf_size ->
  buf_size * 2 + 1 <= str_size <= SSIZE_MAX ->
  (buf_size <= Z.of_nat (length b) ->
   buf_size <= 2 ^ 30 ->
   exists hex,
     bytes_to_hex (Some b) buf_size true str_size = HexText (hex ++ [NUL])
     /\ Z.of_nat (length hex) = buf_size * 2
     /\ Forall (fun c => is_hex_digit c = true) hex
     /\ cstring (hex ++ [NUL]) = hex
     /\ Z.of_nat (length (hex ++ [NUL])) <= str_size)
  /\ (2 ^ 30 < buf_size ->
      bytes_to_hex (Some b) buf_size true str_size = HexUndefined).
Proof.
  intros Hpos Hroom. unfold bytes_to_hex, SSIZE_MAX, INT_MAX in *.
  rewrite (proj2 (Z.leb_gt _ _)) by lia. cbn [negb orb].
  destruct (buf_size * 2 + 1 >? 2 ^ 63 - 1) eqn:Hwide;
    [apply Z.gtb_lt in Hwide; lia|].
  rewrite (proj2 (Z.ltb_ge _ _)) by lia.
  split.
  - intros Hsize Hint.
    destruct ((buf_size - 1) * 2 >? 2 ^ 31 - 1) eqn:Hover;
      [apply Z.gtb_lt in Hover; lia|].
    eexists. split; [reflexivity|].
    assert (Z.of_nat (length (concat (map sprintf_02X (load 0 buf_size b))))
            = buf_size * 2) as Hlen.
    { rewrite length_sprintf, Nat2Z.inj_mul, length_load by lia. lia. }
    pose proof (hex_digits_sprintf (load 0 buf_size b)) as Hhex.
    repeat split; try done.
    + apply (strlen_holds (_ ++ [NUL])). split; [|by eexists].
      intros Hin. rewrite Forall_forall in Hhex. by apply Hhex in Hin.
    + rewrite length_app, Nat2Z.inj_add, Hlen. simpl. lia.
  - intros Hint. by rewrite (proj2 (Z.gtb_lt _ _)) by lia.
Qed.

Lemma bytes_to_hex_digits_witness :
  exists hex,
    bytes_to_hex (Some (bytes_of [222; 173; 190; 239])) 4 true 9
    = HexText (hex ++ [NUL])
    /\ Z.of_nat (length hex) = 4 * 2
    /\ Forall (fun c => is_hex_digit c = true) hex
    /\ cstring (hex ++ [NUL]) = hex
    /\ Z.of_nat (length (hex ++ [NUL])) <= 9.
Proof.
  refine (proj1 (bytes_to_hex_digits (bytes_of [222; 173; 190; 239]) 4 9
                   _ _) _ _).
  - lia.
  - unfold SSIZE_MAX. lia.
  - simpl. lia.
  - lia.
Defined.

(** X2: bytes_to_hex loses nothing: two inputs of the same size with the
    same text are the same bytes. *)
Theorem bytes_to_hex_injective
  (b1 b2 : list byte) (buf_size size1 size2 : Z) hex :
  0 < buf_size ->
  buf_size <= Z.of_nat (length b1) ->
  buf_size <= Z.of_nat (length b2) ->
  bytes_to_hex (Some b1) buf_size true size1 = HexText hex ->
  bytes_to_hex (Some b2) buf_size true size2 = HexText hex ->
  load 0 buf_size b1 = load 0 buf_size b2.
Proof.
  intros Hpos H1 H2. unfold bytes_to_hex.
  repeat (case_match; try done).
  intros [= <-] [= Heq%app_inv_tail].
  assert (length (load 0 buf_size b1) = length (load 0 buf_size b2)) as Hlen.
  { apply Nat2Z.inj. by rewrite !length_load by lia. }
  revert Hlen Heq. generalize (load 0 buf_size b1) (load 0 buf_size b2).
  intros l1. induction l1 as [|x l1 IH]; intros [|y l2]; simpl; try done.
  intros [= Hlen] [= Hhi Hlo Hrest].
  f_equal; [|by apply IH].
  apply sprintf_02X_inj. unfold sprintf_02X. congruence.
Qed.

Lemma bytes_to_hex_injective_witness :
  load 0 4 (bytes_of [222; 173; 190; 239; 1])
  = load 0 4 (bytes_of [222; 173; 190; 239; 2]).
Proof.
  apply (bytes_to_hex_injective _ _ 4 9 12
           (bytes_of [68; 69; 65; 68; 66; 69; 69; 70; 0])).
  - lia.
  - simpl. lia.
  - simpl. lia.
  - reflexivity.
  - reflexivity.
Defined.

(** ** send_exact and recv_exact *)

Lemma send_exact_from_spec (rets : list Z) (buf : list byte) (total r : Z) sent :
  0 <= total <= Z.of_nat (length buf) ->
  send_within rets (Z.of_nat (length buf) - total) ->
  send_exact_from rets buf total = Some (r, sent) ->
  (r = Z.of_nat (length buf) /\ sent = buf)
  \/ (r = -1 /\ exists rest, rest <> [] /\ buf = sent ++ rest).
Proof.
  revert total. induction rets as [|s rets IH]; intros total Htot Hin;
    cbn [send_exact_from];
    destruct (total <? Z.of_nat (length buf)) eqn:Hlt;
    rewrite ?Z.ltb_lt, ?Z.ltb_ge in Hlt; try done.
  - intros [= <- <-]. left. split; [lia|].
    unfold load. rewrite drop_0. apply take_ge. lia.
  - destruct Hin as [Hs Hin]. destruct (s <? 0) eqn:Hneg.
    + intros [= <- <-]. right. split; [done|].
      exists (drop (Z.to_nat total) buf). split.
      * intros Hnil%(f_equal length). rewrite length_drop in Hnil.
        simpl in Hnil. lia.
      * unfold load. by rewrite drop_0, take_drop.
    + apply Z.ltb_ge in Hneg. apply IH; [lia|].
      by replace (Z.of_nat (length buf) - (total + s))
        with (Z.of_nat (length buf) - total - s) by lia.
  - intros [= <- <-]. left. split; [lia|].
    unfold load. rewrite drop_0. apply take_ge. lia.
Qed.

Lemma send_exact_from_pieces (rets : list Z) (buf : list byte) (total : Z) :
  Forall (fun s => 0 < s) rets ->
  0 <= total ->
  total + foldr Z.add 0 rets = Z.of_nat (length buf) ->
  send_exact_from rets buf total = Some (Z.of_nat (length buf), buf).
Proof.
  intros Hpos. revert total.
  induction Hpos as [|s rets Hs Hpos IH]; intros total Htot Hsum;
    simpl in Hsum; cbn [send_exact_from].
  - rewrite (proj2 (Z.ltb_ge _ _)) by lia.
    replace total with (Z.of_nat (length buf)) by lia.
    unfold load. by rewrite drop_0, Nat2Z.id, take_ge.
  - assert (0 <= foldr Z.add 0 rets).
    { clear -Hpos. induction Hpos; simpl; lia. }
    rewrite (proj2 (Z.ltb_lt _ _)) by lia.
    rewrite (proj2 (Z.ltb_ge _ _)) by lia. apply IH; lia.
Qed.

(** X3: whatever the sizes of the partial sends (each no more than the
    count given to it), send_exact either returns the length with exactly the
    bytes of the buffer taken, in order, or returns -1 with a proper prefix
    of them taken; and when the sends take the buffer in pieces of at least
    one byte, it returns the length with the whole buffer taken. *)
Theorem send_exact_all_or_prefix (rets : list Z) (buf : list byte) :
  (send_within rets (Z.of_nat (length buf)) ->
   forall r sent,
     send_exact rets buf = Some (r, sent) ->
     (r = Z.of_nat (length buf) /\ sent = buf)
     \/ (r = -1 /\ exists rest, rest <> [] /\ buf = sent ++ rest))
  /\ (Forall (fun s => 0 < s) rets ->
      foldr Z.add 0 rets = Z.of_nat (length buf) ->
      send_exact rets buf = Some (Z.of_nat (length buf), buf)).
Proof.
  unfold send_exact. split.
  - intros Hin r sent. apply send_exact_from_spec; [lia|].
    by rewrite Z.sub_0_r.
  - intros Hpos Hsum. by apply send_exact_from_pieces.
Qed.

Lemma send_exact_witness :
  send_exact [3; 1; 4] register_alice
  = Some (Z.of_nat (length register_alice), register_alice).
Proof.
  refine (proj2 (send_exact_all_or_prefix [3; 1; 4] register_alice) _ _).
  - repeat constructor.
  - reflexivity.
Defined.

Lemma recv_exact_from_full
  (chunks : list (list byte)) (later : list read_result) (n : Z) got :
  Forall (fun data => data <> []) chunks ->
  Z.of_nat (length got) + Z.of_nat (length (concat chunks)) = n ->
  recv_exact_from (map ReadBytes chunks ++ later) n got
  = Some (n, got ++ concat chunks).
Proof.
  intros Hne. revert got.
  induction Hne as [|data chunks Hdata Hne IH]; intros got Hlen;
    simpl in Hlen.
  - cbn [map app concat].
    assert (recv_exact_from later n got = Some (Z.of_nat (length got), got))
      as ->.
    { destruct later; cbn [recv_exact_from];
        by rewrite (proj2 (Z.ltb_ge _ _)) by lia. }
    rewrite app_nil_r. f_equal. f_equal. lia.
  - rewrite length_app in Hlen. cbn [map app recv_exact_from concat].
    assert (0 < Z.of_nat (length data)) by (destruct data; [done | simpl; lia]).
    rewrite (proj2 (Z.ltb_lt _ _)) by lia.
    rewrite (proj2 (Z.eqb_neq _ _)) by lia.
    rewrite IH by (rewrite length_app; lia). by rewrite <- app_assoc.
Qed.

Lemma recv_exact_from_closed
  (chunks : list (list byte)) (later : list read_result) (n : Z) got :
  Forall (fun data => data <> []) chunks ->
  Z.of_nat (length got) + Z.of_nat (length (concat chunks)) < n ->
  recv_exact_from (map ReadBytes chunks ++ ReadBytes [] :: later) n got
  = Some (0, got ++ concat chunks).
Proof.
  intros Hne. revert got.
  induction Hne as [|data chunks Hdata Hne IH]; intros got Hlen;
    simpl in Hlen; cbn [map app recv_exact_from concat].
  - rewrite (proj2 (Z.ltb_lt _ _)) by lia. simpl. by rewrite app_nil_r.
  - rewrite length_app in Hlen.
    assert (0 < Z.of_nat (length data)) by (destruct data; [done | simpl; lia]).
    rewrite (proj2 (Z.ltb_lt _ _)) by lia.
    rewrite (proj2 (Z.eqb_neq _ _)) by lia.
    rewrite IH by (rewrite length_app; lia). by rewrite <- app_assoc.
Qed.

(** X4: the loop of recv_exact does not depend on how the stream arrives.
    When the stream [s] holds at least the [n] bytes asked for, then for
    every cut of its first [n] bytes into non-empty pieces returned by
    successive calls of recv, the loop returns [n] with those bytes in the
    buffer; when the stream ends before, the loop returns 0.  In both
    cases this is what the receiver's model of recv_exact on the whole
    stream says. *)
Theorem recv_exact_whatever_the_pieces
  (n : Z) (s : list byte) (chunks : list (list byte))
  (later : list read_result) :
  0 < n ->
  Forall (fun data => data <> []) chunks ->
  (n <= Z.of_nat (length s) ->
   concat chunks = load 0 n s ->
   recv_exact_from (map ReadBytes chunks ++ later) n [] = Some (n, load 0 n s)
   /\ recv_exact n s = Some (load 0 n s, skipn (Z.to_nat n) s))
  /\ (Z.of_nat (length s) < n ->
      concat chunks = s ->
      recv_exact_from (map ReadBytes chunks ++ ReadBytes [] :: later) n []
      = Some (0, s)
      /\ recv_exact n s = None).
Proof.
  intros Hn Hne. split.
  - intros Hlen Hcat. split.
    + rewrite (recv_exact_from_full chunks later n []); [by rewrite Hcat|done|].
      rewrite Hcat, length_load by lia. simpl. lia.
    + unfold recv_exact, load.
      rewrite (proj2 (Z.ltb_lt _ _)) by lia.
      by rewrite (proj2 (Z.leb_le _ _)) by lia.
  - intros Hlen Hcat. split.
    + rewrite (recv_exact_from_closed chunks later n []); [by rewrite Hcat|done|].
      rewrite Hcat. simpl. lia.
    + unfold recv_exact.
      rewrite (proj2 (Z.leb_gt _ _)) by lia. by rewrite andb_false_r.
Qed.

Lemma recv_exact_witness :
  recv_exact_from
    (map ReadBytes [[Byte.x7f; Byte.x00]; [Byte.x00]; [Byte.x01]] ++ []) 4 []
  = Some (4, load 0 4 [Byte.x7f; Byte.x00; Byte.x00; Byte.x01; Byte.x28])
  /\ recv_exact 4 [Byte.x7f; Byte.x00; Byte.x00; Byte.x01; Byte.x28]
     = Some (load 0 4 [Byte.x7f; Byte.x00; Byte.x00; Byte.x01; Byte.x28],
             skipn (Z.to_nat 4)
               [Byte.x7f; Byte.x00; Byte.x00; Byte.x01; Byte.x28]).
Proof.
  apply (recv_exact_whatever_the_pieces 4
           [Byte.x7f; Byte.x00; Byte.x00; Byte.x01; Byte.x28]
           [[Byte.x7f; Byte.x00]; [Byte.x00]; [Byte.x01]] []).
  - lia.
  - repeat constructor; discriminate.
  - simpl. lia.
  - reflexivity.
Defined.

(** ** Leaving, arriving, registering *)

(** X5: removing a connected session that has registered closes its socket,
    empties its slot and sends the Disconnect notice, with the address, port
    and name of the session, once to every other session with a usable
    descriptor and not to the session itself. *)
Theorem remove_client_notifies_the_others
  (i : nat) (st : server) (cli : client_t) (name : list byte) :
  st !! i = Some cli ->
  fd cli <> -1 ->
  has_username cli <> 0 ->
  holds_name (username cli) name ->
  (length name < 32)%nat ->
  exists tr,
    remove_client i st = Ok (<[i := closed cli]> st) (Close (fd cli) :: tr)
    /\ sends_to i tr = []
    /\ forall (j : nat) other,
         j <> i -> st !! j = Some other ->
         sends_to j tr
         = if deliverable other
           then [wire MSG_TYPE_DISCONNECT (addr cli) name [NEWLINE]]
           else [].
Proof.
  intros Hi Hfd Hreg Hname Hn.
  assert (i < length st)%nat as Hlt by (by eapply lookup_lt_Some).
  unfold remove_client. rewrite Hi.
  rewrite (proj2 (Z.eqb_neq _ _) Hfd), (proj2 (Z.eqb_neq _ _) Hreg).
  rewrite (presence_msg_wire _ _ _ name)
    by (try apply strncpy_holds; try done; unfold MAX_USERNAME_LEN; lia).
  eexists. split; [reflexivity|]. split.
  - rewrite (sends_to_broadcast_message i _ _ (closed cli));
      [done | done | by apply list_lookup_insert_eq].
  - intros j other Hji Hj.
    apply sends_to_broadcast_message; [done|].
    by rewrite list_lookup_insert_ne.
Qed.

Lemma remove_client_notifies_witness :
  exists tr,
    remove_client 0 [alice_session; slot 1 two_connected]
    = Ok (<[O := closed alice_session]> [alice_session; slot 1 two_connected])
         (Close (fd alice_session) :: tr)
    /\ sends_to 0 tr = []
    /\ forall (j : nat) other,
         j <> O -> [alice_session; slot 1 two_connected] !! j = Some other ->
         sends_to j tr
         = if deliverable other
           then [wire MSG_TYPE_DISCONNECT (addr alice_session) alice [NEWLINE]]
           else [].
Proof.
  apply (remove_client_notifies_the_others 0
           [alice_session; slot 1 two_connected] alice_session alice).
  - reflexivity.
  - simpl. lia.
  - simpl. lia.
  - split; [apply index_of_None; reflexivity|].
    exists (replicate 26 NUL). reflexivity.
  - simpl. lia.
Defined.

(** X6: a session is closed once: after remove_client has run on a slot,
    running it again on that slot closes nothing, sends nothing and changes
    nothing. *)
Theorem remove_client_once (i : nat) (st st' : server) tr :
  remove_client i st = Ok st' tr ->
  remove_client i st' = Ok st' [].
Proof.
  unfold remove_client. destruct (st !! i) as [cli|] eqn:Hi; [|done].
  assert (i < length st)%nat as Hlt by (by eapply lookup_lt_Some).
  destruct (fd cli =? -1) eqn:Hfd.
  - intros [= <- _]. by rewrite Hi, Hfd.
  - destruct (has_username cli =? 0); intros [= <- _];
      by rewrite list_lookup_insert_eq.
Qed.

Lemma remove_client_once_witness :
  remove_client 0 (state_of (remove_client 0 two_connected))
  = Ok (state_of (remove_client 0 two_connected)) [].
Proof.
  apply (remove_client_once 0 two_connected _ [Close 4]). reflexivity.
Defined.

(** X7: a connection accepted while a slot is free goes to the free slot of
    lowest index: that slot gets the descriptor and the peer address, an
    empty buffer and no username (whatever the previous occupant left in the
    arrays), every other slot is as before, and nothing is closed or sent. *)
Theorem accept_takes_the_first_free_slot
  (client_fd : Z) (remote_addr : sockaddr_in) (nonblocking : Z)
  (st : server) (j : nat) (c : client_t) :
  client_fd <> -1 ->
  nonblocking <> -1 ->
  st !! j = Some c ->
  fd c = -1 ->
  (forall (k : nat) c', (k < j)%nat -> st !! k = Some c' -> fd c' <> -1) ->
  accept_client client_fd remote_addr nonblocking st
  = (<[j := mk_client client_fd (buf c) 0 remote_addr (username c) 0]> st, []).
Proof.
  intros Hfd Hnb Hj Hc Hbefore. unfold accept_client.
  rewrite (proj2 (Z.eqb_neq _ _) Hfd), (proj2 (Z.eqb_neq _ _) Hnb).
  assert (find_slot st = Some j) as ->.
  { clear Hfd Hnb. revert j Hj Hbefore.
    induction st as [|c0 st IH]; intros [|j] Hj Hbefore; simpl in *;
      try done.
    - injection Hj as ->. by rewrite Hc.
    - rewrite (proj2 (Z.eqb_neq _ _) (Hbefore O c0 ltac:(lia) eq_refl)).
      rewrite (IH j Hj); [done|].
      intros k c' Hk Hc'. apply (Hbefore (S k) c'); [lia | done]. }
  f_equal. apply list_eq. intros k.
  destruct (decide (k = j)) as [->|Hne].
  - rewrite list_lookup_alter_eq, Hj, list_lookup_insert_eq
      by (by eapply lookup_lt_Some). done.
  - by rewrite list_lookup_alter_ne, list_lookup_insert_ne.
Qed.

Lemma accept_first_free_witness :
  accept_client 7 (mk_addr 16777343 30720) 0
    (state_of (remove_client 0 alice_registered))
  = (<[O := mk_client 7
             (buf (slot 0 (state_of (remove_client 0 alice_registered))))
             0 (mk_addr 16777343 30720)
             (username (slot 0 (state_of (remove_client 0 alice_registered))))
             0]>
       (state_of (remove_client 0 alice_registered)), []).
Proof.
  apply (accept_takes_the_first_free_slot 7 _ 0 _ O
           (slot 0 (state_of (remove_client 0 alice_registered)))).
  - lia.
  - lia.
  - reflexivity.
  - reflexivity.
  - intros k c' Hk. lia.
Defined.

(** X8: a well-formed registration from a session without username stores
    the name, sets the flag, keeps descriptor, address and buffer, and sends
    the Join notice once to every session with a usable descriptor, the
    registrant included. *)
Theorem registration_is_announced_to_all
  (i : nat) (msg_len : Z) (st : server) (cli : client_t)
  (name tail : list byte) :
  st !! i = Some cli ->
  has_username cli = 0 ->
  buf cli = byte.of_Z MSG_TYPE_USERNAME
              :: byte.of_Z (Z.of_nat (length name)) :: name ++ tail ->
  (0 < length name < 32)%nat ->
  2 + Z.of_nat (length name) <= msg_len ->
  NUL ∉ name ->
  exists cli' tr,
    process_message i msg_len st = Ok (<[i := cli']> st) tr
    /\ has_username cli' = 1
    /\ cstring (username cli') = name
    /\ fd cli' = fd cli /\ addr cli' = addr cli
    /\ buf cli' = buf cli /\ len cli' = len cli
    /\ forall (j : nat) c,
         st !! j = Some c ->
         sends_to j tr
         = if deliverable c
           then [wire MSG_TYPE_JOIN (addr cli) name [NEWLINE]]
           else [].
Proof.
  intros Hi Hreg Hbuf Hn Hlen Hnul.
  assert (i < length st)%nat as Hlt by (by eapply lookup_lt_Some).
  rewrite (process_registration i msg_len st cli name tail) by done.
  eexists _, _. split; [reflexivity|].
  repeat (split; [done|]). split.
  - by destruct (strlen_holds _ _ (register_holds cli name tail _ _ Hbuf Hnul)).
  - repeat (split; [done|]). intros j c Hj.
    destruct (decide (j = i)) as [->|Hne].
    + rewrite (sends_to_broadcast_message i _ _
                 (register cli (Z.of_nat (length name))));
        [|done|by apply list_lookup_insert_eq].
      assert (c = cli) as -> by congruence. done.
    + apply sends_to_broadcast_message; [done|].
      by rewrite list_lookup_insert_ne.
Qed.

Lemma registration_announced_witness :
  exists cli' tr,
    process_message 0 8 (just_read register_alice)
    = Ok (<[O := cli']> (just_read register_alice)) tr
    /\ has_username cli' = 1
    /\ cstring (username cli') = alice
    /\ fd cli' = fd (slot 0 (just_read register_alice))
    /\ addr cli' = addr (slot 0 (just_read register_alice))
    /\ buf cli' = buf (slot 0 (just_read register_alice))
    /\ len cli' = len (slot 0 (just_read register_alice))
    /\ forall (j : nat) c,
         just_read register_alice !! j = Some c ->
         sends_to j tr
         = if deliverable c
           then [wire MSG_TYPE_JOIN (addr (slot 0 (just_read register_alice)))
                   alice [NEWLINE]]
           else [].
Proof.
  apply (registration_is_announced_to_all 0 8 (just_read register_alice)
           (slot 0 (just_read register_alice)) alice
           (NEWLINE :: replicate 1016 NUL)).
  - reflexivity.
  - reflexivity.
  - vm_compute. reflexivity.
  - simpl. lia.
  - simpl. lia.
  - apply index_of_None. reflexivity.
Defined.

(** ** The relay buffer *)

Lemma length_chat_msg (cli : client_t) (msg_len : Z) (name : list byte) :
  holds_name (username cli) name -> (length name < 256)%nat ->
  1 <= msg_len <= Z.of_nat (length (buf cli)) ->
  Z.of_nat (length (chat_msg cli msg_len))
  = 8 + Z.of_nat (length name) + (msg_len - 1).
Proof.
  intros Hname Hn Hlen. destruct (strlen_holds _ _ Hname) as [Hstr _].
  destruct Hname as [_ [pad Hpad]]. unfold chat_msg.
  rewrite Hstr, unsigned_of_nat by done. rewrite Hpad, load_prefix.
  rewrite !length_app, !length_le_split. cbn [length].
  destruct (msg_len - 1 >? 0) eqn:Hc.
  - apply Z.gtb_lt in Hc.
    pose proof (length_load 1 (msg_len - 1) (buf cli)). lia.
  - assert (msg_len = 1) as ->
      by (pose proof (Zgt_cases (msg_len - 1) 0); rewrite Hc in *; lia).
    simpl. lia.
Qed.

(** X9: the relayed chat message is built in an array of BUF_SIZE + 8
    bytes, and takes 7 bytes more than the frame plus the name.  For a
    registered session and a chat frame of [msg_len] bytes in its buffer,
    process_message stays within that array exactly when the name and the
    frame together are at most 1025 bytes; beyond that it writes past the
    array (the model's [Undefined]), which a 31-byte name reaches from a
    frame of 995 bytes on. *)
Theorem relay_buffer_overflow
  (i : nat) (msg_len : Z) (st : server) (cli : client_t) (name : list byte) :
  st !! i = Some cli ->
  has_username cli <> 0 ->
  msg_type_of cli = MSG_TYPE_CHAT ->
  holds_name (username cli) name ->
  (length name < 32)%nat ->
  1 <= msg_len <= Z.of_nat (length (buf cli)) ->
  (Z.of_nat (length name) + msg_len <= BUF_SIZE + 1 ->
   process_message i msg_len st
   = Ok st (broadcast_message st (chat_msg cli msg_len)))
  /\ (BUF_SIZE + 1 < Z.of_nat (length name) + msg_len ->
      process_message i msg_len st = Undefined).
Proof.
  intros Hi Hreg Hty Hname Hn Hlen. unfold process_message.
  rewrite Hi, Hty, (proj2 (Z.eqb_neq _ _) Hreg).
  change (MSG_TYPE_CHAT =? MSG_TYPE_USERNAME) with false.
  change (MSG_TYPE_CHAT =? MSG_TYPE_CHAT) with true. cbn [andb negb].
  pose proof (length_chat_msg cli msg_len name Hname ltac:(lia) Hlen) as Hl.
  split; intros Hsum.
  - destruct (_ >? BUF_SIZE + 8) eqn:Hover; [|done].
    apply Z.gtb_lt in Hover. lia.
  - by rewrite (proj2 (Z.gtb_lt _ _)) by lia.
Qed.

Lemma relay_buffer_overflow_witness :
  process_message 0 BUF_SIZE [long_chat_session] = Undefined.
Proof.
  refine (proj2 (relay_buffer_overflow 0 BUF_SIZE [long_chat_session]
                   long_chat_session alice _ _ _ _ _ _) _).
  - reflexivity.
  - simpl. lia.
  - reflexivity.
  - split; [apply index_of_None; reflexivity|].
    exists (replicate 26 NUL). reflexivity.
  - simpl. lia.
  - unfold long_chat_session. cbn [buf]. rewrite length_replicate.
    unfold BUF_SIZE. lia.
  - unfold BUF_SIZE. simpl. lia.
Defined.

(** ** The framer: what the read loop hands over *)

Lemma buffered_of_content (c : client_t) :
  0 <= len c -> (Z.to_nat (len c) <= length (buf c))%nat ->
  buffered c (content c).
Proof.
  intros H0 Hl. unfold buffered, content, load.
  change (Z.to_nat 0) with O. rewrite drop_0. split.
  - rewrite length_take. lia.
  - exists (drop (Z.to_nat (len c)) (buf c)). by rewrite take_drop.
Qed.

Lemma process_buffer_frames (fuel : nat) (i : nat) :
  forall (st st' : server) (cli : client_t) tr,
    st !! i = Some cli -> fd cli <> -1 ->
    0 <= len cli -> (Z.to_nat (len cli) <= length (buf cli))%nat ->
    process_buffer fuel i st = Ok st' tr ->
    Forall (fun f => exists body, f = body ++ [NEWLINE] /\ NEWLINE ∉ body)
      (frames_of i tr)
    /\ exists cli' rest,
         st' !! i = Some cli'
         /\ content cli = concat (frames_of i tr) ++ rest
         /\ (fd cli' <> -1 -> content cli' = rest /\ NEWLINE ∉ rest).
Proof.
  induction fuel as [|fuel IH]; intros st st' cli tr Hi Hfd H0 Hl; [done|].
  intros (cli0 & Hi0 & Hcases)%process_buffer_inv.
  assert (cli0 = cli) as -> by congruence.
  assert (i < length st)%nat as Hlt by (by eapply lookup_lt_Some).
  destruct Hcases
    as [(Hc & _) | [(_ & Hnone & _ & -> & ->) | [(_ & _ & _ & Hrm)
        | (_ & k & st1 & tr1 & cli1 & Hk & Hpm & Hi1 & Hnext)]]]; [done| | |].
  - split; [by apply Forall_nil|]. exists cli, (content cli).
    split; [done|]. split; [done|]. intros _. split; [done|].
    by apply index_of_None.
  - destruct (remove_client_connected i st cli Hi Hfd)
      as (sends & Heq & Hsends & _).
    rewrite Heq in Hrm. injection Hrm as <- <-. cbn [frames_of].
    rewrite (frames_of_all_sends i sends Hsends).
    split; [by apply Forall_nil|]. exists (closed cli), (content cli).
    split; [by apply list_lookup_insert_eq|]. split; [done|]. done.
  - apply index_of_Some in Hk as (p & q & Hc & Hp & <-).
    pose proof (buffered_of_content cli H0 Hl) as Hb. rewrite Hc in Hb.
    pose proof (buffered_frame cli p q Hb) as Hframe.
    pose proof (frames_of_process_message i i _ st st1 cli tr1 Hi Hfd Hpm)
      as Hf1.
    destruct (process_message_effect _ _ _ _ _ _ Hi Hfd Hpm)
      as (c1 & Hst1 & Heff).
    assert (c1 = cli1) as ->.
    { rewrite Hst1, list_lookup_insert_eq in Hi1 by done. congruence. }
    destruct Hnext as [(Hfd1 & -> & ->) | (Hfd1 & tr2 & Hrec & ->)].
    + cbn [frames_of]. rewrite Nat.eqb_refl, Hf1, Hframe.
      split; [apply Forall_cons; split; [by exists p | by apply Forall_nil]|].
      exists cli1, q. split; [done|]. split; [|done].
      rewrite Hc. cbn [concat]. by rewrite app_nil_r, <- app_assoc.
    + destruct Heff as [[-> _] | (Hfdeq & Hlen1 & Hbuf1 & _)]; [done|].
      assert (buffered cli1 (p ++ NEWLINE :: q)) as Hb1.
      { destruct Hb as [Hbl [tail Hbt]]. split; [congruence|].
        exists tail. congruence. }
      pose proof (buffered_consume cli1 p q Hb1) as Hb2.
      set (cli2 := consume cli1 (Z.of_nat (length p) + 1)) in *.
      assert (<[i := cli2]> st1 !! i = Some cli2) as Hi2.
      { apply list_lookup_insert_eq. by rewrite Hst1, length_insert. }
      destruct Hb2 as [Hl2 [tail2 Ht2]].
      destruct (IH _ _ cli2 _ Hi2 Hfd1 ltac:(lia)
                  ltac:(rewrite Ht2, length_app; lia) Hrec)
        as (Hall & cli' & rest & Hi' & Hcat & Hrest).
      rewrite (buffered_content cli2 q) in Hcat by (split; [done | by eexists]).
      cbn [frames_of]. rewrite Nat.eqb_refl, frames_of_app, Hf1, Hframe.
      cbn [app]. split.
      * apply Forall_cons. split; [by exists p | done].
      * exists cli', rest. split; [done|]. split; [|done].
        rewrite Hc, Hcat. cbn [concat]. by rewrite <- !app_assoc.
Qed.

(** X10: the read loop cuts the stream at the newlines and nowhere else.
    When a read brings [data] to a connected session whose buffer has room
    for it, every frame handed to process_message ends in a newline and
    holds no other; the frames, in order, are a prefix of the bytes buffered
    before followed by [data]; and if the session is still connected
    afterwards, what follows that prefix is exactly what stays buffered, and
    holds no newline. *)
Theorem frames_partition_the_stream
  (i : nat) (data : list byte) (st st' : server) (cli : client_t) tr :
  st !! i = Some cli ->
  fd cli <> -1 ->
  0 <= len cli ->
  (Z.to_nat (len cli) + length data <= length (buf cli))%nat ->
  handle_client_data i (ReadBytes data) st = Ok st' tr ->
  Forall (fun f => exists body, f = body ++ [NEWLINE] /\ NEWLINE ∉ body)
    (frames_of i tr)
  /\ exists cli' rest,
       st' !! i = Some cli'
       /\ content cli ++ data = concat (frames_of i tr) ++ rest
       /\ (fd cli' <> -1 -> content cli' = rest /\ NEWLINE ∉ rest).
Proof.
  intros Hi Hfd H0 Hl.
  assert (i < length st)%nat as Hlt by (by eapply lookup_lt_Some).
  destruct data as [|b data].
  - unfold handle_client_data. rewrite Hi, (proj2 (Z.eqb_neq _ _) Hfd).
    cbn [length Z.of_nat Z.gtb Z.compare].
    destruct (remove_client_connected i st cli Hi Hfd)
      as (sends & -> & Hsends & _).
    intros [= <- <-]. cbn [frames_of].
    rewrite (frames_of_all_sends i sends Hsends), app_nil_r.
    split; [by apply Forall_nil|]. exists (closed cli), (content cli).
    split; [by apply list_lookup_insert_eq|]. done.
  - rewrite (handle_read i st cli (b :: data) Hi Hfd) by done.
    intros Hpb.
    rewrite <- (content_append cli (b :: data)) by lia.
    refine (process_buffer_frames _ i _ _ (append cli (b :: data)) _
              _ Hfd _ _ Hpb).
    + by apply list_lookup_insert_eq.
    + cbn [append len]. lia.
    + cbn [append len buf]. rewrite length_store by lia. lia.
Qed.

Lemma frames_partition_witness :
  Forall (fun f => exists body, f = body ++ [NEWLINE] /\ NEWLINE ∉ body)
    (frames_of 0
       (trace_of (handle_client_data 0
                    (ReadBytes (register_alice ++ chat_hello ++ hello))
                    two_connected))).
Proof.
  refine (proj1 (frames_partition_the_stream 0
                   (register_alice ++ chat_hello ++ hello) two_connected
                   (state_of (handle_client_data 0
                      (ReadBytes (register_alice ++ chat_hello ++ hello))
                      two_connected))
                   (slot 0 two_connected) _ _ _ _ _ _)).
  - reflexivity.
  - vm_compute. lia.
  - vm_compute. discriminate.
  - apply Nat.leb_le. vm_compute. reflexivity.
  - vm_compute. reflexivity.
Defined.

(** ** What handling one session may touch *)

Lemma event_within_insert
  (i : nat) (sock : Z) (st : server) (c0 c' : client_t) e :
  st !! i = Some c0 -> fd c' = fd c0 \/ fd c' = -1 ->
  event_within i sock (<[i := c']> st) e -> event_within i sock st e.
Proof.
  intros Hi Hfd. destruct e as [j s p| |]; simpl; try done.
  intros (c & Hj & Hs & Hd). destruct (decide (j = i)) as [->|Hne].
  - rewrite list_lookup_insert_eq in Hj by (by eapply lookup_lt_Some).
    injection Hj as <-. destruct Hfd as [Heq | Heq].
    + exists c0. split; [done|]. split; [congruence|].
      unfold deliverable in *. by rewrite <- Heq.
    + unfold deliverable in Hd. by rewrite Heq in Hd.
  - rewrite list_lookup_insert_ne in Hj by done. by exists c.
Qed.

Lemma broadcast_within (i : nat) (sock : Z) (st : server) msg :
  Forall (event_within i sock st) (broadcast_message st msg).
Proof.
  apply Forall_forall. intros e. unfold broadcast_message.
  destruct (_ <=? 0); [by intros ?%elem_of_nil|].
  intros (j & c & Hj & Hd & ->)%elem_of_broadcast_from. simpl. by exists c.
Qed.

Lemma closes_app tr1 tr2 : closes (tr1 ++ tr2) = (closes tr1 + closes tr2)%nat.
Proof.
  induction tr1 as [|[] tr1 IH]; simpl; [done|done| |done]. by rewrite IH.
Qed.

Lemma closes_all_sends tr : all_sends tr -> closes tr = O.
Proof.
  induction tr as [|e tr IH]; intros H; [done|].
  assert (all_sends tr) by (intros e' He'; apply H; by right).
  pose proof (H e ltac:(left)) as He.
  destruct e; simpl in *; try done; by apply IH.
Qed.

Lemma remove_client_within (i : nat) (st : server) (cli : client_t) :
  st !! i = Some cli ->
  fd cli <> -1 ->
  exists sends,
    remove_client i st = Ok (<[i := closed cli]> st) (Close (fd cli) :: sends)
    /\ all_sends sends
    /\ Forall (event_within i (fd cli) st) sends.
Proof.
  intros Hi Hfd. unfold remove_client.
  rewrite Hi, (proj2 (Z.eqb_neq _ _) Hfd).
  destruct (has_username cli =? 0).
  - exists []. split; [done|]. split; [apply all_sends_nil | done].
  - eexists. split; [reflexivity|]. split; [apply all_sends_broadcast|].
    eapply Forall_impl; [apply (broadcast_within i (fd cli))|].
    intros e. apply (event_within_insert _ _ _ cli); [done | by right].
Qed.

Lemma process_message_within
  (i : nat) (msg_len : Z) (st st1 : server) (cli : client_t) tr1 :
  st !! i = Some cli ->
  fd cli <> -1 ->
  process_message i msg_len st = Ok st1 tr1 ->
  Forall (event_within i (fd cli) st) tr1.
Proof.
  intros Hi Hfd. unfold process_message. rewrite Hi.
  destruct ((msg_type_of cli =? MSG_TYPE_USERNAME) && (has_username cli =? 0)).
  { destruct (msg_len >? 2); [|by intros [= _ <-]].
    destruct (_ && _ && _); [|by intros [= _ <-]].
    intros [= _ <-]. unfold broadcast_join.
    eapply Forall_impl; [apply (broadcast_within i (fd cli))|].
    intros e. apply (event_within_insert _ _ _ cli); [done | by left]. }
  destruct ((msg_type_of cli =? MSG_TYPE_CHAT) && negb (has_username cli =? 0)).
  { destruct (_ >? BUF_SIZE + 8); [done|].
    intros [= _ <-]. apply broadcast_within. }
  destruct (msg_type_of cli =? MSG_TYPE_DISCONNECT); [|by intros [= _ <-]].
  destruct (remove_client_within i st cli Hi Hfd) as (sends & -> & _ & Hw).
  intros [= _ <-]. by apply Forall_cons.
Qed.

Lemma process_buffer_within (fuel : nat) (i : nat) :
  forall (st st' : server) (cli : client_t) tr,
    st !! i = Some cli -> fd cli <> -1 ->
    process_buffer fuel i st = Ok st' tr ->
    Forall (event_within i (fd cli) st) tr
    /\ exists cli',
         st' = <[i := cli']> st
         /\ addr cli' = addr cli
         /\ ((fd cli' = fd cli /\ closes tr = O)
             \/ (fd cli' = -1 /\ closes tr = 1%nat)).
Proof.
  induction fuel as [|fuel IH]; intros st st' cli tr Hi Hfd; [done|].
  intros (cli0 & Hi0 & Hcases)%process_buffer_inv.
  assert (cli0 = cli) as -> by congruence.
  assert (i < length st)%nat as Hlt by (by eapply lookup_lt_Some).
  destruct Hcases
    as [(Hc & _) | [(_ & _ & _ & -> & ->) | [(_ & _ & _ & Hrm)
        | (_ & k & st1 & tr1 & cli1 & Hk & Hpm & Hi1 & Hnext)]]]; [done| | |].
  - split; [done|]. exists cli. split; [by rewrite list_insert_id|].
    split; [done | by left].
  - destruct (remove_client_within i st cli Hi Hfd)
      as (sends & Heq & Hsends & Hw).
    rewrite Heq in Hrm. injection Hrm as <- <-.
    split; [by apply Forall_cons|]. exists (closed cli).
    split; [done|]. split; [done|]. right. split; [done|].
    cbn [closes]. by rewrite (closes_all_sends sends).
  - pose proof (process_message_within _ _ _ _ _ _ Hi Hfd Hpm) as Hw1.
    destruct (process_message_effect _ _ _ _ _ _ Hi Hfd Hpm)
      as (c1 & Hst1 & Heff).
    assert (c1 = cli1) as ->.
    { rewrite Hst1, list_lookup_insert_eq in Hi1 by done. congruence. }
    destruct Hnext as [(Hfd1 & -> & ->) | (Hfd1 & tr2 & Hrec & ->)].
    + split; [by apply Forall_cons|]. exists cli1. split; [done|].
      destruct Heff as [(-> & sends & -> & Hs & _) | (Hsame & _)];
        [|congruence].
      split; [done|]. right. split; [done|]. cbn [closes].
      by rewrite (closes_all_sends sends).
    + destruct Heff as [[-> _] | (Hfdeq & _ & _ & Haddr & Htr1 & _)]; [done|].
      set (cli2 := consume cli1 (Z.of_nat k + 1)) in *.
      assert (<[i := cli2]> st1 !! i = Some cli2) as Hi2.
      { apply list_lookup_insert_eq. by rewrite Hst1, length_insert. }
      destruct (IH _ _ cli2 _ Hi2 Hfd1 Hrec)
        as (Hw2 & cli' & -> & Haddr' & Hfd').
      rewrite Hst1, !list_insert_insert_eq in *.
      split.
      * apply Forall_cons. split; [done|]. apply Forall_app. split; [done|].
        eapply Forall_impl; [apply Hw2|]. intros e. cbn [consume fd cli2].
        rewrite Hfdeq.
        apply (event_within_insert _ _ _ cli); [done | by left].
      * exists cli'. split; [done|]. split; [by rewrite Haddr'|].
        cbn [closes]. rewrite closes_app, (closes_all_sends tr1 Htr1).
        cbn [consume fd cli2] in Hfd'. rewrite Hfdeq in Hfd'. done.
Qed.

Lemma handle_client_data_within
  (i : nat) (r : read_result) (st st' : server) (cli : client_t) tr :
  st !! i = Some cli ->
  fd cli <> -1 ->
  handle_client_data i r st = Ok st' tr ->
  Forall (event_within i (fd cli) st) tr
  /\ exists cli',
       st' = <[i := cli']> st
       /\ addr cli' = addr cli
       /\ ((fd cli' = fd cli /\ closes tr = O)
           \/ (fd cli' = -1 /\ closes tr = 1%nat)).
Proof.
  intros Hi Hfd. unfold handle_client_data.
  rewrite Hi, (proj2 (Z.eqb_neq _ _) Hfd).
  assert (i < length st)%nat as Hlt by (by eapply lookup_lt_Some).
  assert (forall st0 tr0,
            remove_client i st = Ok st0 tr0 ->
            Forall (event_within i (fd cli) st) tr0
            /\ exists cli',
                 st0 = <[i := cli']> st
                 /\ addr cli' = addr cli
                 /\ ((fd cli' = fd cli /\ closes tr0 = O)
                     \/ (fd cli' = -1 /\ closes tr0 = 1%nat))) as Hrm.
  { intros st0 tr0.
    destruct (remove_client_within i st cli Hi Hfd)
      as (sends & -> & Hsends & Hw).
    intros [= <- <-]. split; [by apply Forall_cons|]. exists (closed cli).
    split; [done|]. split; [done|]. right. split; [done|].
    cbn [closes]. by rewrite (closes_all_sends sends). }
  assert (Ok st [] = Ok st' tr ->
          Forall (event_within i (fd cli) st) tr
          /\ exists cli',
               st' = <[i := cli']> st
               /\ addr cli' = addr cli
               /\ ((fd cli' = fd cli /\ closes tr = O)
                   \/ (fd cli' = -1 /\ closes tr = 1%nat))) as Hid.
  { intros [= <- <-]. split; [done|]. exists cli.
    split; [by rewrite list_insert_id|]. split; [done | by left]. }
  destruct r as [data|[]]; [|done|by apply Hrm].
  destruct (_ >? 0); [|by apply Hrm].
  intros Hpb.
  destruct (process_buffer_within _ i _ _ (append cli data) _
              ltac:(by apply list_lookup_insert_eq) Hfd Hpb)
    as (Hw & cli' & -> & Haddr & Hfd').
  rewrite list_insert_insert_eq. split.
  - eapply Forall_impl; [apply Hw|]. intros e.
    apply (event_within_insert _ _ _ cli); [done | by left].
  - by exists cli'.
Qed.

(** X11: handling the data of one connected session stays within that
    session.  Every other slot of the table is left as it was; the session
    keeps its address, and its descriptor unless it is closed; the only
    socket closed, at most once, is the session's own; the only frames
    processed are the session's; and every message goes to a slot of the
    table that is connected, on the descriptor that the slot holds. *)
Theorem handle_client_data_stays_within
  (i : nat) (r : read_result) (st st' : server) (cli : client_t) tr :
  st !! i = Some cli ->
  fd cli <> -1 ->
  handle_client_data i r st = Ok st' tr ->
  length st' = length st
  /\ (forall j : nat, j <> i -> st' !! j = st !! j)
  /\ (exists cli',
        st' !! i = Some cli'
        /\ addr cli' = addr cli
        /\ ((fd cli' = fd cli /\ closes tr = O)
            \/ (fd cli' = -1 /\ closes tr = 1%nat)))
  /\ Forall (event_within i (fd cli) st) tr.
Proof.
  intros Hi Hfd Hh.
  destruct (handle_client_data_within _ _ _ _ _ _ Hi Hfd Hh)
    as (Hw & cli' & -> & Hrest).
  split; [by rewrite length_insert|].
  split; [intros j Hj; by rewrite list_lookup_insert_ne|].
  split; [|done]. exists cli'. split; [|done].
  apply list_lookup_insert_eq. by eapply lookup_lt_Some.
Qed.

Lemma stays_within_witness :
  length (state_of (handle_client_data 0 (ReadBytes register_alice)
                      two_connected))
  = length two_connected
  /\ Forall (event_within 0 (fd (slot 0 two_connected)) two_connected)
       (trace_of (handle_client_data 0 (ReadBytes register_alice)
                    two_connected)).
Proof.
  refine ((fun H => conj (proj1 H) (proj2 (proj2 (proj2 H))))
            (handle_client_data_stays_within 0
               (ReadBytes register_alice) two_connected
               (state_of (handle_client_data 0
                  (ReadBytes register_alice) two_connected))
               (slot 0 two_connected)
               (trace_of (handle_client_data 0
                  (ReadBytes register_alice) two_connected))
               _ _ _)).
  - reflexivity.
  - vm_compute. lia.
  - vm_compute. reflexivity.
Defined.

(** ** The event loop of main *)

Lemma occupied_insert (i : nat) (st : server) (c0 c : client_t) :
  st !! i = Some c0 ->
  (occupied (<[i := c]> st) + (if decide (fd c0 = (-1)%Z) then 0 else 1)
   = occupied st + (if decide (fd c = (-1)%Z) then 0 else 1))%nat.
Proof.
  unfold occupied. revert i. induction st as [|x st IH]; intros [|i] Hi;
    try done; simpl in Hi.
  - injection Hi as ->. cbn [insert list_insert].
    rewrite !filter_cons. repeat case_decide; simpl; lia.
  - specialize (IH i Hi).
    change (<[S i := c]> (x :: st)) with (x :: <[i := c]> st).
    rewrite !filter_cons. destruct (decide (fd x <> -1)); simpl; lia.
Qed.

Lemma occupied_init (max_clients : nat) : occupied (init_server max_clients) = O.
Proof.
  unfold occupied, init_server.
  induction max_clients as [|n IH]; [done|].
  cbn [replicate]. by rewrite filter_cons_False by (simpl; auto).
Qed.

Lemma closes_cleanup (server_fd : Z) (st : server) :
  closes (cleanup server_fd st) = (occupied st + 1)%nat.
Proof.
  unfold cleanup, occupied. induction st as [|c st IH]; [done|].
  cbn [flat_map]. rewrite filter_cons.
  destruct (fd c =? -1) eqn:Hfd.
  - apply Z.eqb_eq in Hfd. by rewrite decide_False by auto.
  - apply Z.eqb_neq in Hfd. rewrite decide_True by done.
    cbn [app closes length]. by rewrite IH.
Qed.

Lemma sys_read_within (i : nat) pending (st : server) (cli : client_t) :
  st !! i = Some cli -> 0 <= len cli <= BUF_SIZE ->
  read_within i (sys_read pending (BUF_SIZE - len cli)) st.
Proof.
  intros Hi Hlen. destruct pending as [data|]; [|done].
  intros c Hc. assert (c = cli) as -> by congruence.
  rewrite length_take. lia.
Qed.

(** One slot of the loop over the client sockets. *)
Lemma check_slot_ok (i : nat) (st st' : server) (cli : client_t) pending tr :
  table_ok st ->
  st !! i = Some cli ->
  fd cli <> -1 ->
  handle_client_data i (sys_read pending (BUF_SIZE - len cli)) st
  = Ok st' tr ->
  table_ok st' /\ length st' = length st
  /\ (closes tr + occupied st' = occupied st)%nat.
Proof.
  intros Hst Hi Hfd Hh.
  pose proof (table_ok_lookup _ _ _ Hst Hi) as [Hb _].
  destruct (handle_client_data_ok _ _ _ _ _ Hst
              (sys_read_within i pending st cli Hi Hb) Hh) as [Hst' _].
  destruct (handle_client_data_within _ _ _ _ _ _ Hi Hfd Hh)
    as (_ & cli' & -> & _ & Hfd').
  split; [done|]. split; [by rewrite length_insert|].
  pose proof (occupied_insert i st cli cli' Hi) as Hocc.
  rewrite decide_False in Hocc by done.
  destruct Hfd' as [[Heq ->] | [Heq ->]].
  - rewrite decide_False in Hocc by congruence. lia.
  - rewrite decide_True in Hocc by done. lia.
Qed.

Lemma check_clients_ok (n : nat) :
  forall (i : nat) revents (st st' : server) tr,
    table_ok st ->
    (i + n <= length st)%nat ->
    check_clients n i revents st = Ok st' tr ->
    table_ok st' /\ length st' = length st
    /\ (closes tr + occupied st' = occupied st)%nat.
Proof.
  induction n as [|n IH]; intros i revents st st' tr Hst Hn.
  { intros [= <- <-]. done. }
  cbn [check_clients].
  destruct (st !! i) as [cli|] eqn:Hi;
    [|apply lookup_ge_None in Hi; lia].
  assert (forall r,
            (r = Ok st [] \/ (fd cli <> -1 /\ exists pending,
               r = handle_client_data i
                     (sys_read pending (BUF_SIZE - len cli)) st)) ->
            and_then r (check_clients n (S i) revents) = Ok st' tr ->
            table_ok st' /\ length st' = length st
            /\ (closes tr + occupied st' = occupied st)%nat) as Hstep.
  { intros r Hr Hseq.
    destruct r as [st1 tr1| |]; [|done|done]. simpl in Hseq.
    destruct (check_clients n (S i) revents st1) as [st2 tr2| |] eqn:Hrec;
      [|done|done].
    injection Hseq as <- <-.
    assert (table_ok st1 /\ length st1 = length st
            /\ (closes tr1 + occupied st1 = occupied st)%nat)
      as (Hst1 & Hlen1 & Hocc1).
    { destruct Hr as [[= -> ->] | (Hfd & pending & Heq)]; [done|].
      by eapply check_slot_ok. }
    destruct (IH (S i) revents st1 st2 tr2 Hst1 ltac:(lia) Hrec)
      as (Hst2 & Hlen2 & Hocc2).
    split; [done|]. split; [congruence|]. rewrite closes_app. lia. }
  destruct (revents !! i) as [[pending|]|]; try (apply Hstep; by left).
  destruct (fd cli =? -1) eqn:Hfd; [apply Hstep; by left|].
  apply Z.eqb_neq in Hfd. apply Hstep. right. split; [done|]. by exists pending.
Qed.

Lemma occupied_alter_free (j : nat) (st : server) (c : client_t) f :
  st !! j = Some c -> fd c = -1 -> fd (f c) <> -1 ->
  occupied (alter f j st) = S (occupied st).
Proof.
  intros Hj Hc Hf.
  assert (alter f j st = <[j := f c]> st) as ->.
  { apply list_eq. intros k. destruct (decide (k = j)) as [->|Hne].
    - rewrite list_lookup_alter_eq, Hj, list_lookup_insert_eq
        by (by eapply lookup_lt_Some). done.
    - by rewrite list_lookup_alter_ne, list_lookup_insert_ne. }
  pose proof (occupied_insert j st c (f c) Hj) as Hocc.
  rewrite decide_True in Hocc by done.
  rewrite decide_False in Hocc by done. lia.
Qed.

Lemma accept_client_count client_fd remote_addr nonblocking (st : server) :
  (closes (accept_client client_fd remote_addr nonblocking st).2
   + occupied (accept_client client_fd remote_addr nonblocking st).1
   = occupied st + (if (client_fd =? -1)%Z then 0 else 1))%nat
  /\ length (accept_client client_fd remote_addr nonblocking st).1
     = length st.
Proof.
  unfold accept_client. destruct (client_fd =? -1) eqn:Hfd; [simpl; lia|].
  apply Z.eqb_neq in Hfd.
  destruct (nonblocking =? -1); [simpl; lia|].
  destruct (find_slot st) as [j|] eqn:Hj; [|simpl; lia].
  apply find_slot_Some in Hj as [(c & Hc & Hfree) _]. cbn [fst snd closes].
  rewrite (occupied_alter_free j st c) by done.
  rewrite length_alter. lia.
Qed.

Lemma loop_iteration_ok (p : poll_result) (st st' : server) tr :
  table_ok st ->
  loop_iteration p st = Next (Ok st' tr) ->
  table_ok st' /\ length st' = length st
  /\ (closes tr + occupied st' = occupied st + accepts_of p)%nat.
Proof.
  intros Hst. unfold loop_iteration, accepts_of.
  destruct (num_ready p =? -1).
  { destruct (eintr p); [|done]. intros [= <- <-].
    split; [done|]. split; [done|]. simpl. lia. }
  destruct (num_ready p =? 0).
  { intros [= <- <-]. split; [done|]. split; [done|]. simpl. lia. }
  cbn [orb].
  assert (forall st1 tr1 k,
            table_ok st1 -> length st1 = length st ->
            (closes tr1 + occupied st1 = occupied st + k)%nat ->
            Next (and_then (Ok st1 tr1)
                    (fun s => check_clients (length s) 0 (revents p) s))
            = Next (Ok st' tr) ->
            table_ok st' /\ length st' = length st
            /\ (closes tr + occupied st' = occupied st + k)%nat) as Hcheck.
  { intros st1 tr1 k Hst1 Hlen1 Hocc1. cbn [and_then].
    destruct (check_clients (length st1) 0 (revents p) st1)
      as [st2 tr2| |] eqn:Hcc; [|done|done].
    intros [= <- <-].
    destruct (check_clients_ok (length st1) O _ st1 _ _ Hst1
                (Nat.le_refl _) Hcc)
      as (Hst2 & Hlen2 & Hocc2).
    split; [done|]. split; [congruence|]. rewrite closes_app. lia. }
  destruct (incoming p) as [a|].
  - destruct (accept_client_count (conn_fd a) (conn_addr a)
                (conn_nonblocking a) st) as [Hocc Hlen].
    apply Hcheck; [by apply accept_client_ok | done |].
    destruct (conn_fd a =? -1); lia.
  - apply Hcheck; simpl; done || lia.
Qed.

Lemma event_loop_ok (polls : list poll_result) :
  forall (st st' : server) tr,
    table_ok st ->
    event_loop polls st = Next (Ok st' tr) ->
    table_ok st' /\ length st' = length st
    /\ (closes tr + occupied st' = occupied st + accepts polls)%nat.
Proof.
  unfold accepts.
  induction polls as [|p polls IH]; intros st st' tr Hst.
  { intros [= <- <-]. simpl. split; [done|]. split; [done | lia]. }
  cbn [event_loop].
  destruct (loop_iteration p st) as [[st1 tr1| |]|] eqn:Hit; try done.
  destruct (event_loop polls st1) as [[st2 tr2| |]|] eqn:Hrec; try done.
  intros [= <- <-].
  destruct (loop_iteration_ok _ _ _ _ Hst Hit) as (Hst1 & Hlen1 & Hocc1).
  destruct (IH _ _ _ Hst1 Hrec) as (Hst2 & Hlen2 & Hocc2).
  split; [done|]. split; [congruence|].
  rewrite closes_app.
  change (sum_list (map accepts_of (p :: polls)))
    with (accepts_of p + sum_list (map accepts_of polls))%nat. lia.
Qed.

(** X12: the event loop of main keeps the table well formed.  From the
    table that main initialises, after any sequence of results of poll, of
    accepted connections and of reads (each returning at most the count it
    was given), the table still has [max_clients] slots, every length is
    between 0 and 1024, and an empty slot holds no bytes and no username. *)
Theorem event_loop_keeps_the_table
  (max_clients : nat) (polls : list poll_result) (st : server) tr :
  event_loop polls (init_server max_clients) = Next (Ok st tr) ->
  table_ok st /\ length st = max_clients.
Proof.
  intros Hloop.
  destruct (event_loop_ok polls _ _ _ (table_ok_init max_clients) Hloop)
    as (Hst & Hlen & _).
  split; [done|]. rewrite Hlen. apply length_replicate.
Qed.

Lemma event_loop_table_witness :
  exists st tr,
    event_loop sample_polls (init_server 2) = Next (Ok st tr)
    /\ table_ok st /\ length st = 2%nat.
Proof.
  eexists _, _. split; [vm_compute; reflexivity|].
  apply (event_loop_keeps_the_table 2 sample_polls _
           (trace_of (match event_loop sample_polls (init_server 2) with
                      | Next r => r
                      | Exit => Undefined
                      end))).
  vm_compute. reflexivity.
Defined.

(** X13: descriptors are conserved over a run.  In a run of main that
    leaves the loop through the shutdown flag, the number of calls of close
    is the number of connections that accept returned plus one, for the
    listening socket: connections turned away, sessions that hung up or
    were dropped and sessions still connected at the end are all counted,
    none of them twice. *)
Theorem every_accepted_socket_is_closed
  (server_fd : Z) (max_clients : nat) (polls : list poll_result) tr :
  serve server_fd max_clients polls = Some tr ->
  closes tr = (accepts polls + 1)%nat.
Proof.
  unfold serve.
  destruct (event_loop polls (init_server max_clients))
    as [[st tr1| |]|] eqn:Hloop; try done.
  intros [= <-].
  destruct (event_loop_ok polls _ _ _ (table_ok_init max_clients) Hloop)
    as (_ & _ & Hocc).
  rewrite closes_app, closes_cleanup, occupied_init in *. lia.
Qed.

Lemma accepted_closed_witness :
  closes (default [] (serve 3 2 sample_polls)) = (accepts sample_polls + 1)%nat.
Proof.
  apply (every_accepted_socket_is_closed 3 2 sample_polls).
  vm_compute. reflexivity.
Defined.

(** ** The client: the receiver's loop, the username and the sender *)

Lemma receiver_thread_frame (f : frame) (more : list byte) (b : bool) :
  frame_ok f ->
  receiver_thread b (frame_wire f ++ more)
  = match f with
    | ChatFrame _ _ _ _ => if b then None else Some (f, more)
    | _ => Some (f, more)
    end.
Proof.
  intros Hf.
  destruct f as [ip port name msg | ip port name | ip port name];
    cbn [frame_wire frame_ok] in *.
  - destruct Hf as (Hip & Hport & Hn & Hnl & Hfit).
    by apply (receiver_thread_wire MSG_TYPE_CHAT (mk_addr ip port) name msg).
  - destruct Hf as (Hip & Hport & Hn).
    by apply (receiver_thread_wire MSG_TYPE_JOIN (mk_addr ip port) name []).
  - destruct Hf as (Hip & Hport & Hn).
    by apply (receiver_thread_wire MSG_TYPE_DISCONNECT (mk_addr ip port)
                name []).
Qed.

(** X14: the receiver reads back the stream of server frames, up to the
    moment it is told to stop.  For any sequence of Join notices, Disconnect
    notices and chat messages with names of 1 to 31 bytes and texts without
    newline of at most 1023 bytes, laid end to end, and whatever the values
    of the shared flag [should_stop] that the loop of receiver_thread reads,
    the frames logged are the first frames of the sequence, in order:
    nothing is logged that was not sent, nothing out of turn.  As long as
    the flag is found clear (the sender thread has not ended), every frame
    is logged: iterations that read the flag clear, at least as many as
    there are frames, log exactly the sequence. *)
Theorem receiver_loop_recovers_the_stream
  (fs : list frame) (flags : list (bool * bool)) :
  Forall frame_ok fs ->
  (exists rest, fs = receiver_loop flags (concat (map frame_wire fs)) ++ rest)
  /\ (Forall (fun p => p = (false, false)) flags ->
      (length fs <= length flags)%nat ->
      receiver_loop flags (concat (map frame_wire fs)) = fs).
Proof.
  intros Hok. split.
  - revert flags. induction Hok as [|f fs Hf Hfs IH]; intros flags.
    + exists []. destruct flags as [|[[] b] flags]; try done.
    + destruct flags as [|[[] b] flags]; try (by eexists).
      cbn [map concat receiver_loop].
      rewrite (receiver_thread_frame f _ b Hf).
      destruct (IH flags) as [rest Hrest].
      assert (exists rest', f :: fs
                = (f :: receiver_loop flags (concat (map frame_wire fs)))
                    ++ rest') as Hcons
        by (exists rest; cbn [app]; by rewrite <- Hrest).
      destruct f; destruct b; try done; by eexists.
  - revert flags. induction Hok as [|f fs Hf Hfs IH]; intros flags Hflags Hlen.
    + by destruct flags as [|[[] b] flags].
    + destruct flags as [|p flags]; [simpl in Hlen; lia|].
      apply Forall_cons in Hflags as [-> Hflags].
      cbn [map concat receiver_loop].
      rewrite (receiver_thread_frame f _ false Hf).
      assert (receiver_loop flags (concat (map frame_wire fs)) = fs) as Hrec
        by (apply IH; [done | simpl in Hlen; lia]).
      destruct f; cbv iota; by rewrite Hrec.
Qed.

Lemma receiver_loop_witness :
  receiver_loop [(false, false); (false, false)]
    (concat (map frame_wire [JoinFrame 16777343 10240 alice;
                             ChatFrame 16777343 10240 alice hello]))
  = [JoinFrame 16777343 10240 alice; ChatFrame 16777343 10240 alice hello].
Proof.
  refine (proj2 (receiver_loop_recovers_the_stream
                   [JoinFrame 16777343 10240 alice;
                    ChatFrame 16777343 10240 alice hello]
                   [(false, false); (false, false)] _) _ _).
  - apply Forall_cons. split; [simpl; lia|].
    apply Forall_cons. split; [|by apply Forall_nil].
    simpl. repeat (split; [lia|]).
    split; [apply index_of_None; reflexivity | unfold BUF_SIZE; lia].
  - apply Forall_cons. split; [reflexivity|].
    apply Forall_cons. split; [reflexivity | by apply Forall_nil].
  - simpl. lia.
Defined.

Lemma thread_username_array (name : list byte) :
  (length name < 32)%nat ->
  store (MAX_USERNAME_LEN - 1) [NUL]
    (store 0 (firstn (Z.to_nat (MAX_USERNAME_LEN - 1))
                (name ++ replicate (Z.to_nat (MAX_USERNAME_LEN - 1)) NUL))
       (replicate (Z.to_nat MAX_USERNAME_LEN) NUL))
  = name ++ NUL :: replicate (31 - length name) NUL.
Proof.
  intros Hn. change (Z.to_nat (MAX_USERNAME_LEN - 1)) with 31%nat.
  change (Z.to_nat MAX_USERNAME_LEN) with 32%nat.
  assert (take 31 (name ++ replicate 31 NUL)
          = name ++ replicate (31 - length name) NUL) as ->.
  { rewrite take_app, take_ge by lia. f_equal.
    rewrite take_replicate. f_equal. lia. }
  set (row := name ++ replicate (31 - length name) NUL).
  assert (length row = 31%nat) as Hrow
    by (unfold row; rewrite length_app, length_replicate; lia).
  unfold store. change (Z.to_nat 0) with O.
  change (Z.to_nat (MAX_USERNAME_LEN - 1)) with 31%nat.
  rewrite take_0, Hrow. cbn [app Nat.add length].
  change (drop 31 (replicate 32 NUL)) with [NUL].
  assert (take 31 (row ++ [NUL]) = row) as ->.
  { rewrite take_app, take_ge, Hrow by lia. apply app_nil_r. }
  rewrite (drop_ge (row ++ [NUL])) by (rewrite length_app, Hrow; simpl; lia).
  unfold row. rewrite <- app_assoc. f_equal.
  change (NUL :: replicate (31 - length name) NUL)
    with (replicate (S (31 - length name)) NUL).
  by rewrite replicate_S_end.
Qed.

(** X15: the username that main takes from the command line.  A name of 32
    bytes or more is refused; a shorter one is copied into the 32-cell array
    of the thread data, NUL-terminated and NUL-padded, and the registration
    message that sender_thread builds from the array is the type byte 3,
    the length of the name, the name and a newline. *)
Theorem thread_username_holds_the_name (argv3 name : list byte) :
  holds_name argv3 name ->
  (32 <= length name -> thread_username argv3 = None)%nat
  /\ ((length name < 32)%nat ->
      exists u,
        thread_username argv3 = Some u
        /\ length u = 32%nat
        /\ holds_name u name
        /\ username_msg u
           = byte.of_Z MSG_TYPE_USERNAME
               :: byte.of_Z (Z.of_nat (length name)) :: name ++ [NEWLINE]).
Proof.
  intros Harg. destruct (strlen_holds _ _ Harg) as [Hlen Hstr].
  unfold thread_username, strncpy. rewrite Hlen, Hstr. split; intros Hn.
  - by rewrite (proj2 (Z.geb_le _ _)) by (unfold MAX_USERNAME_LEN; lia).
  - destruct (Z.of_nat (length name) >=? MAX_USERNAME_LEN) eqn:Hge.
    { apply Z.geb_le in Hge. unfold MAX_USERNAME_LEN in Hge. lia. }
    rewrite thread_username_array by done.
    assert (holds_name (name ++ NUL :: replicate (31 - length name) NUL) name)
      as Hu by (split; [by destruct Harg | by eexists]).
    eexists. split; [reflexivity|]. split; [|split; [done|]].
    + rewrite length_app. cbn [length]. rewrite length_replicate. lia.
    + apply username_msg_wire; [done | lia].
Qed.

Lemma thread_username_witness :
  exists u,
    thread_username (alice ++ [NUL]) = Some u
    /\ length u = 32%nat
    /\ holds_name u alice
    /\ username_msg u
       = byte.of_Z MSG_TYPE_USERNAME
           :: byte.of_Z (Z.of_nat (length alice)) :: alice ++ [NEWLINE].
Proof.
  refine (proj2 (thread_username_holds_the_name (alice ++ [NUL]) alice _) _).
  - split; [apply index_of_None; reflexivity | by eexists].
  - simpl. lia.
Defined.

Lemma client_chat_msg_hex (bytes : list byte) :
  length bytes = 10%nat ->
  bytes_to_hex (Some bytes) RAND_BYTES true (RAND_BYTES * 2 + 1)
  = HexText (concat (map sprintf_02X bytes) ++ [NUL])
  /\ client_chat_msg (concat (map sprintf_02X bytes) ++ [NUL])
     = byte.of_Z MSG_TYPE_CHAT :: concat (map sprintf_02X bytes) ++ [NEWLINE].
Proof.
  intros Hlen. split.
  - unfold bytes_to_hex, RAND_BYTES, load.
    change (negb true || (10 <=? 0)) with false.
    change (10 * 2 + 1 >? SSIZE_MAX) with false.
    change (10 * 2 + 1 <? 10 * 2 + 1) with false.
    change ((10 - 1) * 2 >? INT_MAX) with false. cbv iota.
    change (Z.to_nat 0) with O. change (Z.to_nat 10) with 10%nat.
    by rewrite drop_0, take_ge by lia.
  - unfold client_chat_msg.
    pose proof (hex_digits_sprintf bytes) as Hhex.
    assert (cstring (concat (map sprintf_02X bytes) ++ [NUL])
            = concat (map sprintf_02X bytes)) as ->; [|done].
    apply (strlen_holds (_ ++ [NUL])). split; [|by eexists].
    intros Hin. rewrite Forall_forall in Hhex. by apply Hhex in Hin.
Qed.

(** X16: what sender_thread puts on the wire.  When the registration is
    sent, the messages are the registration, then the chat messages, then
    the disconnect message if its send succeeds; there are at most
    [num_messages] chat messages, and each one is the type byte 0, twenty
    characters among 0-9 and A-F, and one newline, which is its last byte
    and its only one: 22 bytes that the server's read loop takes as one
    frame. *)
Theorem sender_thread_messages
  (username : list byte) (num_messages : Z) (env : list attempt)
  (farewell : bool) :
  Forall (fun a => forall bytes, random_bytes a = Some bytes ->
                                 length bytes = 10%nat) env ->
  exists chats,
    sender_thread username true num_messages env farewell
    = username_msg username :: chats ++ (if farewell then [end_msg] else [])
    /\ Z.of_nat (length chats) <= Z.max 0 num_messages
    /\ (length chats <= length env)%nat
    /\ Forall (fun m => exists hex,
                  m = byte.of_Z MSG_TYPE_CHAT :: hex ++ [NEWLINE]
                  /\ length hex = 20%nat
                  /\ Forall (fun c => is_hex_digit c = true) hex
                  /\ NEWLINE ∉ hex) chats.
Proof.
  intros Henv. exists (send_random (Z.to_nat num_messages) env).
  split; [done|].
  assert (forall n,
            (length (send_random n env) <= n)%nat
            /\ (length (send_random n env) <= length env)%nat
            /\ Forall (fun m => exists hex,
                  m = byte.of_Z MSG_TYPE_CHAT :: hex ++ [NEWLINE]
                  /\ length hex = 20%nat
                  /\ Forall (fun c => is_hex_digit c = true) hex
                  /\ NEWLINE ∉ hex) (send_random n env)) as Hall.
  { induction Henv as [|a env Ha Henv IH]; intros [|n]; cbn [send_random];
      try (split; [simpl; lia | split; [simpl; lia | by apply Forall_nil]]).
    destruct (random_bytes a) as [bytes|] eqn:Hbytes;
      [|split; [simpl; lia | split; [simpl; lia | by apply Forall_nil]]].
    specialize (Ha bytes eq_refl).
    destruct (client_chat_msg_hex bytes Ha) as [-> Hmsg].
    destruct (send_ok a);
      [|split; [simpl; lia | split; [simpl; lia | by apply Forall_nil]]].
    destruct (IH n) as (Hn & Hl & Hrest).
    split; [simpl; lia|]. split; [simpl; lia|].
    apply Forall_cons. split; [|done].
    exists (concat (map sprintf_02X bytes)). split; [done|].
    split; [rewrite length_sprintf; lia|].
    pose proof (hex_digits_sprintf bytes) as Hhex. split; [done|].
    intros Hin. rewrite Forall_forall in Hhex. by apply Hhex in Hin. }
  destruct (Hall (Z.to_nat num_messages)) as (Hn & Hl & Hrest).
  split; [lia|]. done.
Qed.

Lemma sender_thread_witness :
  exists chats,
    sender_thread (alice ++ [NUL]) true 2
      [mk_attempt (Some (bytes_of [222; 173; 190; 239; 0; 1; 2; 3; 4; 5]))
         true;
       mk_attempt None true] true
    = username_msg (alice ++ [NUL]) :: chats ++ [end_msg]
    /\ Z.of_nat (length chats) <= Z.max 0 2
    /\ (length chats <= 2)%nat
    /\ Forall (fun m => exists hex,
                  m = byte.of_Z MSG_TYPE_CHAT :: hex ++ [NEWLINE]
                  /\ length hex = 20%nat
                  /\ Forall (fun c => is_hex_digit c = true) hex
                  /\ NEWLINE ∉ hex) chats.
Proof.
  apply (sender_thread_messages (alice ++ [NUL]) 2
           [mk_attempt (Some (bytes_of [222; 173; 190; 239; 0; 1; 2; 3; 4; 5]))
              true;
            mk_attempt None true] true).
  repeat constructor; simpl; intros bytes [= <-]; reflexivity.
Defined.

(** ** A whole session, read by read *)

Lemma remove_registered
  (i : nat) (st : server) (cli : client_t) (name : list byte) :
  st !! i = Some cli ->
  fd cli <> -1 ->
  has_username cli <> 0 ->
  holds_name (username cli) name ->
  (length name < 32)%nat ->
  remove_client i st
  = Ok (<[i := closed cli]> st)
       (Close (fd cli)
          :: broadcast_message (<[i := closed cli]> st)
               (wire MSG_TYPE_DISCONNECT (addr cli) name [NEWLINE])).
Proof.
  intros Hi Hfd Hreg Hname Hn. unfold remove_client. rewrite Hi.
  rewrite (proj2 (Z.eqb_neq _ _) Hfd), (proj2 (Z.eqb_neq _ _) Hreg).
  by rewrite (presence_msg_wire _ _ _ name)
    by (try apply strncpy_holds; try done; unfold MAX_USERNAME_LEN; lia).
Qed.

Lemma read_registration
  (i : nat) (st : server) (cli : client_t) (name : list byte) :
  st !! i = Some cli ->
  fd cli <> -1 ->
  has_username cli = 0 ->
  len cli = 0 ->
  (0 < length name < 32)%nat ->
  length name <> 10%nat ->
  NUL ∉ name ->
  NEWLINE ∉ name ->
  exists cli' tr,
    handle_client_data i
      (ReadBytes (byte.of_Z MSG_TYPE_USERNAME
                    :: byte.of_Z (Z.of_nat (length name))
                    :: name ++ [NEWLINE])) st
    = Ok (<[i := cli']> st) tr
    /\ fd cli' = fd cli /\ addr cli' = addr cli /\ has_username cli' = 1
    /\ len cli' = 0 /\ holds_name (username cli') name
    /\ closes tr = O
    /\ forall (j : nat) other,
         j <> i -> st !! j = Some other ->
         sends_to j tr
         = if deliverable other
           then [wire MSG_TYPE_JOIN (addr cli) name [NEWLINE]]
           else [].
Proof.
  intros Hi Hfd Hreg Hlen Hn H10 Hnul Hnl.
  assert (i < length st)%nat as Hlt by (by eapply lookup_lt_Some).
  set (msg := byte.of_Z MSG_TYPE_USERNAME
                :: byte.of_Z (Z.of_nat (length name)) :: name ++ [NEWLINE]).
  rewrite (handle_read i st cli msg Hi Hfd) by done.
  rewrite Hlen.
  replace (Z.to_nat (0 + Z.of_nat (length msg))) with (S (length name + 2))
    by (unfold msg; simpl; rewrite length_app; simpl; lia).
  set (cli2 := append cli msg). set (st2 := <[i := cli2]> st).
  assert (buffered cli2 msg) as Hb2
    by (apply (buffered_append cli []); by apply buffered_empty).
  pose proof (loop_registration (S (length name + 2)) i st2 cli2 name []
                ltac:(by apply list_lookup_insert_eq) Hfd Hreg Hb2 Hn H10
                Hnul Hnl) as Hturn.
  cbv zeta in Hturn. destruct Hturn as (-> & Hb4 & Hname4).
  set (cli3 := register cli2 (Z.of_nat (length name))) in *.
  set (cli4 := consume cli3 (Z.of_nat (length name) + 3)) in *.
  cbn [and_then].
  assert (<[i := cli4]> (<[i := cli3]> st2) !! i = Some cli4) as Hi4
    by (apply list_lookup_insert_eq; unfold st2; by rewrite !length_insert).
  rewrite (loop_idle _ i _ cli4 [] Hi4 Hfd Hb4 (not_elem_of_nil _)
             ltac:(done)).
  exists cli4. eexists. split.
  { unfold st2. rewrite !list_insert_insert_eq. reflexivity. }
  repeat (split; [done|]). split; [by destruct Hb4|]. split; [done|].
  rewrite app_nil_r. split.
  { cbn [closes]. apply closes_all_sends, all_sends_broadcast. }
  intros j other Hji Hj. cbn [sends_to].
  apply sends_to_broadcast_message; [done|].
  unfold st2. by rewrite !list_lookup_insert_ne.
Qed.

Lemma read_chat
  (i : nat) (st : server) (cli : client_t) (name text : list byte) :
  st !! i = Some cli ->
  fd cli <> -1 ->
  has_username cli <> 0 ->
  holds_name (username cli) name ->
  (length name < 32)%nat ->
  len cli = 0 ->
  NEWLINE ∉ text ->
  Z.of_nat (length name) + Z.of_nat (length text) + 1 <= BUF_SIZE ->
  exists cli' tr,
    handle_client_data i
      (ReadBytes (byte.of_Z MSG_TYPE_CHAT :: text ++ [NEWLINE])) st
    = Ok (<[i := cli']> st) tr
    /\ fd cli' = fd cli /\ addr cli' = addr cli
    /\ has_username cli' = has_username cli
    /\ username cli' = username cli
    /\ len cli' = 0
    /\ closes tr = O
    /\ forall (j : nat) other,
         j <> i -> st !! j = Some other ->
         sends_to j tr
         = if deliverable other
           then [wire MSG_TYPE_CHAT (addr cli) name (text ++ [NEWLINE])]
           else [].
Proof.
  intros Hi Hfd Hreg Hname Hn Hlen Hnl Hfit.
  assert (i < length st)%nat as Hlt by (by eapply lookup_lt_Some).
  set (msg := byte.of_Z MSG_TYPE_CHAT :: text ++ [NEWLINE]).
  rewrite (handle_read i st cli msg Hi Hfd) by done.
  rewrite Hlen.
  replace (Z.to_nat (0 + Z.of_nat (length msg))) with (S (S (length text)))
    by (unfold msg; simpl; rewrite length_app; simpl; lia).
  set (cli2 := append cli msg). set (st2 := <[i := cli2]> st).
  assert (buffered cli2 msg) as Hb2
    by (apply (buffered_append cli []); by apply buffered_empty).
  pose proof (loop_chat (S (S (length text))) i st2 cli2 name text []
                ltac:(by apply list_lookup_insert_eq) Hfd Hreg Hname Hn Hb2
                Hnl Hfit) as Hturn.
  cbv zeta in Hturn. destruct Hturn as (-> & Hb4).
  set (cli4 := consume cli2 (Z.of_nat (length text) + 2)) in *.
  cbn [and_then].
  assert (<[i := cli4]> st2 !! i = Some cli4) as Hi4
    by (apply list_lookup_insert_eq; unfold st2; by rewrite !length_insert).
  rewrite (loop_idle _ i _ cli4 [] Hi4 Hfd Hb4 (not_elem_of_nil _)
             ltac:(done)).
  exists cli4. eexists. split.
  { unfold st2. rewrite !list_insert_insert_eq. reflexivity. }
  repeat (split; [done|]). split; [by destruct Hb4|].
  rewrite app_nil_r. split.
  { cbn [closes]. apply closes_all_sends, all_sends_broadcast. }
  intros j other Hji Hj. cbn [sends_to].
  apply sends_to_broadcast_message; [done|].
  unfold st2. by rewrite !list_lookup_insert_ne.
Qed.

Lemma read_disconnect
  (i : nat) (st : server) (cli : client_t) (name : list byte) :
  st !! i = Some cli ->
  fd cli <> -1 ->
  has_username cli <> 0 ->
  holds_name (username cli) name ->
  (length name < 32)%nat ->
  len cli = 0 ->
  exists cli' tr,
    handle_client_data i (ReadBytes end_msg) st = Ok (<[i := cli']> st) tr
    /\ fd cli' = -1
    /\ closes tr = 1%nat
    /\ forall (j : nat) other,
         j <> i -> st !! j = Some other ->
         sends_to j tr
         = if deliverable other
           then [wire MSG_TYPE_DISCONNECT (addr cli) name [NEWLINE]]
           else [].
Proof.
  intros Hi Hfd Hreg Hname Hn Hlen.
  assert (i < length st)%nat as Hlt by (by eapply lookup_lt_Some).
  rewrite (handle_read i st cli end_msg Hi Hfd) by done.
  rewrite Hlen. change (Z.to_nat (0 + Z.of_nat (length end_msg))) with 2%nat.
  set (cli2 := append cli end_msg). set (st2 := <[i := cli2]> st).
  assert (buffered cli2 ([byte.of_Z MSG_TYPE_DISCONNECT] ++ NEWLINE :: []))
    as Hb2 by (apply (buffered_append cli []); by apply buffered_empty).
  assert (st2 !! i = Some cli2) as Hi2 by (by apply list_lookup_insert_eq).
  assert (process_message i
            (Z.of_nat (length [byte.of_Z MSG_TYPE_DISCONNECT]) + 1) st2
          = Ok (<[i := closed cli2]> st2)
               (Close (fd cli)
                  :: broadcast_message (<[i := closed cli2]> st2)
                       (wire MSG_TYPE_DISCONNECT (addr cli) name [NEWLINE])))
    as Hpm.
  { etrans; [|exact (remove_registered i st2 cli2 name Hi2 Hfd Hreg Hname
                       Hn)].
    unfold process_message. rewrite Hi2.
    destruct Hb2 as [_ [tail Htail]].
    assert (msg_type_of cli2 = MSG_TYPE_DISCONNECT) as ->
      by (unfold msg_type_of; by rewrite Htail).
    done. }
  rewrite (loop_frame 2 i st2 _ cli2 (closed cli2) _ [] _ Hi2 Hfd Hb2
             ltac:(apply index_of_None; reflexivity) Hpm)
    by (apply list_lookup_insert_eq; unfold st2; by rewrite length_insert).
  change (fd (closed cli2) =? -1) with true. cbv iota.
  exists (closed cli2). eexists. split.
  { unfold st2. rewrite !list_insert_insert_eq. reflexivity. }
  split; [done|]. split.
  - cbn [closes]. by rewrite (closes_all_sends _ (all_sends_broadcast _ _)).
  - intros j other Hji Hj. cbn [sends_to].
    apply sends_to_broadcast_message; [done|].
    unfold st2. by rewrite !list_lookup_insert_ne.
Qed.

Lemma send_random_hex (n : nat) (env : list attempt) :
  Forall (fun a => forall bytes, random_bytes a = Some bytes ->
                                 length bytes = 10%nat) env ->
  exists hexes : list (list byte),
    send_random n env
    = map (fun hex => byte.of_Z MSG_TYPE_CHAT :: hex ++ [NEWLINE]) hexes
    /\ Forall (fun hex => length hex = 20%nat /\ NEWLINE ∉ hex) hexes.
Proof.
  intros Henv. revert n.
  induction Henv as [|a env Ha Henv IH]; intros [|n]; cbn [send_random];
    try (by exists []).
  destruct (random_bytes a) as [bytes|] eqn:Hbytes; [|by exists []].
  specialize (Ha bytes eq_refl).
  destruct (client_chat_msg_hex bytes Ha) as [-> Hmsg].
  destruct (send_ok a); [|by exists []].
  destruct (IH n) as (hexes & -> & Hrest).
  exists (concat (map sprintf_02X bytes) :: hexes).
  split; [by rewrite Hmsg|]. apply Forall_cons. split; [|done].
  split; [rewrite length_sprintf; lia|].
  pose proof (hex_digits_sprintf bytes) as Hhex.
  intros Hin. rewrite Forall_forall in Hhex. by apply Hhex in Hin.
Qed.

Lemma reads_chats_then_disconnect
  (i : nat) (name : list byte) (texts : list (list byte)) :
  (length name < 32)%nat ->
  Forall (fun t => (NEWLINE ∉ t)
                   /\ Z.of_nat (length name) + Z.of_nat (length t) + 1
                      <= BUF_SIZE) texts ->
  forall (st : server) (cli : client_t),
    st !! i = Some cli ->
    fd cli <> -1 ->
    has_username cli <> 0 ->
    holds_name (username cli) name ->
    len cli = 0 ->
    exists cli' tr,
      reads i (map (fun t => byte.of_Z MSG_TYPE_CHAT :: t ++ [NEWLINE]) texts
                 ++ [end_msg]) st
      = Ok (<[i := cli']> st) tr
      /\ fd cli' = -1
      /\ closes tr = 1%nat
      /\ forall (j : nat) other,
           j <> i -> st !! j = Some other ->
           sends_to j tr
           = if deliverable other
             then map (fun t => wire MSG_TYPE_CHAT (addr cli) name
                                  (t ++ [NEWLINE])) texts
                    ++ [wire MSG_TYPE_DISCONNECT (addr cli) name [NEWLINE]]
             else [].
Proof.
  intros Hn Htexts.
  induction Htexts as [|t texts [Hnl Hfit] Htexts IH];
    intros st cli Hi Hfd Hreg Hname Hlen;
    assert (i < length st)%nat as Hlt by (by eapply lookup_lt_Some).
  - destruct (read_disconnect i st cli name Hi Hfd Hreg Hname Hn Hlen)
      as (cli' & tr & Hread & Hfd' & Hcl & Hsends).
    cbn [map app reads]. rewrite Hread. cbn [and_then].
    exists cli', (tr ++ []). rewrite app_nil_r.
    repeat (split; [done|]). intros j other Hji Hj.
    rewrite (Hsends j other Hji Hj). by destruct (deliverable other).
  - destruct (read_chat i st cli name t Hi Hfd Hreg Hname Hn Hlen Hnl Hfit)
      as (cli1 & tr1 & Hread & Hfd1 & Haddr1 & Hreg1 & Hname1 & Hlen1
          & Hcl1 & Hs1).
    cbn [map app reads]. rewrite Hread.
    destruct (IH (<[i := cli1]> st) cli1
                ltac:(by apply list_lookup_insert_eq)
                ltac:(congruence) ltac:(congruence) ltac:(congruence) Hlen1)
      as (cli' & tr2 & Hrest & Hfd' & Hcl & Hs2).
    rewrite list_insert_insert_eq in Hrest.
    cbn [and_then]. rewrite Hrest.
    exists cli', (tr1 ++ tr2).
    repeat (split; [done|]). split; [rewrite closes_app; lia|].
    intros j other Hji Hj. rewrite sends_to_app, (Hs1 j other Hji Hj).
    rewrite (Hs2 j other Hji) by (by rewrite list_lookup_insert_ne).
    rewrite Haddr1. by destruct (deliverable other).
Qed.

(** X17: a whole session of the client, relayed.  A connected session with
    an empty buffer and no username receives, one message per read, what
    sender_thread sends for a name of 1 to 31 bytes (not 10) without
    newline: the registration, the chat messages and the disconnect
    message.  Every other session with a usable descriptor is then sent, in
    this order, the Join notice, one relayed chat message per message sent,
    carrying the sender's address, port and name before the twenty
    characters and the newline, and the Disconnect notice; the sender's
    socket is closed once and its slot is free again, and the rest of the
    table is unchanged. *)
Theorem sender_session_is_relayed
  (i j : nat) (st : server) (cli other : client_t) (u name : list byte)
  (num_messages : Z) (env : list attempt) :
  st !! i = Some cli ->
  fd cli <> -1 ->
  has_username cli = 0 ->
  len cli = 0 ->
  st !! j = Some other ->
  j <> i ->
  0 < fd other ->
  holds_name u name ->
  (0 < length name < 32)%nat ->
  length name <> 10%nat ->
  NEWLINE ∉ name ->
  Forall (fun a => forall bytes, random_bytes a = Some bytes ->
                                 length bytes = 10%nat) env ->
  exists (hexes : list (list byte)) cli' tr,
    sender_thread u true num_messages env true
    = username_msg u
        :: map (fun hex => byte.of_Z MSG_TYPE_CHAT :: hex ++ [NEWLINE]) hexes
        ++ [end_msg]
    /\ reads i (sender_thread u true num_messages env true) st
       = Ok (<[i := cli']> st) tr
    /\ fd cli' = -1
    /\ closes tr = 1%nat
    /\ sends_to j tr
       = wire MSG_TYPE_JOIN (addr cli) name [NEWLINE]
           :: map (fun hex => wire MSG_TYPE_CHAT (addr cli) name
                                (hex ++ [NEWLINE])) hexes
           ++ [wire MSG_TYPE_DISCONNECT (addr cli) name [NEWLINE]].
Proof.
  intros Hi Hfd Hreg Hlen Hj Hji Hother Hu Hn H10 Hnl Henv.
  assert (deliverable other = true) as Hdel.
  { unfold deliverable. rewrite (proj2 (Z.eqb_neq _ _)) by lia.
    by rewrite (proj2 (Z.gtb_lt _ _)) by lia. }
  assert (i < length st)%nat as Hlt by (by eapply lookup_lt_Some).
  destruct (send_random_hex (Z.to_nat num_messages) env Henv)
    as (hexes & Hhex & Hall).
  unfold sender_thread. rewrite Hhex, (username_msg_wire u name Hu) by lia.
  destruct (read_registration i st cli name Hi Hfd Hreg Hlen Hn H10
              ltac:(by destruct Hu) Hnl)
    as (cli1 & tr1 & Hread & Hfd1 & Haddr1 & Hreg1 & Hlen1 & Hname1 & Hcl1
        & Hs1).
  destruct (reads_chats_then_disconnect i name hexes ltac:(lia)
              ltac:(eapply Forall_impl; [apply Hall|];
                    intros hex [H20 Hnlh]; split; [done|];
                    unfold BUF_SIZE; lia)
              (<[i := cli1]> st) cli1
              ltac:(by apply list_lookup_insert_eq)
              ltac:(congruence) ltac:(rewrite Hreg1; lia) Hname1 Hlen1)
    as (cli' & tr2 & Hrest & Hfd' & Hcl & Hs2).
  rewrite list_insert_insert_eq in Hrest.
  exists hexes, cli', (tr1 ++ tr2). split; [done|].
  cbn [reads]. rewrite Hread. cbn [and_then]. rewrite Hrest.
  split; [done|]. split; [done|]. split; [rewrite closes_app; lia|].
  rewrite sends_to_app, (Hs1 j other Hji Hj).
  rewrite (Hs2 j other Hji) by (by rewrite list_lookup_insert_ne).
  by rewrite Hdel, Haddr1.
Qed.

Lemma sender_session_witness :
  exists (hexes : list (list byte)) cli' tr,
    sender_thread (alice ++ [NUL]) true 1
      [mk_attempt (Some (bytes_of [222; 173; 190; 239; 0; 1; 2; 3; 4; 5]))
         true] true
    = username_msg (alice ++ [NUL])
        :: map (fun hex => byte.of_Z MSG_TYPE_CHAT :: hex ++ [NEWLINE]) hexes
        ++ [end_msg]
    /\ reads 0
         (sender_thread (alice ++ [NUL]) true 1
            [mk_attempt
               (Some (bytes_of [222; 173; 190; 239; 0; 1; 2; 3; 4; 5]))
               true] true)
         two_connected
       = Ok (<[O := cli']> two_connected) tr
    /\ fd cli' = -1
    /\ closes tr = 1%nat
    /\ sends_to 1 tr
       = wire MSG_TYPE_JOIN (addr (slot 0 two_connected)) alice [NEWLINE]
           :: map (fun hex => wire MSG_TYPE_CHAT (addr (slot 0 two_connected))
                                alice (hex ++ [NEWLINE])) hexes
           ++ [wire MSG_TYPE_DISCONNECT (addr (slot 0 two_connected)) alice
                 [NEWLINE]].
Proof.
  apply (sender_session_is_relayed 0 1 two_connected (slot 0 two_connected)
           (slot 1 two_connected) (alice ++ [NUL]) alice 1).
  - reflexivity.
  - vm_compute. lia.
  - reflexivity.
  - reflexivity.
  - reflexivity.
  - lia.
  - vm_compute. reflexivity.
  - split; [apply index_of_None; reflexivity | by eexists].
  - simpl. lia.
  - simpl. lia.
  - apply index_of_None. reflexivity.
  - apply Forall_cons. split; [|by apply Forall_nil].
    simpl. intros bytes [= <-]. reflexivity.
Defined.

(** ** The length byte of a registration *)

(** X18: a registration whose length byte counts one byte more than the
    name is accepted: the bound checked is [msg_len >= 2 + username_len],
    which the frame meets when the newline that ends it is counted as the
    last byte of the name.  The session is then registered under the name
    followed by a newline, and that is the name the Join notice carries. *)
Theorem registration_counts_the_newline
  (i : nat) (st : server) (cli : client_t) (name : list byte) :
  st !! i = Some cli ->
  fd cli <> -1 ->
  has_username cli = 0 ->
  len cli = 0 ->
  (length name < 31)%nat ->
  length name <> 9%nat ->
  NUL ∉ name ->
  NEWLINE ∉ name ->
  exists cli' tr,
    handle_client_data i
      (ReadBytes (byte.of_Z MSG_TYPE_USERNAME
                    :: byte.of_Z (Z.of_nat (length name) + 1)
                    :: name ++ [NEWLINE])) st
    = Ok (<[i := cli']> st) tr
    /\ fd cli' = fd cli
    /\ has_username cli' = 1
    /\ cstring (username cli') = name ++ [NEWLINE]
    /\ forall (j : nat) other,
         j <> i -> st !! j = Some other ->
         sends_to j tr
         = if deliverable other
           then [wire MSG_TYPE_JOIN (addr cli) (name ++ [NEWLINE]) [NEWLINE]]
           else [].
Proof.
  intros Hi Hfd Hreg Hlen Hn H9 Hnul Hnl.
  assert (i < length st)%nat as Hlt by (by eapply lookup_lt_Some).
  set (f := byte.of_Z MSG_TYPE_USERNAME
              :: byte.of_Z (Z.of_nat (length name) + 1) :: name).
  change (byte.of_Z MSG_TYPE_USERNAME
            :: byte.of_Z (Z.of_nat (length name) + 1) :: name ++ [NEWLINE])
    with (f ++ [NEWLINE]).
  assert (length (name ++ [NEWLINE]) = S (length name)) as Hnn
    by (rewrite length_app; simpl; lia).
  assert (Z.of_nat (length name) + 1 = Z.of_nat (length (name ++ [NEWLINE])))
    as Hbyte by lia.
  assert (NEWLINE ∉ f) as Hf.
  { unfold f. rewrite !not_elem_of_cons. split; [done|]. split; [|done].
    intros Heq%(f_equal byte.unsigned).
    rewrite Hbyte, unsigned_of_nat in Heq by lia.
    change (byte.unsigned NEWLINE) with 10 in Heq. lia. }
  rewrite (handle_read i st cli (f ++ [NEWLINE]) Hi Hfd)
    by (by destruct f).
  rewrite Hlen.
  replace (Z.to_nat (0 + Z.of_nat (length (f ++ [NEWLINE]))))
    with (S (length name + 2))
    by (unfold f; rewrite length_app; simpl; lia).
  set (cli2 := append cli (f ++ [NEWLINE])). set (st2 := <[i := cli2]> st).
  assert (buffered cli2 (f ++ NEWLINE :: [])) as Hb2
    by (apply (buffered_append cli []); by apply buffered_empty).
  assert (st2 !! i = Some cli2) as Hi2 by (by apply list_lookup_insert_eq).
  destruct Hb2 as [Hl2 [tail Htail]].
  assert (buf cli2
          = byte.of_Z MSG_TYPE_USERNAME
              :: byte.of_Z (Z.of_nat (length (name ++ [NEWLINE])))
              :: (name ++ [NEWLINE]) ++ tail) as Hbuf2.
  { rewrite Htail, <- Hbyte. unfold f. simpl. by rewrite <- !app_assoc. }
  assert (NUL ∉ name ++ [NEWLINE]) as Hnul'.
  { rewrite not_elem_of_app, not_elem_of_cons. split; [done|].
    split; [done | apply not_elem_of_nil]. }
  set (cli3 := register cli2 (Z.of_nat (length (name ++ [NEWLINE])))).
  assert (process_message i (Z.of_nat (length f) + 1) st2
          = Ok (<[i := cli3]> st2)
               (broadcast_message (<[i := cli3]> st2)
                  (wire MSG_TYPE_JOIN (addr cli) (name ++ [NEWLINE])
                     [NEWLINE]))) as Hpm.
  { apply (process_registration i _ st2 cli2 (name ++ [NEWLINE]) tail);
      try done; [lia|]. unfold f. simpl. lia. }
  rewrite (loop_frame _ i st2 _ cli2 cli3 f [] _ Hi2 Hfd
             ltac:(split; [done | by exists tail]) Hf Hpm)
    by (apply list_lookup_insert_eq; unfold st2; by rewrite length_insert).
  change (fd cli3) with (fd cli). rewrite (proj2 (Z.eqb_neq _ _) Hfd).
  cbn [and_then].
  set (cli4 := consume cli3 (Z.of_nat (length f) + 1)).
  assert (buffered cli4 []) as Hb4.
  { apply (buffered_consume cli3 f []). split; [done | by exists tail]. }
  assert (<[i := cli4]> (<[i := cli3]> st2) !! i = Some cli4) as Hi4
    by (apply list_lookup_insert_eq; unfold st2; by rewrite !length_insert).
  rewrite (loop_idle _ i _ cli4 [] Hi4 Hfd Hb4 (not_elem_of_nil _)
             ltac:(done)).
  exists cli4. eexists. split.
  { unfold st2. rewrite !list_insert_insert_eq. reflexivity. }
  split; [done|]. split; [done|]. split.
  - apply strlen_holds.
    apply (register_holds cli2 (name ++ [NEWLINE]) tail
             (byte.of_Z MSG_TYPE_USERNAME)
             (byte.of_Z (Z.of_nat (length (name ++ [NEWLINE])))));
      done.
  - intros j other Hji Hj. rewrite app_nil_r. cbn [sends_to].
    apply sends_to_broadcast_message; [done|].
    unfold st2. by rewrite !list_lookup_insert_ne.
Qed.

Lemma registration_counts_witness :
  exists cli' tr,
    handle_client_data 0
      (ReadBytes (byte.of_Z MSG_TYPE_USERNAME
                    :: byte.of_Z (Z.of_nat (length alice) + 1)
                    :: alice ++ [NEWLINE])) two_connected
    = Ok (<[O := cli']> two_connected) tr
    /\ fd cli' = fd (slot 0 two_connected)
    /\ has_username cli' = 1
    /\ cstring (username cli') = alice ++ [NEWLINE]
    /\ forall (j : nat) other,
         j <> O -> two_connected !! j = Some other ->
         sends_to j tr
         = if deliverable other
           then [wire MSG_TYPE_JOIN (addr (slot 0 two_connected))
                   (alice ++ [NEWLINE]) [NEWLINE]]
           else [].
Proof.
  apply (registration_counts_the_newline 0 two_connected
           (slot 0 two_connected) alice).
  - reflexivity.
  - vm_compute. lia.
  - reflexivity.
  - reflexivity.
  - simpl. lia.
  - simpl. lia.
  - apply index_of_None. reflexivity.
  - apply index_of_None. reflexivity.
Defined.
